(** * AI Upscaler upload component: a shallow embedding and its properties

    The development models [AIUpscalerApp] of
    [ai_upscaler_website_react_single_file.jsx]: the nine [useState] cells,
    the two [useEffect] hooks, the event handlers [onFiles], [startUpscale],
    [clearAll], the XHR wrapper [uploadFile] and the polling closure [poll].

    One callback of the browser event loop (a click, an XHR event, a settled
    fetch, a timer) is one [step]: the callback runs against the state of the
    last render, its state updates are committed together, and the effects
    whose dependencies changed are cleaned up and run again. A render throws
    when a cell placed in the tree as a child holds an object; React then
    removes the component and the cleanups of the effects in place run. *)

From Stdlib Require Import ZArith Lia Bool List String Ascii.
From Stdlib Require Import Floats.SpecFloat Numbers.DecimalString.
From Stdlib Require Import Reals Lra.
From stdpp Require Import base option list gmap sets fin_sets.

#[local] Set Warnings "-register-all,-notation-for-abbreviation".

Import ListNotations.
Local Open Scope string_scope.
Local Open Scope list_scope.

(** ** JavaScript numbers: IEEE 754 binary64 *)

Module Number.

Definition prec : Z := 53.
Definition emax : Z := 1024.

Definition number := spec_float.

(** Conversion of an integer to the nearest double. *)
Definition of_Z (z : Z) : number := binary_normalize prec emax z 0 false.

Definition div (x y : number) : number := SFdiv prec emax x y.
Definition mul (x y : number) : number := SFmul prec emax x y.

(** [Math.round]: the integer closest to [x], ties towards +infinity; zeros,
    infinities and NaN are returned unchanged, and so is every double with a
    non-negative exponent, which is an integer already. *)
Definition Math_round (x : number) : number :=
  match x with
  | S754_finite s m e =>
      if (0 <=? e)%Z then x
      else
        let n := ((2 * cond_Zopp s (Z.pos m) + 2 ^ (- e)) / 2 ^ (1 - e))%Z in
        if (n =? 0)%Z then S754_zero s else of_Z n
  | _ => x
  end.

(** ToBoolean on a number: only the zeros and NaN are falsy. *)
Definition to_boolean (x : number) : bool :=
  match x with
  | S754_zero _ | S754_nan => false
  | _ => true
  end.

(** [Object.is] on numbers: NaN is itself, the two zeros differ. *)
Definition same (x y : number) : bool :=
  match x, y with
  | S754_zero s, S754_zero s' => Bool.eqb s s'
  | S754_infinity s, S754_infinity s' => Bool.eqb s s'
  | S754_nan, S754_nan => true
  | S754_finite s m e, S754_finite s' m' e' =>
      Bool.eqb s s' && (m =? m')%positive && (e =? e')%Z
  | _, _ => false
  end.

(** The literal [0]. *)
Definition zero : number := S754_zero false.

End Number.

Notation number := Number.number (only parsing).

(** ** JavaScript values *)

(** The result of [JSON.parse]. The members of an object are kept in source
    order; a later member with the same key overrides an earlier one. *)
Inductive json : Type :=
| JNull
| JBool (b : bool)
| JNum (x : number)
| JStr (s : string)
| JArr (items : list json)
| JObj (members : list (string * json)).

(** A value held in a variable or a state cell. Arrays and objects are
    references: [VObj r j] is the object [j] allocated at address [r]. *)
Definition address : Type := nat * string.

Inductive jsval : Type :=
| VUndef
| VNull
| VBool (b : bool)
| VNum (x : number)
| VStr (s : string)
| VObj (r : address) (j : json).

(** ToBoolean, as used by [if], [&&], [||] and [!]. *)
Definition truthy (v : jsval) : bool :=
  match v with
  | VUndef | VNull => false
  | VBool b => b
  | VNum x => Number.to_boolean x
  | VStr s => negb (s =? "")
  | VObj _ _ => true
  end.

(** [Object.is], which React uses to compare hook dependencies. *)
Definition same_value (v w : jsval) : bool :=
  match v, w with
  | VUndef, VUndef | VNull, VNull => true
  | VBool b, VBool c => Bool.eqb b c
  | VNum x, VNum y => Number.same x y
  | VStr s, VStr t => (s =? t)
  | VObj (n, k) _, VObj (n', k') _ => (n =? n')%nat && (k =? k')
  | _, _ => false
  end.

(** The last member of an object with the key [k]. *)
Fixpoint member (k : string) (ms : list (string * json)) : option json :=
  match ms with
  | [] => None
  | (k', j) :: ms' =>
      match member k ms' with
      | Some j' => Some j'
      | None => if k' =? k then Some j else None
      end
  end.

(** The value read out of a parsed document: primitives are copied, arrays
    and objects are referred to by the address they were parsed at. *)
Definition to_val (r : address) (j : json) : jsval :=
  match j with
  | JNull => VNull
  | JBool b => VBool b
  | JNum x => VNum x
  | JStr s => VStr s
  | JArr _ | JObj _ => VObj r j
  end.

(** [data.k] for [data] parsed as document number [doc]. Reading a property
    of [null] throws a TypeError ([None]); on other primitives and on arrays
    the properties read by this component are [undefined]. *)
Definition prop (doc : nat) (data : json) (k : string) : option jsval :=
  match data with
  | JNull => None
  | JObj ms =>
      match member k ms with
      | Some j => Some (to_val (doc, k) j)
      | None => Some VUndef
      end
  | _ => Some VUndef
  end.

(** [v ?? null]. *)
Definition nullish_or_null (v : jsval) : jsval :=
  match v with
  | VUndef => VNull
  | _ => v
  end.

(** [v || d]. *)
Definition or_else (v d : jsval) : jsval := if truthy v then v else d.

(** Decimal rendering of an integer inside a template literal. *)
Definition decimal (z : Z) : string := NilZero.string_of_int (Z.to_int z).

(** ** State of the component *)

Module File.
(** The fields of a DOM [File] the component reads. *)
Record t : Type := { name : string; size : Z; type : string }.
End File.

(** [fileType]: ['image' | 'video' | null]. *)
Inductive FileType : Type := image | video.

(** The nine [useState] cells. An object URL is identified by the number of
    the [URL.createObjectURL] call that made it. *)
Record State : Type := {
  file : option File.t;
  fileType : option FileType;
  previewUrl : option nat;
  message : jsval;
  uploadProgress : number;
  processingProgress : jsval;
  jobId : jsval;
  resultUrl : jsval;
  isProcessing : bool
}.

Definition initial_state : State :=
  {| file := None; fileType := None; previewUrl := None; message := VStr "";
     uploadProgress := Number.zero; processingProgress := VNull;
     jobId := VNull; resultUrl := VNull; isProcessing := false |}.

Definition setFile (v : option File.t) (s : State) : State :=
  {| file := v; fileType := fileType s; previewUrl := previewUrl s;
     message := message s; uploadProgress := uploadProgress s;
     processingProgress := processingProgress s; jobId := jobId s;
     resultUrl := resultUrl s; isProcessing := isProcessing s |}.

Definition setFileType (v : option FileType) (s : State) : State :=
  {| file := file s; fileType := v; previewUrl := previewUrl s;
     message := message s; uploadProgress := uploadProgress s;
     processingProgress := processingProgress s; jobId := jobId s;
     resultUrl := resultUrl s; isProcessing := isProcessing s |}.

Definition setPreviewUrl (v : option nat) (s : State) : State :=
  {| file := file s; fileType := fileType s; previewUrl := v;
     message := message s; uploadProgress := uploadProgress s;
     processingProgress := processingProgress s; jobId := jobId s;
     resultUrl := resultUrl s; isProcessing := isProcessing s |}.

Definition setMessage (v : jsval) (s : State) : State :=
  {| file := file s; fileType := fileType s; previewUrl := previewUrl s;
     message := v; uploadProgress := uploadProgress s;
     processingProgress := processingProgress s; jobId := jobId s;
     resultUrl := resultUrl s; isProcessing := isProcessing s |}.

Definition setUploadProgress (v : number) (s : State) : State :=
  {| file := file s; fileType := fileType s; previewUrl := previewUrl s;
     message := message s; uploadProgress := v;
     processingProgress := processingProgress s; jobId := jobId s;
     resultUrl := resultUrl s; isProcessing := isProcessing s |}.

Definition setProcessingProgress (v : jsval) (s : State) : State :=
  {| file := file s; fileType := fileType s; previewUrl := previewUrl s;
     message := message s; uploadProgress := uploadProgress s;
     processingProgress := v; jobId := jobId s;
     resultUrl := resultUrl s; isProcessing := isProcessing s |}.

Definition setJobId (v : jsval) (s : State) : State :=
  {| file := file s; fileType := fileType s; previewUrl := previewUrl s;
     message := message s; uploadProgress := uploadProgress s;
     processingProgress := processingProgress s; jobId := v;
     resultUrl := resultUrl s; isProcessing := isProcessing s |}.

Definition setResultUrl (v : jsval) (s : State) : State :=
  {| file := file s; fileType := fileType s; previewUrl := previewUrl s;
     message := message s; uploadProgress := uploadProgress s;
     processingProgress := processingProgress s; jobId := jobId s;
     resultUrl := v; isProcessing := isProcessing s |}.

Definition setIsProcessing (v : bool) (s : State) : State :=
  {| file := file s; fileType := fileType s; previewUrl := previewUrl s;
     message := message s; uploadProgress := uploadProgress s;
     processingProgress := processingProgress s; jobId := jobId s;
     resultUrl := resultUrl s; isProcessing := v |}.

Definition POLL_INTERVAL : Z := 3000.

Definition MAX_FILE_SIZE_BYTES : Z := 1024 * 1024 * 1024.

(** ** The browser around the component *)

(** Calls made to [URL], in order. *)
Inductive UrlCall : Type :=
| createObjectURL (u : nat)
| revokeObjectURL (u : nat).

(** One [poll] closure, made by one run of the polling effect: the [jobId]
    it closes over and where it stands. While it sleeps, its [timer]
    variable holds the pending timeout; otherwise that variable holds [null]
    or a timeout that has fired already. *)
Inductive Phase : Type :=
| Fetching
| Sleeping (delay : Z)
| Stopped.

Record Poll : Type := { job : jsval; phase : Phase }.

(** One [XMLHttpRequest] made by [uploadFile]. *)
Inductive FormValue : Type :=
| FileValue (f : File.t)
| TextValue (s : string).

Record Upload : Type := {
  endpoint : string;
  formData : list (string * FormValue);
  pending : bool
}.

Record World : Type := {
  mounted : bool;
  st : State;
  (* the dependencies the effects in place were run with *)
  previewDep : option nat;
  pollDeps : jsval * bool;
  (* the poll closure whose [timer] the cleanup in place clears *)
  pollTimer : option nat;
  polls : list Poll;
  uploads : list Upload;
  urlCalls : list UrlCall;
  fetches : list jsval;
  docs : nat
}.

Definition initial_world : World :=
  {| mounted := true; st := initial_state; previewDep := None;
     pollDeps := (VNull, false); pollTimer := None; polls := [];
     uploads := []; urlCalls := []; fetches := []; docs := 0 |}.

(** A state setter called by a callback. React drops updates to a component
    that has been unmounted. *)
Definition set_state (f : State -> State) (w : World) : World :=
  {| mounted := mounted w; st := if mounted w then f (st w) else st w;
     previewDep := previewDep w;
     pollDeps := pollDeps w; pollTimer := pollTimer w; polls := polls w;
     uploads := uploads w; urlCalls := urlCalls w; fetches := fetches w;
     docs := docs w |}.

Definition url_calls (cs : list UrlCall) (w : World) : World :=
  {| mounted := mounted w; st := st w; previewDep := previewDep w;
     pollDeps := pollDeps w; pollTimer := pollTimer w; polls := polls w;
     uploads := uploads w; urlCalls := urlCalls w ++ cs; fetches := fetches w;
     docs := docs w |}.

Definition url_call (c : UrlCall) (w : World) : World := url_calls [c] w.

Definition with_polls (ps : list Poll) (w : World) : World :=
  {| mounted := mounted w; st := st w; previewDep := previewDep w;
     pollDeps := pollDeps w; pollTimer := pollTimer w; polls := ps;
     uploads := uploads w; urlCalls := urlCalls w; fetches := fetches w;
     docs := docs w |}.

Definition with_uploads (us : list Upload) (w : World) : World :=
  {| mounted := mounted w; st := st w; previewDep := previewDep w;
     pollDeps := pollDeps w; pollTimer := pollTimer w; polls := polls w;
     uploads := us; urlCalls := urlCalls w; fetches := fetches w;
     docs := docs w |}.

Definition with_preview_hook (d : option nat) (w : World) : World :=
  {| mounted := mounted w; st := st w; previewDep := d;
     pollDeps := pollDeps w; pollTimer := pollTimer w; polls := polls w;
     uploads := uploads w; urlCalls := urlCalls w; fetches := fetches w;
     docs := docs w |}.

Definition with_poll_hook (d : jsval * bool) (t : option nat) (w : World) : World :=
  {| mounted := mounted w; st := st w; previewDep := previewDep w;
     pollDeps := d; pollTimer := t; polls := polls w;
     uploads := uploads w; urlCalls := urlCalls w; fetches := fetches w;
     docs := docs w |}.

Definition unmount (w : World) : World :=
  {| mounted := false; st := st w; previewDep := previewDep w;
     pollDeps := pollDeps w; pollTimer := pollTimer w; polls := polls w;
     uploads := uploads w; urlCalls := urlCalls w; fetches := fetches w;
     docs := docs w |}.

(** [fetch(`/api/status/${jobId}`)]: a query is recorded by its [jobId]. *)
Definition fetch_all (js : list jsval) (w : World) : World :=
  {| mounted := mounted w; st := st w; previewDep := previewDep w;
     pollDeps := pollDeps w; pollTimer := pollTimer w; polls := polls w;
     uploads := uploads w; urlCalls := urlCalls w; fetches := fetches w ++ js;
     docs := docs w |}.

Definition fetch (j : jsval) (w : World) : World := fetch_all [j] w.

(** A document is parsed: the next one gets the next number. *)
Definition parsed (w : World) : World :=
  {| mounted := mounted w; st := st w; previewDep := previewDep w;
     pollDeps := pollDeps w; pollTimer := pollTimer w; polls := polls w;
     uploads := uploads w; urlCalls := urlCalls w; fetches := fetches w;
     docs := S (docs w) |}.

Notation "w |> f" := (f w) (at level 45, left associativity, only parsing).

(** The number of [URL.createObjectURL] calls so far. *)
Fixpoint created (cs : list UrlCall) : nat :=
  match cs with
  | [] => 0
  | createObjectURL _ :: cs' => S (created cs')
  | revokeObjectURL _ :: cs' => created cs'
  end.

(** ** Event handlers *)

(** [if (previewUrl) URL.revokeObjectURL(previewUrl)]. *)
Definition revocation (u : option nat) : list UrlCall :=
  match u with
  | Some h => [revokeObjectURL h]
  | None => []
  end.

Definition revoke_if (u : option nat) (w : World) : World :=
  url_calls (revocation u) w.

Definition onFiles (files : option (list File.t)) (w : World) : World :=
  match files with
  | None | Some [] => w
  | Some (f :: _) =>
      if (File.size f >? MAX_FILE_SIZE_BYTES)%Z then
        w |> set_state (setMessage (VStr
               "File too large. Please upload a smaller file or use chunked/direct upload."))
      else
        let type :=
          if String.prefix "image/" (File.type f) then Some image
          else if String.prefix "video/" (File.type f) then Some video
          else None in
        let u := created (urlCalls w) in
        w |> set_state (setFile (Some f))
          |> set_state (setFileType type)
          |> set_state (setMessage (VStr ""))
          |> revoke_if (previewUrl (st w))
          |> url_call (createObjectURL u)
          |> set_state (setPreviewUrl (Some u))
          |> set_state (setResultUrl VNull)
          |> set_state (setProcessingProgress VNull)
          |> set_state (setUploadProgress Number.zero)
  end.

(** *** [uploadFile] *)

(** How the promise returned by [uploadFile] settles. *)
Inductive Settlement : Type :=
| Resolved (resp : json)
| Rejected (msg : string).

(** [xhr.onload]; [responseText] is [None] when [JSON.parse] throws on it. *)
Definition xhr_onload (status : Z) (responseText : option json) : Settlement :=
  if ((200 <=? status) && (status <? 300))%Z then
    match responseText with
    | Some resp => Resolved resp
    | None => Resolved (JObj [])
    end
  else Rejected (String.append "Upload failed: " (decimal status)).

Definition xhr_onerror : Settlement := Rejected "Network error during upload".

(** [xhr.upload.onprogress]: the percentage handed to [onProgress], if any. *)
Definition xhr_upload_onprogress (lengthComputable : bool) (loaded total : Z)
  : option number :=
  if lengthComputable then
    Some (Number.Math_round
            (Number.mul (Number.div (Number.of_Z loaded) (Number.of_Z total))
                        (Number.of_Z 100)))
  else None.

(** *** [startUpscale] *)

(** [xhr.send(formData)]. *)
Definition send (u : Upload) (w : World) : World :=
  with_uploads (uploads w ++ [u]) w.

(** The part of [startUpscale] before [await]. *)
Definition startUpscale (w : World) : World :=
  match file (st w) with
  | None => w |> set_state (setMessage (VStr "Koi file select karo."))
  | Some f =>
      let endpoint :=
        match fileType (st w) with
        | Some image => "/api/upscale-image"
        | _ => "/api/upscale-video"
        end in
      let fd :=
        [("file", FileValue f); ("target_resolution", TextValue "3840x2160");
         ("scale", TextValue "4x"); ("preserve_audio", TextValue "true")] in
      w |> set_state (setMessage (VStr ""))
        |> set_state (setUploadProgress Number.zero)
        |> set_state (setProcessingProgress VNull)
        |> set_state (setResultUrl VNull)
        |> set_state (setIsProcessing true)
        |> send {| endpoint := endpoint; formData := fd; pending := true |}
  end.

(** [err.message] of the TypeError thrown by [response.jobId] when
    [response] is [null] (the wording is the engine's; this is V8's). *)
Definition null_jobId_message : string :=
  "Cannot read properties of null (reading 'jobId')".

(** The [catch] block of [startUpscale]. *)
Definition startUpscale_catch (msg : string) (w : World) : World :=
  w |> set_state (setMessage (VStr (String.append "Upload failed: " msg)))
    |> set_state (setIsProcessing false).

(** The part of [startUpscale] after [await], for the response parsed as
    document [doc]. *)
Definition startUpscale_resume (doc : nat) (r : Settlement) (w : World) : World :=
  match r with
  | Rejected msg => startUpscale_catch msg w
  | Resolved response =>
      match prop doc response "jobId", prop doc response "resultUrl" with
      | Some jobId, Some resultUrl =>
          if truthy jobId then
            w |> set_state (setJobId jobId)
              |> set_state (setMessage (VStr "File uploaded. Processing started..."))
          else if truthy resultUrl then
            w |> set_state (setResultUrl resultUrl)
              |> set_state (setIsProcessing false)
          else
            w |> set_state (setMessage (VStr
                   "Unexpected server response. Check backend logs."))
              |> set_state (setIsProcessing false)
      | _, _ => startUpscale_catch null_jobId_message w
      end
  end.

Definition clearAll (w : World) : World :=
  w |> set_state (setFile None)
    |> set_state (setFileType None)
    |> revoke_if (previewUrl (st w))
    |> set_state (setPreviewUrl None)
    |> set_state (setMessage (VStr ""))
    |> set_state (setUploadProgress Number.zero)
    |> set_state (setProcessingProgress VNull)
    |> set_state (setResultUrl VNull)
    |> set_state (setJobId VNull)
    |> set_state (setIsProcessing false).

(** *** The polling effect and [poll] *)

Definition in_phase (ph : Phase) (pl : Poll) : Poll :=
  {| job := job pl; phase := ph |}.

Definition set_phase (p : nat) (ph : Phase) (w : World) : World :=
  with_polls (alter (in_phase ph) p (polls w)) w.

(** [timer = setTimeout(poll, delay)] inside poll closure [p]. *)
Definition setTimeout (p : nat) (delay : Z) (w : World) : World :=
  set_phase p (Sleeping delay) w.

(** [clearTimeout(timer)] for the [timer] variable of poll closure [t]: it
    cancels a pending timeout and does nothing otherwise. *)
Definition cancel (pl : Poll) : Poll :=
  match phase pl with
  | Sleeping _ => in_phase Stopped pl
  | _ => pl
  end.

Definition clearTimeout (t : option nat) (w : World) : World :=
  with_polls (match t with
              | Some p => alter cancel p (polls w)
              | None => polls w
              end) w.

(** How [await fetch(...)] followed by [await res.json()] ends: the fetch
    rejects, or it yields a response with its [ok] flag and a body, which is
    [None] when [res.json()] rejects. *)
Inductive FetchResult : Type :=
| NetworkError
| Response (ok : bool) (body : option json).

(** [data.status === s]. *)
Definition is_status (s : string) (v : jsval) : bool :=
  match v with
  | VStr t => (t =? s)
  | _ => false
  end.

(** The [catch] block of [poll]. *)
Definition poll_catch (p : nat) (w : World) : World :=
  w |> set_state (setMessage (VStr "Could not fetch job status. Trying again..."))
    |> setTimeout p POLL_INTERVAL.

(** [poll] of closure [p] from the point where the fetch has settled, the
    body being parsed as document [doc]. *)
Definition poll_resume (p doc : nat) (r : FetchResult) (w : World) : World :=
  match r with
  | NetworkError | Response false _ | Response true None => poll_catch p w
  | Response true (Some data) =>
      match prop doc data "progress", prop doc data "status",
            prop doc data "resultUrl", prop doc data "error" with
      | Some progress, Some status, Some resultUrl, Some error =>
          let w := set_state (setProcessingProgress (nullish_or_null progress)) w in
          if is_status "done" status then
            w |> set_state (setResultUrl resultUrl)
              |> set_state (setIsProcessing false)
              |> set_state (setJobId VNull)
              |> set_phase p Stopped
          else if is_status "failed" status then
            w |> set_state (setMessage
                   (or_else error (VStr "Processing failed on server")))
              |> set_state (setIsProcessing false)
              |> set_state (setJobId VNull)
              |> set_phase p Stopped
          else
            w |> setTimeout p POLL_INTERVAL
      | _, _, _, _ => poll_catch p w
      end
  end.

(** [poll()] of closure [p] up to its first [await]. *)
Definition poll_call (p : nat) (w : World) : World :=
  w |> fetch_all (option_list (job <$> polls w !! p)) |> set_phase p Fetching.

(** [useEffect(..., [previewUrl])]: when the dependency changed, the cleanup
    of the previous run revokes the URL that run saw. *)
Definition preview_effect (w : World) : World :=
  if decide (previewDep w = previewUrl (st w)) then w
  else
    w |> revoke_if (previewDep w)
      |> with_preview_hook (previewUrl (st w)).

(** [useEffect(..., [jobId, isProcessing])]: when a dependency changed, the
    cleanup of the previous run clears that run's [timer], and the effect
    runs again, with a fresh [timer] and a fresh [poll]. *)
Definition poll_effect (w : World) : World :=
  let s := st w in
  if same_value (fst (pollDeps w)) (jobId s)
     && Bool.eqb (snd (pollDeps w)) (isProcessing s)
  then w
  else
    let w := clearTimeout (pollTimer w) w in
    if truthy (jobId s) && isProcessing s then
      (* a new closure; its first call issues the first query at once *)
      w |> with_polls (polls w ++ [{| job := jobId s; phase := Fetching |}])
        |> with_poll_hook (jobId s, isProcessing s) (Some (length (polls w)))
        |> fetch (jobId s)
    else
      w |> with_poll_hook (jobId s, isProcessing s) None.

(** The component is removed: both cleanups run. *)
Definition teardown (w : World) : World :=
  w |> revoke_if (previewDep w) |> clearTimeout (pollTimer w) |> unmount.

(** Whether React accepts a parsed value as a child: text for strings and
    numbers, nothing for [null] and booleans, the items of an array one by
    one; a plain object makes it throw. *)
Fixpoint renderable (j : json) : bool :=
  match j with
  | JObj _ => false
  | JArr items => forallb renderable items
  | _ => true
  end.

Definition child_ok (v : jsval) : bool :=
  match v with
  | VObj _ j => renderable j
  | _ => true
  end.

(** Whether the function body of the component returns a tree React can
    render. Two cells are placed in the tree as children:
    [{processingProgress}] and [{message}]; the other cells are compared,
    used as attributes or interpolated in strings. *)
Definition renders (s : State) : bool :=
  child_ok (processingProgress s) && child_ok (message s).

(** A render that succeeds is committed, and the effects whose dependencies
    changed run. *)
Definition commit (w : World) : World :=
  if mounted w then w |> preview_effect |> poll_effect else w.

(** The render that follows a callback. When it throws, no error boundary
    being there, React removes the component, and the cleanups of the effects
    in place run. *)
Definition render (w : World) : World :=
  if mounted w && negb (renders (st w)) then teardown w else commit w.

(** ** The event loop *)

Inductive Event : Type :=
| SelectFiles (files : option (list File.t))
| ClickUpscale
| ClickClear
| XhrProgress (k : nat) (lengthComputable : bool) (loaded total : Z)
| XhrLoad (k : nat) (status : Z) (responseText : option json)
| XhrError (k : nat)
| FetchSettled (p : nat) (r : FetchResult)
| TimerFired (p : nat)
| Unmount.

Definition is_pending (k : nat) (w : World) : bool :=
  match uploads w !! k with
  | Some u => pending u
  | None => false
  end.

Definition settled (u : Upload) : Upload :=
  {| endpoint := endpoint u; formData := formData u; pending := false |}.

Definition settle (k : nat) (w : World) : World :=
  with_uploads (alter settled k (uploads w)) w.

Definition phase_of (p : nat) (w : World) : option Phase :=
  phase <$> polls w !! p.

(** The callback an event runs; [None] when the event cannot happen: the
    component or the button is not there, the button is disabled, the
    request is not in flight, the timeout is not pending. *)
Definition handle (e : Event) (w : World) : option World :=
  match e with
  | SelectFiles files =>
      if mounted w then Some (onFiles files w) else None
  | ClickUpscale =>
      if mounted w && bool_decide (file (st w) <> None)
         && negb (isProcessing (st w))
      then Some (startUpscale w) else None
  | ClickClear =>
      if mounted w && bool_decide (file (st w) <> None)
      then Some (clearAll w) else None
  | XhrProgress k lengthComputable loaded total =>
      if is_pending k w then
        match xhr_upload_onprogress lengthComputable loaded total with
        | Some pct => Some (set_state (setUploadProgress pct) w)
        | None => Some w
        end
      else None
  | XhrLoad k status responseText =>
      if is_pending k w then
        Some (w |> settle k |> parsed
                |> startUpscale_resume (docs w) (xhr_onload status responseText))
      else None
  | XhrError k =>
      if is_pending k w then
        Some (w |> settle k |> startUpscale_resume (docs w) xhr_onerror)
      else None
  | FetchSettled p r =>
      match phase_of p w with
      | Some Fetching => Some (w |> parsed |> poll_resume p (docs w) r)
      | _ => None
      end
  | TimerFired p =>
      match phase_of p w with
      | Some (Sleeping _) => Some (poll_call p w)
      | _ => None
      end
  | Unmount =>
      if mounted w then Some (teardown w) else None
  end.

Definition step (e : Event) (w : World) : option World :=
  render <$> handle e w.

Fixpoint run (es : list Event) (w : World) : option World :=
  match es with
  | [] => Some w
  | e :: es' =>
      match step e w with
      | Some w' => run es' w'
      | None => None
      end
  end.

(** The worlds the component can be in. *)
Definition reachable (w : World) : Prop :=
  exists es, run es initial_world = Some w.

(** * The vocabulary of the properties *)

(** ** The hooks after a render *)

(** After a render the effects in place are those of the state rendered. *)
Definition hooks_in_place (w : World) : Prop :=
  previewDep w = previewUrl (st w)
  /\ same_value (fst (pollDeps w)) (jobId (st w)) = true
  /\ snd (pollDeps w) = isProcessing (st w).

(** Exposes the fields of a world. *)
Ltac open_world w :=
  let m := fresh "m" in let s := fresh "s" in
  let pd := fresh "pd" in let pj := fresh "pj" in let pt := fresh "pt" in
  let ps := fresh "ps" in let us := fresh "us" in let cs := fresh "cs" in
  let fs := fresh "fs" in let d := fresh "d" in
  destruct w as [m s pd pj pt ps us cs fs d]; cbn in *.

(** ** File intake *)

(** The message shown for a file over the limit. *)
Definition too_large : jsval :=
  VStr "File too large. Please upload a smaller file or use chunked/direct upload.".

(** A file one byte over the limit, and a file of exactly the limit. *)
Definition big_file : File.t :=
  {| File.name := "clip.mp4"; File.size := 1073741825; File.type := "video/mp4" |}.

Definition edge_file : File.t :=
  {| File.name := "edge.png"; File.size := 1073741824; File.type := "image/png" |}.

(** ** Quiescence: when no status query can be issued *)

(** No poll closure is fetching or sleeping. *)
Definition all_stopped (w : World) : Prop :=
  forall q ph, phase_of q w = Some ph -> ph = Stopped.

(** With [isProcessing] false and every poll closure stopped, nothing but a
    click on the upscale button can lead to a status query. *)
Definition quiescent (w : World) : Prop :=
  isProcessing (st w) = false /\ all_stopped w.

(** A small image. *)
Definition png : File.t :=
  {| File.name := "cat.png"; File.size := 2048; File.type := "image/png" |}.

(** The world while the first upload is in flight. *)
Definition uploading : World :=
  default initial_world (run [SelectFiles (Some [png]); ClickUpscale] initial_world).

(** The world once that upload is answered with job ["abc123"]: the first
    status query is in flight. *)
Definition polling : World :=
  default initial_world
    (run [SelectFiles (Some [png]); ClickUpscale;
          XhrLoad 0 200 (Some (JObj [("jobId", JStr "abc123")]))]
         initial_world).

(** The status query itself fails: the fetch rejects, the HTTP status is not
    ok, the body does not parse, or it parses to [null], on which reading
    [data.progress] throws. *)
Definition query_fails (r : FetchResult) : Prop :=
  match r with
  | NetworkError | Response false _ | Response true None
  | Response true (Some JNull) => True
  | Response true (Some _) => False
  end.

(** The message shown while a status query is retried. *)
Definition transient : jsval :=
  VStr "Could not fetch job status. Trying again...".

(** One failed query and the timeout that follows it. *)
Definition retry (p : nat) (r : FetchResult) : list Event :=
  [FetchSettled p r; TimerFired p].

(** ** Preview handles *)

(** The handles that are live after a sequence of [URL] calls: created and
    not revoked since. Revoking a handle that is not live does nothing. *)
Definition live_step (l : list nat) (c : UrlCall) : list nat :=
  match c with
  | createObjectURL u => l ++ [u]
  | revokeObjectURL u => filter (fun x => x <> u) l
  end.

Definition live (cs : list UrlCall) : list nat := fold_left live_step cs [].

(** The handle a [URL.revokeObjectURL] call names. *)
Definition revoked_handle (c : UrlCall) : option nat :=
  match c with
  | revokeObjectURL u => Some u
  | createObjectURL _ => None
  end.

(** The number of [URL.revokeObjectURL] calls, and the handles they name. *)
Definition revoked (cs : list UrlCall) : nat := length (omap revoked_handle cs).

Definition released (cs : list UrlCall) : gset nat :=
  list_to_set (omap revoked_handle cs).

(** At every moment of the log at most one handle was live. *)
Definition at_most_one_live (cs : list UrlCall) : Prop :=
  forall pre suf, cs = pre ++ suf -> length (live pre) <= 1.

(** The preview handle the component holds. *)
Definition held (w : World) : option nat :=
  if mounted w then previewUrl (st w) else None.

(** The log [cs] is that of a component holding the handle [cur]. *)
Definition url_inv (cs : list UrlCall) (cur : option nat) : Prop :=
  at_most_one_live cs
  /\ live cs = option_list cur
  /\ (forall u, cur = Some u -> u < created cs)
  /\ (forall u, u ∈ released cs <-> u < created cs /\ cur <> Some u).

(** The claim as the specification words it: the number of release calls is
    the number of creations minus the number of live handles. *)
Definition releases_match_creations (w : World) : Prop :=
  revoked (urlCalls w) = created (urlCalls w) - length (live (urlCalls w)).

(** Three files are selected one after the other. *)
Definition three_intakes : list Event :=
  [SelectFiles (Some [png]); SelectFiles (Some [png]); SelectFiles (Some [png])].

(** A first upload is answered with job ["abc123"]; Clear is clicked while
    the first status query is in flight; the query then comes back with
    status ["processing"]; a file is selected again. *)
Definition stale_poll : list Event :=
  [SelectFiles (Some [png]); ClickUpscale;
   XhrLoad 0 200 (Some (JObj [("jobId", JStr "abc123")]));
   ClickClear;
   FetchSettled 0 (Response true (Some (JObj [("status", JStr "processing")])));
   SelectFiles (Some [png])].

(** ** Outcomes *)

(** The number of outcomes that are current: a job, a result, a message. *)
Definition outcomes (s : State) : nat :=
  Nat.b2n (truthy (jobId s)) + Nat.b2n (truthy (resultUrl s))
  + Nat.b2n (truthy (message s)).

(** No upload is in flight. *)
Definition no_pending (w : World) : Prop := forall k, is_pending k w = false.

(** Nothing is in flight: no upload and no status query. *)
Definition nothing_in_flight (w : World) : Prop :=
  no_pending w /\ forall p, phase_of p w <> Some Fetching.

(** A run in which Clear is clicked only while nothing is in flight. *)
Fixpoint orderly (es : list Event) (w : World) : Prop :=
  match es with
  | [] => True
  | e :: es' =>
      (e = ClickClear -> nothing_in_flight w)
      /\ match step e w with
         | Some w' => orderly es' w'
         | None => True
         end
  end.

(** What holds of a mounted component along an orderly run. *)
Record settled_inv (w : World) : Prop := {
  si_hooks : hooks_in_place w;
  si_one : forall k k',
    is_pending k w = true -> is_pending k' w = true -> k = k';
  si_upload : forall k,
    is_pending k w = true ->
    isProcessing (st w) = true /\ truthy (jobId (st w)) = false
    /\ resultUrl (st w) = VNull /\ all_stopped w;
  si_job :
    truthy (jobId (st w)) = true ->
    isProcessing (st w) = true /\ resultUrl (st w) = VNull;
  si_idle :
    isProcessing (st w) = false -> no_pending w /\ all_stopped w;
  si_poll : forall p ph,
    phase_of p w = Some ph -> ph <> Stopped -> pollTimer w = Some p
}.

(** The hooks a callback finds are the hooks it leaves. *)
Definition same_hooks (w h : World) : Prop :=
  pollDeps h = pollDeps w /\ pollTimer h = pollTimer w /\ mounted h = mounted w.

(** A job and a result are not current together. *)
Definition exclusive (s : State) : Prop :=
  ~ (truthy (jobId s) = true /\ truthy (resultUrl s) = true).

(** A file is uploaded and answered with a result at once; Clear is then
    clicked, with nothing in flight. *)
Definition upload_then_clear : list Event :=
  [SelectFiles (Some [png]); ClickUpscale;
   XhrLoad 0 200 (Some (JObj [("resultUrl", JStr "https://x/out.mp4")]));
   SelectFiles (Some [png]); ClickClear; SelectFiles (Some [png])].

(** Clear is clicked while a first upload is in flight and a second upload
    is started; the first is then answered with a job, the second with a
    result. *)
Definition overlapping : list Event :=
  [SelectFiles (Some [png]); ClickUpscale; ClickClear;
   SelectFiles (Some [png]); ClickUpscale;
   XhrLoad 0 200 (Some (JObj [("jobId", JStr "abc123")]));
   XhrLoad 1 200 (Some (JObj [("resultUrl", JStr "https://x/out.mp4")]))].




(** Evaluates the step at the head of an [orderly] goal. *)
Ltac orderly_step :=
  match goal with
  | |- context [step ?e ?w] =>
      let r := eval vm_compute in (step e w) in
      change (step e w) with r; cbv iota
  end.

(** ** Upload progress: the values of doubles *)

(** Powers of two as reals. *)
Definition p2 (e : Z) : R := powerRZ 2 e.

(** The real number a positive finite double stands for. *)
Definition value (m : positive) (e : Z) : R := (IZR (Z.pos m) * p2 e)%R.

(** The percentage the specification words: the floor of the exact
    quotient. *)
Definition floor_percentage (loaded total : Z) : Z := 100 * loaded / total.

(** ** Further vocabulary: requests, scenarios, what is rendered *)

(** The kind of media [onFiles] reads off the MIME type of a file. *)
Definition media_kind (f : File.t) : option FileType :=
  if String.prefix "image/" (File.type f) then Some image
  else if String.prefix "video/" (File.type f) then Some video
  else None.

(** The request [startUpscale] sends for the file [f]. *)
Definition upscale_request (f : File.t) : Upload :=
  {| endpoint := if String.prefix "image/" (File.type f)
                 then "/api/upscale-image" else "/api/upscale-video";
     formData := [("file", FileValue f);
                  ("target_resolution", TextValue "3840x2160");
                  ("scale", TextValue "4x");
                  ("preserve_audio", TextValue "true")];
     pending := true |}.

(** A file that is neither an image nor a video. *)
Definition pdf : File.t :=
  {| File.name := "scan.pdf"; File.size := 4096; File.type := "application/pdf" |}.

(** The world once the first status query has been answered with status
    ["processing"]: the next query is scheduled. *)
Definition waiting : World :=
  default initial_world
    (run [SelectFiles (Some [png]); ClickUpscale;
          XhrLoad 0 200 (Some (JObj [("jobId", JStr "abc123")]));
          FetchSettled 0 (Response true (Some
            (JObj [("status", JStr "processing")])))]
         initial_world).

(** Every poll closure tracks, and every status query interpolates, a job id
    that is truthy. *)
Definition queries_name_jobs (w : World) : Prop :=
  Forall (fun pl => truthy (job pl) = true) (polls w)
  /\ Forall (fun j => truthy j = true) (fetches w).



(** [uploadProgress > 0 && uploadProgress < 100]: whether the upload bar is
    rendered. *)
Definition shows_upload_bar (s : State) : bool :=
  SFltb Number.zero (uploadProgress s)
  && SFltb (uploadProgress s) (Number.of_Z 100).

(** * Properties *)

(** ** Basic facts about values and runs *)

Lemma number_same_refl (x : number) : Number.same x x = true.
Proof.
  destruct x as [s|s| |s m e]; simpl; auto using eqb_reflx.
  rewrite eqb_reflx, Pos.eqb_refl, Z.eqb_refl. reflexivity.
Qed.

Lemma same_value_refl (v : jsval) : same_value v v = true.
Proof.
  destruct v as [| |b|x|s|[n k] j]; simpl; auto using eqb_reflx, number_same_refl.
  - apply String.eqb_refl.
  - rewrite Nat.eqb_refl, String.eqb_refl. reflexivity.
Qed.

Lemma run_app (es es' : list Event) (w : World) :
  run (es ++ es') w = run es w ≫= run es'.
Proof.
  revert w. induction es as [|e es IH]; intros w; simpl; [reflexivity|].
  destruct (step e w) as [w'|]; simpl; [apply IH | reflexivity].
Qed.

Lemma reachable_initial : reachable initial_world.
Proof. exists []. reflexivity. Qed.

Lemma reachable_step (e : Event) (w w' : World) :
  reachable w -> step e w = Some w' -> reachable w'.
Proof.
  intros [es Hes] Hstep. exists (es ++ [e]).
  rewrite run_app, Hes. simpl. rewrite Hstep. reflexivity.
Qed.

Lemma reachable_run (es : list Event) (w w' : World) :
  reachable w -> run es w = Some w' -> reachable w'.
Proof.
  revert w. induction es as [|e es IH]; intros w Hw Hrun; simpl in Hrun.
  - congruence.
  - destruct (step e w) as [w1|] eqn:Hstep; [|discriminate].
    eapply IH; [eapply reachable_step|]; eauto.
Qed.

(** Induction over the worlds the component can be in. *)
Lemma reachable_ind (P : World -> Prop) :
  P initial_world ->
  (forall e w w', reachable w -> P w -> step e w = Some w' -> P w') ->
  forall w, reachable w -> P w.
Proof.
  intros Hinit Hstep w [es Hes]. revert w Hes.
  induction es as [|e es IH] using rev_ind; intros w Hes.
  - simpl in Hes. congruence.
  - rewrite run_app in Hes.
    destruct (run es initial_world) as [w0|] eqn:Hw0; simpl in Hes; [|discriminate].
    destruct (step e w0) as [w1|] eqn:Hw1; [|discriminate].
    injection Hes as <-.
    apply (Hstep e w0 w1); [exists es; exact Hw0 | apply IH; reflexivity | exact Hw1].
Qed.

(** The effects change neither the state nor whether the component is
    mounted; the polling effect leaves the object URLs alone and the preview
    effect leaves the polls and the queries alone. *)
Lemma preview_effect_frame (w : World) :
  st (preview_effect w) = st w
  /\ mounted (preview_effect w) = mounted w
  /\ polls (preview_effect w) = polls w
  /\ fetches (preview_effect w) = fetches w
  /\ pollDeps (preview_effect w) = pollDeps w
  /\ pollTimer (preview_effect w) = pollTimer w
  /\ uploads (preview_effect w) = uploads w.
Proof.
  unfold preview_effect. case_decide; [auto 10|].
  destruct (previewDep w); cbn; auto 10.
Qed.

Lemma poll_effect_frame (w : World) :
  st (poll_effect w) = st w
  /\ mounted (poll_effect w) = mounted w
  /\ previewDep (poll_effect w) = previewDep w
  /\ urlCalls (poll_effect w) = urlCalls w
  /\ uploads (poll_effect w) = uploads w.
Proof.
  unfold poll_effect.
  destruct (same_value _ _ && Bool.eqb _ _); [auto 10|].
  destruct (pollTimer w); cbn;
    destruct (truthy _ && isProcessing _); cbn; auto 10.
Qed.

Lemma mounted_commit (w : World) : mounted (commit w) = mounted w.
Proof.
  unfold commit. destruct (mounted w) eqn:Hm; [|exact Hm].
  destruct (poll_effect_frame (preview_effect w)) as (_ & -> & _).
  destruct (preview_effect_frame w) as (_ & -> & _). exact Hm.
Qed.

Lemma st_commit (w : World) : st (commit w) = st w.
Proof.
  unfold commit. destruct (mounted w); [|reflexivity].
  destruct (poll_effect_frame (preview_effect w)) as (-> & _).
  apply preview_effect_frame.
Qed.

Lemma uploads_commit (w : World) : uploads (commit w) = uploads w.
Proof.
  unfold commit. destruct (mounted w); [|reflexivity].
  destruct (poll_effect_frame (preview_effect w)) as (_ & _ & _ & _ & ->).
  apply preview_effect_frame.
Qed.

Lemma poll_effect_in_place (w : World) :
  same_value (fst (pollDeps (poll_effect w))) (jobId (st w)) = true
  /\ snd (pollDeps (poll_effect w)) = isProcessing (st w).
Proof.
  unfold poll_effect.
  destruct (same_value _ _ && Bool.eqb _ _) eqn:Hsame.
  - apply andb_prop in Hsame as [H1 H2]. apply eqb_prop in H2. auto.
  - destruct (pollTimer w); cbn;
      destruct (truthy _ && isProcessing _); cbn;
      auto using same_value_refl.
Qed.

Lemma commit_in_place (w : World) :
  mounted w = true -> hooks_in_place (commit w).
Proof.
  intros Hm. unfold hooks_in_place, commit. rewrite Hm.
  destruct (poll_effect_frame (preview_effect w)) as (-> & _ & -> & _).
  destruct (poll_effect_in_place (preview_effect w)) as (H1 & H2).
  destruct (preview_effect_frame w) as (Hst & _).
  rewrite Hst in *. repeat split; auto.
  unfold preview_effect. case_decide; [assumption|].
  destruct (previewDep w); reflexivity.
Qed.

Lemma commit_idle (w : World) : hooks_in_place w -> commit w = w.
Proof.
  intros (Hp & Hj & Hi). unfold commit, preview_effect, poll_effect.
  destruct (mounted w); [|reflexivity].
  rewrite decide_True by exact Hp.
  rewrite Hj, Hi, eqb_reflx. reflexivity.
Qed.

(** The three ways a render goes: the component is gone and nothing happens;
    the tree is accepted and committed; the render throws and the component
    is removed. *)
Lemma render_unmounted (w : World) : mounted w = false -> render w = w.
Proof. intros Hm. unfold render, commit. rewrite Hm. reflexivity. Qed.

Lemma render_ok (w : World) : renders (st w) = true -> render w = commit w.
Proof. intros Hok. unfold render. rewrite Hok, andb_false_r. reflexivity. Qed.

Lemma render_thrown (w : World) :
  mounted w = true -> renders (st w) = false -> render w = teardown w.
Proof. intros Hm Hno. unfold render. rewrite Hm, Hno. reflexivity. Qed.

Lemma render_cases (w : World) :
  render w = commit w
  \/ (mounted w = true /\ renders (st w) = false /\ render w = teardown w).
Proof.
  unfold render. destruct (mounted w), (renders (st w)); cbn; auto.
Qed.

Lemma mounted_render (w : World) :
  mounted (render w) = mounted w && renders (st w).
Proof.
  unfold render. destruct (mounted w) eqn:Hm, (renders (st w)); cbn;
    try reflexivity; rewrite mounted_commit; exact Hm.
Qed.

Lemma render_succeeded (w : World) :
  mounted (render w) = true ->
  mounted w = true /\ renders (st w) = true /\ render w = commit w.
Proof.
  rewrite mounted_render. intros [Hm Hok]%andb_prop.
  auto using render_ok.
Qed.

Lemma st_render (w : World) : st (render w) = st w.
Proof.
  destruct (render_cases w) as [->|(_ & _ & ->)]; [apply st_commit|reflexivity].
Qed.

Lemma uploads_render (w : World) : uploads (render w) = uploads w.
Proof.
  destruct (render_cases w) as [->|(_ & _ & ->)];
    [apply uploads_commit|reflexivity].
Qed.

Lemma render_in_place (w : World) :
  mounted (render w) = true -> hooks_in_place (render w).
Proof.
  intros (Hm & _ & ->)%render_succeeded. apply commit_in_place, Hm.
Qed.

Lemma render_idle (w : World) :
  renders (st w) = true -> hooks_in_place w -> render w = w.
Proof. intros Hok Hin. rewrite render_ok by exact Hok. apply commit_idle, Hin. Qed.

Lemma reachable_in_place (w : World) :
  reachable w -> mounted w = true -> hooks_in_place w.
Proof.
  intros Hw. induction Hw as [|e w w' _ _ Hstep] using reachable_ind.
  - intros _. repeat split.
  - intros Hm. unfold step in Hstep.
    destruct (handle e w) as [h|]; [|discriminate].
    injection Hstep as <-. apply render_in_place, Hm.
Qed.

(** A component that is mounted has been rendered. *)
Lemma reachable_renders (w : World) :
  reachable w -> mounted w = true -> renders (st w) = true.
Proof.
  intros Hw. induction Hw as [|e w w' _ _ Hstep] using reachable_ind.
  - intros _. reflexivity.
  - intros Hm. unfold step in Hstep.
    destruct (handle e w) as [h|]; [|discriminate].
    injection Hstep as <-. rewrite st_render.
    apply render_succeeded in Hm. apply Hm.
Qed.

(** A setter that writes a string into [message], or [null] or a number into
    a progress cell, keeps the state renderable. *)
Lemma renders_setMessage_string (s : State) (t : string) :
  renders s = true -> renders (setMessage (VStr t) s) = true.
Proof.
  unfold renders. cbn. intros [-> _]%andb_prop. reflexivity.
Qed.

(** ** File intake *)

(** The calls a commit adds: the cleanup of the preview effect, when the
    preview changed. *)
Lemma urlCalls_commit (w : World) :
  urlCalls (commit w)
  = urlCalls w ++
    (if mounted w && negb (bool_decide (previewDep w = previewUrl (st w)))
     then revocation (previewDep w) else []).
Proof.
  unfold commit. destruct (mounted w); simpl; [|rewrite app_nil_r; reflexivity].
  destruct (poll_effect_frame (preview_effect w)) as (_ & _ & _ & -> & _).
  unfold preview_effect.
  case_decide; simpl.
  - rewrite bool_decide_eq_true_2 by assumption. rewrite app_nil_r. reflexivity.
  - rewrite bool_decide_eq_false_2 by assumption. reflexivity.
Qed.

(** An accepted file leaves a state that renders. *)
Lemma renders_onFiles (w : World) (f : File.t) (rest : list File.t) :
  mounted w = true -> (File.size f <= MAX_FILE_SIZE_BYTES)%Z ->
  renders (st (onFiles (Some (f :: rest)) w)) = true.
Proof.
  intros Hm Hsize. unfold onFiles.
  replace (File.size f >? MAX_FILE_SIZE_BYTES)%Z with false by lia.
  open_world w. subst m. reflexivity.
Qed.

(** C6. A first candidate file larger than [MAX_FILE_SIZE_BYTES] is rejected:
    the only thing intake changes in the whole world is the [message] cell,
    which receives the user-visible text. The selected file, the preview
    handle, every other state cell, the object URLs, the uploads and the
    polls stay as they were. *)
Theorem C6_oversize_rejected (w : World) (f : File.t) (rest : list File.t) :
  reachable w -> mounted w = true ->
  (File.size f > MAX_FILE_SIZE_BYTES)%Z ->
  step (SelectFiles (Some (f :: rest))) w = Some (set_state (setMessage too_large) w)
  /\ st (set_state (setMessage too_large) w) = setMessage too_large (st w)
  /\ truthy (message (st (set_state (setMessage too_large) w))) = true
  /\ file (st (set_state (setMessage too_large) w)) = file (st w)
  /\ previewUrl (st (set_state (setMessage too_large) w)) = previewUrl (st w)
  /\ urlCalls (set_state (setMessage too_large) w) = urlCalls w.
Proof.
  intros Hw Hm Hsize.
  assert (Hgt : (File.size f >? MAX_FILE_SIZE_BYTES)%Z = true) by lia.
  pose proof (reachable_in_place w Hw Hm) as (Hp & Hj & Hi).
  split.
  - unfold step, handle, onFiles. rewrite Hm, Hgt. simpl. f_equal.
    apply render_idle.
    + pose proof (reachable_renders w Hw Hm) as Hok.
      cbn. rewrite Hm. apply renders_setMessage_string, Hok.
    + unfold hooks_in_place. cbn. rewrite Hm. cbn. auto.
  - cbn. rewrite Hm. cbn. auto 10.
Qed.

Lemma C6_oversize_rejected_witness :
  step (SelectFiles (Some [big_file])) initial_world
  = Some (set_state (setMessage too_large) initial_world)
  /\ file (st (set_state (setMessage too_large) initial_world)) = None.
Proof.
  destruct (C6_oversize_rejected initial_world big_file [])
    as (H1 & _ & _ & H3 & _).
  - apply reachable_initial.
  - reflexivity.
  - reflexivity.
  - split; [exact H1 | exact H3].
Defined.

(** C9. A first candidate file of exactly [MAX_FILE_SIZE_BYTES] = 1024^3
    bytes is accepted: it becomes the selected file, a fresh preview handle
    is created for it and the message is cleared. *)
Theorem C9_boundary_accepted (w : World) (f : File.t) (rest : list File.t) :
  mounted w = true ->
  File.size f = (1024 ^ 3)%Z ->
  exists w',
    step (SelectFiles (Some (f :: rest))) w = Some w'
    /\ file (st w') = Some f
    /\ previewUrl (st w') = Some (created (urlCalls w))
    /\ In (createObjectURL (created (urlCalls w))) (urlCalls w')
    /\ message (st w') = VStr "".
Proof.
  intros Hm Hsize. eexists. split.
  - unfold step, handle. rewrite Hm. reflexivity.
  - rewrite st_render, render_ok, urlCalls_commit
      by (apply renders_onFiles; [exact Hm|rewrite Hsize; discriminate]).
    unfold onFiles. rewrite Hsize.
    change (1024 ^ 3 >? MAX_FILE_SIZE_BYTES)%Z with false.
    cbv iota. open_world w. subst m. cbn. repeat split.
    rewrite !in_app_iff. cbn. auto.
Qed.

Lemma C9_boundary_accepted_witness :
  exists w',
    step (SelectFiles (Some [edge_file])) initial_world = Some w'
    /\ file (st w') = Some edge_file.
Proof.
  destruct (C9_boundary_accepted initial_world edge_file [] eq_refl eq_refl)
    as (w' & H1 & H2 & _).
  exists w'. split; assumption.
Defined.

(** ** Poll closures *)

Lemma phase_of_set_phase (p q : nat) (ph : Phase) (w : World) :
  phase_of q (set_phase p ph w)
  = if decide (p = q) then const ph <$> phase_of q w else phase_of q w.
Proof.
  unfold phase_of, set_phase. cbn.
  destruct (decide (p = q)) as [->|Hne].
  - rewrite list_lookup_alter_eq. destruct (polls w !! q); reflexivity.
  - rewrite list_lookup_alter_ne by exact Hne. reflexivity.
Qed.

Lemma lookup_alter_stopped (f : Poll -> Poll) (p q : nat) (ps : list Poll) :
  (forall pl, phase pl = Stopped -> phase (f pl) = Stopped) ->
  phase <$> ps !! q = Some Stopped ->
  phase <$> alter f p ps !! q = Some Stopped.
Proof.
  intros Hf Hq. destruct (decide (p = q)) as [->|Hne].
  - rewrite list_lookup_alter_eq. destruct (ps !! q) as [pl|]; [|discriminate].
    simpl in *. f_equal. apply Hf. congruence.
  - rewrite list_lookup_alter_ne by exact Hne. exact Hq.
Qed.

Lemma cancel_stopped (pl : Poll) : phase pl = Stopped -> phase (cancel pl) = Stopped.
Proof. unfold cancel. intros H. rewrite H. exact H. Qed.

Lemma phase_of_clearTimeout (t : option nat) (q : nat) (w : World) :
  phase_of q w = Some Stopped ->
  phase_of q (clearTimeout t w) = Some Stopped.
Proof.
  intros Hq. unfold phase_of, clearTimeout. cbn.
  destruct t as [p|]; [|exact Hq].
  apply lookup_alter_stopped; [apply cancel_stopped|exact Hq].
Qed.

Lemma length_clearTimeout (t : option nat) (w : World) :
  length (polls (clearTimeout t w)) = length (polls w).
Proof. unfold clearTimeout. cbn. destruct t; [apply length_alter|reflexivity]. Qed.

(** The polls and the queries after the polling effect: untouched, or the
    cleanup has run and, when there is a job to track, a new closure has
    issued its first query. *)
Lemma poll_effect_polls (w : World) :
  (polls (poll_effect w) = polls w /\ fetches (poll_effect w) = fetches w)
  \/ (polls (poll_effect w) = polls (clearTimeout (pollTimer w) w)
      /\ fetches (poll_effect w) = fetches w)
  \/ (truthy (jobId (st w)) && isProcessing (st w) = true
      /\ polls (poll_effect w)
         = polls (clearTimeout (pollTimer w) w)
             ++ [{| job := jobId (st w); phase := Fetching |}]
      /\ fetches (poll_effect w) = fetches w ++ [jobId (st w)]).
Proof.
  unfold poll_effect.
  destruct (same_value _ _ && Bool.eqb _ _); [auto|].
  cbn. destruct (truthy _ && isProcessing _); cbn; auto.
Qed.

(** A poll closure that has stopped stays stopped through a render. *)
Lemma commit_stopped (q : nat) (w : World) :
  phase_of q w = Some Stopped -> phase_of q (commit w) = Some Stopped.
Proof.
  intros Hq. unfold commit. destruct (mounted w); [|exact Hq].
  assert (Hq1 : phase_of q (preview_effect w) = Some Stopped).
  { unfold phase_of. destruct (preview_effect_frame w) as (_ & _ & -> & _).
    exact Hq. }
  revert Hq1. generalize (preview_effect w). clear w Hq. intros w Hq.
  pose proof (phase_of_clearTimeout (pollTimer w) q w Hq) as Hq'.
  unfold phase_of in *.
  destruct (poll_effect_polls w) as [[-> _]|[[-> _]|(_ & -> & _)]]; auto.
  rewrite lookup_app_l; [exact Hq'|].
  destruct (polls (clearTimeout (pollTimer w) w) !! q) eqn:E; [|discriminate].
  eapply lookup_lt_Some; eauto.
Qed.

Lemma teardown_stopped (q : nat) (w : World) :
  phase_of q w = Some Stopped -> phase_of q (teardown w) = Some Stopped.
Proof.
  intros Hq. unfold teardown.
  apply (phase_of_clearTimeout (pollTimer w) q (revoke_if (previewDep w) w)).
  exact Hq.
Qed.

Lemma render_stopped (q : nat) (w : World) :
  phase_of q w = Some Stopped -> phase_of q (render w) = Some Stopped.
Proof.
  intros Hq. destruct (render_cases w) as [->|(_ & _ & ->)];
    [apply commit_stopped|apply teardown_stopped]; exact Hq.
Qed.

Lemma prop_not_null (doc : nat) (data : json) (k : string) (v : jsval) :
  prop doc data k = Some v -> forall k', is_Some (prop doc data k').
Proof.
  intros H k'. destruct data; simpl in *; try discriminate; eauto.
  destruct (member k' members); eauto.
Qed.

(** [poll] either stops its closure or puts it to sleep for [POLL_INTERVAL];
    it touches no other closure and issues no query itself. *)
Lemma poll_resume_polls (p doc : nat) (r : FetchResult) (w : World) :
  exists ph,
    (ph = Stopped \/ ph = Sleeping POLL_INTERVAL)
    /\ polls (poll_resume p doc r w) = alter (in_phase ph) p (polls w)
    /\ fetches (poll_resume p doc r w) = fetches w.
Proof.
  unfold poll_resume, poll_catch, setTimeout.
  destruct r as [|[] [data|]];
    try (exists (Sleeping POLL_INTERVAL); cbn; auto; fail).
  destruct (prop doc data "progress"), (prop doc data "status"),
    (prop doc data "resultUrl"), (prop doc data "error");
    try (exists (Sleeping POLL_INTERVAL); cbn; auto; fail).
  destruct (is_status "done" _); [exists Stopped; cbn; auto|].
  destruct (is_status "failed" _); [exists Stopped; cbn; auto|].
  exists (Sleeping POLL_INTERVAL); cbn; auto.
Qed.

(** The continuation of [startUpscale] only sets state. *)
Lemma startUpscale_resume_frame (doc : nat) (r : Settlement) (w : World) :
  polls (startUpscale_resume doc r w) = polls w
  /\ fetches (startUpscale_resume doc r w) = fetches w
  /\ urlCalls (startUpscale_resume doc r w) = urlCalls w
  /\ uploads (startUpscale_resume doc r w) = uploads w
  /\ mounted (startUpscale_resume doc r w) = mounted w
  /\ previewDep (startUpscale_resume doc r w) = previewDep w
  /\ previewUrl (st (startUpscale_resume doc r w)) = previewUrl (st w).
Proof.
  unfold startUpscale_resume, startUpscale_catch.
  destruct r as [resp|msg]; [|open_world w; destruct m; cbn; auto 10].
  destruct (prop doc resp "jobId") as [j|], (prop doc resp "resultUrl") as [u|];
    try (open_world w; destruct m; cbn; auto 10; fail).
  destruct (truthy j); [open_world w; destruct m; cbn; auto 10|].
  destruct (truthy u); open_world w; destruct m; cbn; auto 10.
Qed.

(** What a callback does to the polls and to the queries. *)
Lemma handle_polls (e : Event) (w h : World) :
  handle e w = Some h ->
  (polls h = polls w /\ fetches h = fetches w)
  \/ (exists p r ph,
        e = FetchSettled p r /\ phase_of p w = Some Fetching
        /\ (ph = Stopped \/ ph = Sleeping POLL_INTERVAL)
        /\ polls h = alter (in_phase ph) p (polls w)
        /\ fetches h = fetches w)
  \/ (exists p d,
        e = TimerFired p /\ phase_of p w = Some (Sleeping d)
        /\ polls h = alter (in_phase Fetching) p (polls w)
        /\ fetches h = fetches w ++ option_list (job <$> polls w !! p))
  \/ (e = Unmount
      /\ polls h = polls (clearTimeout (pollTimer w) w)
      /\ fetches h = fetches w).
Proof.
  intros Hh. destruct e; unfold handle in Hh.
  - left. destruct (mounted w); simplify_eq.
    unfold onFiles. destruct files as [[|f fs]|]; auto.
    destruct (_ >? _)%Z; cbn; auto.
  - left. destruct (_ && _); simplify_eq.
    unfold startUpscale. destruct (file (st w)); cbn; auto.
  - left. destruct (_ && _); simplify_eq. cbn. auto.
  - left. destruct (is_pending k w); simplify_eq.
    destruct (xhr_upload_onprogress _ _ _); simplify_eq; cbn; auto.
  - left. destruct (is_pending k w); simplify_eq.
    destruct (startUpscale_resume_frame (docs w) (xhr_onload status responseText)
                (parsed (settle k w))) as (-> & -> & _). auto.
  - left. destruct (is_pending k w); simplify_eq.
    destruct (startUpscale_resume_frame (docs w) xhr_onerror (settle k w))
      as (-> & -> & _). auto.
  - right. left. destruct (phase_of p w) as [[]|] eqn:Hp; simplify_eq.
    destruct (poll_resume_polls p (docs w) r (parsed w)) as (ph & H1 & H2 & H3).
    exists p, r, ph. auto.
  - right. right. left. destruct (phase_of p w) as [[]|] eqn:Hp; simplify_eq.
    exists p, delay. cbn. auto.
  - right. right. right. destruct (mounted w); simplify_eq. cbn. auto.
Qed.

Lemma handle_stopped (q : nat) (e : Event) (w h : World) :
  handle e w = Some h ->
  phase_of q w = Some Stopped -> phase_of q h = Some Stopped.
Proof.
  intros Hh Hq. unfold phase_of in *.
  destruct (handle_polls e w h Hh)
    as [[-> _]|[(p & r & ph & _ & Hp & _ & -> & _)
       |[(p & d & _ & Hp & -> & _)|(_ & -> & _)]]].
  - exact Hq.
  - rewrite list_lookup_alter_ne; [exact Hq|].
    intros ->. unfold phase_of in Hp. congruence.
  - rewrite list_lookup_alter_ne; [exact Hq|].
    intros ->. unfold phase_of in Hp. congruence.
  - apply (phase_of_clearTimeout (pollTimer w) q w Hq).
Qed.

(** A poll closure that has stopped never runs again. *)
Lemma stopped_forever (q : nat) (es : list Event) (w w' : World) :
  phase_of q w = Some Stopped -> run es w = Some w' ->
  phase_of q w' = Some Stopped.
Proof.
  revert w. induction es as [|e es IH]; intros w Hq Hrun; simpl in Hrun.
  - congruence.
  - destruct (step e w) as [w1|] eqn:Hstep; [|discriminate].
    apply (IH w1); [|exact Hrun].
    unfold step in Hstep. destruct (handle e w) as [h|] eqn:Hh; [|discriminate].
    injection Hstep as <-. eapply render_stopped, handle_stopped; eauto.
Qed.

(** ** Quiescence *)

Lemma phase_of_length (q : nat) (w w' : World) :
  length (polls w') = length (polls w) ->
  is_Some (phase_of q w') -> is_Some (phase_of q w).
Proof.
  unfold phase_of. intros Hlen [ph Hq].
  destruct (polls w' !! q) as [pl|] eqn:E; [|discriminate].
  apply lookup_lt_Some in E. rewrite Hlen in E.
  apply lookup_lt_is_Some_2 in E as [pl' ->]. simpl. eauto.
Qed.

Lemma all_stopped_same_length (w w' : World) :
  all_stopped w ->
  length (polls w') = length (polls w) ->
  (forall q, phase_of q w = Some Stopped -> phase_of q w' = Some Stopped) ->
  all_stopped w'.
Proof.
  intros Hall Hlen Hkeep q ph Hq.
  destruct (phase_of_length q w w' Hlen) as [ph0 Hq0]; [eauto|].
  pose proof (Hall q ph0 Hq0) as ->.
  apply Hkeep in Hq0. congruence.
Qed.

Lemma isProcessing_startUpscale_resume (doc : nat) (r : Settlement) (w : World) :
  isProcessing (st w) = false ->
  isProcessing (st (startUpscale_resume doc r w)) = false.
Proof.
  unfold startUpscale_resume, startUpscale_catch.
  destruct r as [resp|msg]; [|open_world w; destruct m; cbn; auto].
  destruct (prop doc resp "jobId") as [j|], (prop doc resp "resultUrl") as [u|];
    try (open_world w; destruct m; cbn; auto; fail).
  destruct (truthy j); [open_world w; destruct m; cbn; auto|].
  destruct (truthy u); open_world w; destruct m; cbn; auto.
Qed.

Lemma isProcessing_poll_resume (p doc : nat) (r : FetchResult) (w : World) :
  isProcessing (st w) = false ->
  isProcessing (st (poll_resume p doc r w)) = false.
Proof.
  unfold poll_resume, poll_catch, setTimeout.
  destruct r as [|[] [data|]];
    try (open_world w; destruct m; cbn; auto; fail).
  destruct (prop doc data "progress"), (prop doc data "status"),
    (prop doc data "resultUrl"), (prop doc data "error");
    try (open_world w; destruct m; cbn; auto; fail).
  destruct (is_status "done" _); [open_world w; destruct m; cbn; auto|].
  destruct (is_status "failed" _); open_world w; destruct m; cbn; auto.
Qed.

(** Only a click on the upscale button sets [isProcessing]. *)
Lemma isProcessing_handle (e : Event) (w h : World) :
  e <> ClickUpscale -> handle e w = Some h ->
  isProcessing (st w) = false -> isProcessing (st h) = false.
Proof.
  intros Hne Hh Hfalse. destruct e; unfold handle in Hh; try congruence.
  - destruct (mounted w) eqn:Hm; simplify_eq.
    unfold onFiles. destruct files as [[|f fs]|]; auto.
    destruct (_ >? _)%Z; open_world w; subst m; cbn; auto.
  - destruct (_ && _); simplify_eq. open_world w. destruct m; cbn; auto.
  - destruct (is_pending k w); simplify_eq.
    destruct (xhr_upload_onprogress _ _ _); simplify_eq; auto.
    open_world w. destruct m; cbn; auto.
  - destruct (is_pending k w); simplify_eq.
    apply isProcessing_startUpscale_resume. exact Hfalse.
  - destruct (is_pending k w); simplify_eq.
    apply isProcessing_startUpscale_resume. exact Hfalse.
  - destruct (phase_of p w) as [[]|]; simplify_eq.
    apply isProcessing_poll_resume. exact Hfalse.
  - destruct (phase_of p w) as [[]|]; simplify_eq. cbn. auto.
  - destruct (mounted w); simplify_eq. cbn. auto.
Qed.

Lemma length_polls_handle (e : Event) (w h : World) :
  handle e w = Some h -> length (polls h) = length (polls w).
Proof.
  intros Hh.
  destruct (handle_polls e w h Hh)
    as [[-> _]|[(p & r & ph & _ & _ & _ & -> & _)
       |[(p & d & _ & _ & -> & _)|(_ & -> & _)]]];
    rewrite ?length_alter, ?length_clearTimeout; reflexivity.
Qed.

Lemma fetches_handle (e : Event) (w h : World) :
  all_stopped w -> handle e w = Some h -> fetches h = fetches w.
Proof.
  intros Hall Hh.
  destruct (handle_polls e w h Hh)
    as [[_ ->]|[(p & r & ph & _ & _ & _ & _ & ->)
       |[(p & d & _ & Hp & _ & _)|(_ & _ & ->)]]]; auto.
  apply Hall in Hp. discriminate.
Qed.

(** While [isProcessing] is false a render starts no poll. *)
Lemma commit_not_processing (w : World) :
  isProcessing (st w) = false ->
  length (polls (commit w)) = length (polls w)
  /\ fetches (commit w) = fetches w.
Proof.
  intros Hfalse. unfold commit. destruct (mounted w); [|auto].
  destruct (preview_effect_frame w) as (Hst & _ & <- & <- & _).
  rewrite <- Hst in Hfalse. clear Hst.
  generalize dependent (preview_effect w). clear w. intros w Hfalse.
  destruct (poll_effect_polls w) as [[-> ->]|[[-> ->]|(Htrue & _)]].
  - auto.
  - rewrite length_clearTimeout. auto.
  - rewrite Hfalse, andb_false_r in Htrue. discriminate.
Qed.

(** A render that throws starts no poll and issues no query. *)
Lemma teardown_polls (w : World) :
  length (polls (teardown w)) = length (polls w)
  /\ fetches (teardown w) = fetches w.
Proof.
  split; [|reflexivity]. unfold teardown.
  apply (length_clearTimeout (pollTimer w) (revoke_if (previewDep w) w)).
Qed.

Lemma render_not_processing (w : World) :
  isProcessing (st w) = false ->
  length (polls (render w)) = length (polls w)
  /\ fetches (render w) = fetches w.
Proof.
  intros Hfalse. destruct (render_cases w) as [->|(_ & _ & ->)];
    [apply commit_not_processing, Hfalse|apply teardown_polls].
Qed.

Lemma quiescent_step (e : Event) (w w' : World) :
  e <> ClickUpscale -> quiescent w -> step e w = Some w' ->
  quiescent w' /\ fetches w' = fetches w.
Proof.
  intros Hne [Hfalse Hall] Hstep. unfold step in Hstep.
  destruct (handle e w) as [h|] eqn:Hh; [|discriminate]. injection Hstep as <-.
  pose proof (isProcessing_handle e w h Hne Hh Hfalse) as Hfalse'.
  destruct (render_not_processing h Hfalse') as [Hlen Hf].
  repeat split.
  - rewrite st_render. exact Hfalse'.
  - apply (all_stopped_same_length w); [exact Hall| |].
    + rewrite Hlen. eapply length_polls_handle; eauto.
    + intros q Hq. eapply render_stopped, handle_stopped; eauto.
  - rewrite Hf. eapply fetches_handle; eauto.
Qed.

Lemma quiescent_run (es : list Event) (w w' : World) :
  ~ In ClickUpscale es -> quiescent w -> run es w = Some w' ->
  quiescent w' /\ fetches w' = fetches w.
Proof.
  revert w. induction es as [|e es IH]; intros w Hno Hq Hrun; simpl in *.
  - injection Hrun as <-. auto.
  - destruct (step e w) as [w1|] eqn:Hstep; [|discriminate].
    destruct (quiescent_step e w w1) as [Hq1 Hf1]; auto.
    destruct (IH w1) as [Hq' Hf']; auto. split; congruence.
Qed.

(** ** Transfer *)



(** C10. When the upload ends with a 2xx status and a body that is not valid
    JSON, [uploadFile] resolves with the empty object instead of rejecting,
    and [startUpscale] takes the unexpected-response branch: the message is
    the unexpected-response one, not an upload-failure one, and
    [isProcessing] is cleared; no job and no result are recorded. *)
Theorem C10_invalid_json_body (w : World) (k : nat) (status : Z) :
  mounted w = true -> is_pending k w = true -> (200 <= status < 300)%Z ->
  xhr_onload status None = Resolved (JObj [])
  /\ exists w',
       step (XhrLoad k status None) w = Some w'
       /\ message (st w') = VStr "Unexpected server response. Check backend logs."
       /\ (forall reason,
             message (st w') <> VStr (String.append "Upload failed: " reason))
       /\ isProcessing (st w') = false
       /\ jobId (st w') = jobId (st w)
       /\ resultUrl (st w') = resultUrl (st w).
Proof.
  intros Hm Hk Hst.
  assert (Hload : xhr_onload status None = Resolved (JObj [])).
  { unfold xhr_onload.
    replace ((200 <=? status)%Z && (status <? 300)%Z) with true by lia.
    reflexivity. }
  split; [exact Hload|].
  eexists. split.
  - unfold step, handle. rewrite Hk, Hload. reflexivity.
  - rewrite st_render. cbn. rewrite Hm. cbn.
    repeat split. intros reason H. discriminate H.
Qed.

Lemma C10_invalid_json_body_witness :
  xhr_onload 200 None = Resolved (JObj [])
  /\ exists w',
       step (XhrLoad 0 200 None) uploading = Some w'
       /\ message (st w') = VStr "Unexpected server response. Check backend logs."
       /\ isProcessing (st w') = false.
Proof.
  destruct (C10_invalid_json_body uploading 0 200)
    as (H0 & w' & H1 & H2 & _ & H3 & _); try reflexivity.
  - lia.
  - split; [exact H0|]. exists w'. repeat split; assumption.
Defined.

(** ** Completion tracking *)

(** What a terminal step of poll closure [p] entails for the queries. *)
Lemma terminal_step (p : nat) (r : FetchResult) (w h : World) :
  handle (FetchSettled p r) w = Some h ->
  phase_of p h = Some Stopped ->
  isProcessing (st h) = false ->
  fetches (render h) = fetches w
  /\ (forall es w'', run es (render h) = Some w'' ->
                     phase_of p w'' = Some Stopped)
  /\ ((forall q ph, q <> p -> phase_of q w = Some ph -> ph = Stopped) ->
      forall es w'', ~ In ClickUpscale es -> run es (render h) = Some w'' ->
                     fetches w'' = fetches w).
Proof.
  intros Hh Hp Hfalse.
  destruct (render_not_processing h Hfalse) as [Hlen Hf].
  assert (Hfh : fetches h = fetches w).
  { destruct (handle_polls _ w h Hh)
      as [[_ ->]|[(? & ? & ? & _ & _ & _ & _ & ->)|[(? & ? & ? & _)|(? & _)]]];
      try discriminate; reflexivity. }
  assert (Hlh : length (polls h) = length (polls w)).
  { eapply length_polls_handle; eauto. }
  split; [congruence|]. split.
  - intros es w'' Hrun.
    eapply stopped_forever; [|exact Hrun]. apply render_stopped, Hp.
  - intros Hothers es w'' Hno Hrun.
    assert (Hq : quiescent (render h)).
    { split; [rewrite st_render; exact Hfalse|].
      intros q ph Hq.
      destruct (decide (q = p)) as [->|Hne].
      - apply render_stopped in Hp. congruence.
      - destruct (phase_of_length q w (render h)) as [ph0 Hq0];
          [congruence|eauto|].
        pose proof (Hothers q ph0 Hne Hq0) as ->.
        eapply handle_stopped in Hq0; [|exact Hh].
        apply render_stopped in Hq0. congruence. }
    destruct (quiescent_run es (render h) w'' Hno Hq Hrun) as [_ ->].
    congruence.
Qed.

(** A settled status query with a terminal status, for poll closure [p]. *)
Lemma poll_terminal
  (w : World) (p : nat) (data : json) (status url error : jsval) :
  mounted w = true -> phase_of p w = Some Fetching ->
  prop (docs w) data "status" = Some status ->
  prop (docs w) data "resultUrl" = Some url ->
  prop (docs w) data "error" = Some error ->
  status = VStr "done" \/ status = VStr "failed" ->
  exists w',
    step (FetchSettled p (Response true (Some data))) w = Some w'
    /\ (status = VStr "done" ->
        resultUrl (st w') = url /\ message (st w') = message (st w))
    /\ (status = VStr "failed" ->
        message (st w')
        = (if truthy error then error else VStr "Processing failed on server")
        /\ resultUrl (st w') = resultUrl (st w))
    /\ jobId (st w') = VNull
    /\ isProcessing (st w') = false
    /\ fetches w' = fetches w
    /\ (forall es w'', run es w' = Some w'' -> phase_of p w'' = Some Stopped)
    /\ ((forall q ph, q <> p -> phase_of q w = Some ph -> ph = Stopped) ->
        forall es w'', ~ In ClickUpscale es -> run es w' = Some w'' ->
                       fetches w'' = fetches w)
    /\ mounted w' = renders (st w').
Proof.
  intros Hm Hp Hstatus Hurl Herror Hterm.
  destruct (prop_not_null _ _ _ _ Hstatus "progress") as [progress Hprogress].
  set (h := poll_resume p (docs w) (Response true (Some data)) (parsed w)).
  assert (Hh : handle (FetchSettled p (Response true (Some data))) w = Some h).
  { unfold handle. rewrite Hp. reflexivity. }
  assert (Hph : phase_of p h = Some Stopped).
  { unfold h, poll_resume. rewrite Hprogress, Hstatus, Hurl, Herror.
    destruct Hterm as [-> | ->]; cbn [is_status String.eqb Ascii.eqb Bool.eqb];
      rewrite phase_of_set_phase, decide_True by reflexivity;
      unfold phase_of in *; cbn; rewrite Hp; reflexivity. }
  assert (Hsth :
    st h = if is_status "done" status
           then setJobId VNull (setIsProcessing false (setResultUrl url
                  (setProcessingProgress (nullish_or_null progress) (st w))))
           else setJobId VNull (setIsProcessing false (setMessage
                  (or_else error (VStr "Processing failed on server"))
                  (setProcessingProgress (nullish_or_null progress) (st w))))).
  { unfold h, poll_resume. rewrite Hprogress, Hstatus, Hurl, Herror.
    destruct Hterm as [-> | ->]; cbn; rewrite Hm; reflexivity. }
  assert (Hfalse : isProcessing (st h) = false).
  { rewrite Hsth. destruct (is_status "done" status); reflexivity. }
  assert (Hmh : mounted h = true).
  { unfold h, poll_resume. rewrite Hprogress, Hstatus, Hurl, Herror.
    destruct Hterm as [-> | ->]; cbn; exact Hm. }
  destruct (terminal_step p _ w h Hh Hph Hfalse) as (Hf & Hstop & Hquiet).
  exists (render h). unfold step. rewrite Hh. simpl. rewrite st_render.
  split; [reflexivity|]. rewrite Hsth.
  split; [intros ->; split; reflexivity|].
  split; [intros ->; split; reflexivity|].
  split; [destruct (is_status "done" status); reflexivity|].
  split; [destruct (is_status "done" status); reflexivity|].
  split; [exact Hf|]. split; [exact Hstop|]. split; [exact Hquiet|].
  rewrite <- Hsth, mounted_render, Hmh. reflexivity.
Qed.




Lemma poll_resume_fails (p doc : nat) (r : FetchResult) (w : World) :
  query_fails r -> poll_resume p doc r w = poll_catch p w.
Proof.
  destruct r as [|[] [[]|]]; simpl; intros H; try reflexivity; destruct H.
Qed.

(** A failed query followed by its timeout brings the closure back to
    fetching, with only the message changed and one more query issued. *)
Lemma retry_round (w : World) (p : nat) (j : jsval) (r : FetchResult) :
  hooks_in_place w -> mounted w = true -> renders (st w) = true ->
  phase_of p w = Some Fetching -> job <$> polls w !! p = Some j ->
  query_fails r ->
  exists w1 w2,
    step (FetchSettled p r) w = Some w1
    /\ phase_of p w1 = Some (Sleeping 3000)
    /\ st w1 = setMessage transient (st w)
    /\ fetches w1 = fetches w
    /\ step (TimerFired p) w1 = Some w2
    /\ hooks_in_place w2 /\ mounted w2 = true
    /\ phase_of p w2 = Some Fetching /\ job <$> polls w2 !! p = Some j
    /\ st w2 = setMessage transient (st w)
    /\ fetches w2 = fetches w ++ [j].
Proof.
  intros Hin Hm Hok Hp Hj Hr.
  destruct (polls w !! p) as [pl|] eqn:Hpl; [|discriminate].
  simpl in Hj. injection Hj as Hj.
  set (w1 := poll_catch p (parsed w)).
  assert (Hin1 : hooks_in_place w1).
  { unfold hooks_in_place in *. cbn. rewrite Hm. exact Hin. }
  assert (Hpl1 : polls w1 !! p = Some (in_phase (Sleeping POLL_INTERVAL) pl)).
  { cbn. rewrite list_lookup_alter_eq, Hpl. reflexivity. }
  assert (Hst1 : st w1 = setMessage transient (st w)).
  { cbn. rewrite Hm. reflexivity. }
  assert (Hok1 : renders (st w1) = true).
  { rewrite Hst1. apply renders_setMessage_string, Hok. }
  set (w2 := poll_call p w1).
  assert (Hin2 : hooks_in_place w2).
  { unfold hooks_in_place in *. cbn. rewrite Hm. exact Hin. }
  assert (Hpl2 : polls w2 !! p = Some (in_phase Fetching pl)).
  { unfold w2, poll_call, set_phase. cbn [polls with_polls fetch_all].
    rewrite list_lookup_alter_eq, Hpl1. reflexivity. }
  exists w1, w2.
  split. { unfold step, handle. rewrite Hp. cbn [fmap option_fmap option_map].
           rewrite poll_resume_fails by exact Hr.
           f_equal. apply render_idle; [exact Hok1|exact Hin1]. }
  split. { unfold phase_of. rewrite Hpl1. reflexivity. }
  split. { exact Hst1. }
  split. { reflexivity. }
  split. { unfold step, handle, phase_of. rewrite Hpl1.
           cbn [fmap option_fmap option_map in_phase phase].
           f_equal. apply render_idle; [exact Hok1|exact Hin2]. }
  split. { exact Hin2. }
  split. { exact Hm. }
  split. { unfold phase_of. rewrite Hpl2. reflexivity. }
  split. { rewrite Hpl2. simpl. congruence. }
  split. { exact Hst1. }
  unfold w2, poll_call. cbn [fetches set_phase with_polls fetch_all].
  rewrite Hpl1. simpl. congruence.
Qed.

(** Any number of failed queries in a row keeps the closure polling. *)
Lemma retry_rounds (rs : list FetchResult) (w : World) (p : nat) (j : jsval) :
  hooks_in_place w -> mounted w = true -> renders (st w) = true ->
  phase_of p w = Some Fetching -> job <$> polls w !! p = Some j ->
  Forall query_fails rs ->
  exists w',
    run (concat (map (retry p) rs)) w = Some w'
    /\ hooks_in_place w' /\ mounted w' = true
    /\ phase_of p w' = Some Fetching /\ job <$> polls w' !! p = Some j
    /\ st w' = (if rs is [] then st w else setMessage transient (st w))
    /\ fetches w' = fetches w ++ repeat j (length rs).
Proof.
  revert w. induction rs as [|r rs IH]; intros w Hin Hm Hok Hp Hj Hrs.
  - exists w. simpl. rewrite app_nil_r. auto 10.
  - apply Forall_cons in Hrs as [Hr Hrs].
    destruct (retry_round w p j r Hin Hm Hok Hp Hj Hr)
      as (w1 & w2 & Hs1 & _ & _ & _ & Hs2 & Hin2 & Hm2 & Hp2 & Hj2 & Hst2 & Hf2).
    assert (Hok2 : renders (st w2) = true).
    { rewrite Hst2. apply renders_setMessage_string, Hok. }
    destruct (IH w2 Hin2 Hm2 Hok2 Hp2 Hj2 Hrs)
      as (w' & Hrun & Hin' & Hm' & Hp' & Hj' & Hst' & Hf').
    exists w'. simpl. rewrite Hs1, Hs2.
    split; [exact Hrun|]. split; [exact Hin'|]. split; [exact Hm'|].
    split; [exact Hp'|]. split; [exact Hj'|]. split.
    + rewrite Hst', Hst2. destruct rs; reflexivity.
    + rewrite Hf', Hf2, <- app_assoc. reflexivity.
Qed.

(** C5. A status query that itself fails is not a terminal outcome. For a
    fetching poll closure [p] of job [j]:
    - one failed query only sets the transient message and schedules the
      next query after [POLL_INTERVAL] = 3000 ms, and when that timeout
      fires the same job is queried again;
    - any number of failed queries in a row, however long the list [rs],
      leaves the closure polling with the job, [isProcessing] and the result
      untouched, one more query having been issued per failure;
    - a ["failed"] response after that still ends the job with the
      response's error (or the generic message) and stops the closure. *)
Theorem C5_query_failure_retries
  (w : World) (p : nat) (j : jsval) (r : FetchResult) (rs : list FetchResult) :
  reachable w -> mounted w = true ->
  phase_of p w = Some Fetching -> job <$> polls w !! p = Some j ->
  query_fails r -> Forall query_fails rs ->
  (exists w1 w2,
     step (FetchSettled p r) w = Some w1
     /\ st w1 = setMessage transient (st w)
     /\ phase_of p w1 = Some (Sleeping 3000)
     /\ step (TimerFired p) w1 = Some w2
     /\ phase_of p w2 = Some Fetching
     /\ fetches w2 = fetches w ++ [j])
  /\ exists w',
       run (concat (map (retry p) rs)) w = Some w'
       /\ phase_of p w' = Some Fetching
       /\ jobId (st w') = jobId (st w)
       /\ isProcessing (st w') = isProcessing (st w)
       /\ resultUrl (st w') = resultUrl (st w)
       /\ (rs <> [] -> message (st w') = transient)
       /\ fetches w' = fetches w ++ repeat j (length rs)
       /\ forall data error,
            prop (docs w') data "status" = Some (VStr "failed") ->
            prop (docs w') data "error" = Some error ->
            exists w'',
              step (FetchSettled p (Response true (Some data))) w' = Some w''
              /\ message (st w'')
                 = (if truthy error then error
                    else VStr "Processing failed on server")
              /\ jobId (st w'') = VNull
              /\ isProcessing (st w'') = false
              /\ forall es w3, run es w'' = Some w3 ->
                               phase_of p w3 = Some Stopped.
Proof.
  intros Hw Hm Hp Hj Hr Hrs.
  pose proof (reachable_in_place w Hw Hm) as Hin.
  pose proof (reachable_renders w Hw Hm) as Hok.
  split.
  - destruct (retry_round w p j r Hin Hm Hok Hp Hj Hr)
      as (w1 & w2 & H1 & H2 & H3 & _ & H4 & _ & _ & H5 & _ & _ & H6).
    exists w1, w2. auto 10.
  - destruct (retry_rounds rs w p j Hin Hm Hok Hp Hj Hrs)
      as (w' & Hrun & _ & Hm' & Hp' & _ & Hst' & Hf').
    exists w'. split; [exact Hrun|]. split; [exact Hp'|].
    rewrite Hst'.
    split; [destruct rs; reflexivity|]. split; [destruct rs; reflexivity|].
    split; [destruct rs; reflexivity|].
    split; [intros Hne; destruct rs; [congruence|reflexivity]|].
    split; [exact Hf'|].
    intros data error Hstatus Herror.
    destruct (prop_not_null _ _ _ _ Hstatus "resultUrl") as [url Hurl].
    destruct (poll_terminal w' p data (VStr "failed") url error)
      as (w'' & Hs & _ & Hfail & Hjob & Hproc & _ & Hstop & _); auto.
    exists w''. destruct (Hfail eq_refl) as [Hmsg _]. auto 10.
Qed.

Lemma reachable_polling : reachable polling.
Proof.
  exists [SelectFiles (Some [png]); ClickUpscale;
          XhrLoad 0 200 (Some (JObj [("jobId", JStr "abc123")]))].
  vm_compute. reflexivity.
Qed.

Lemma C5_query_failure_retries_witness :
  exists w',
    run (retry 0 NetworkError ++ retry 0 (Response false None)) polling = Some w'
    /\ phase_of 0 w' = Some Fetching
    /\ jobId (st w') = VStr "abc123"
    /\ message (st w') = transient
    /\ exists w'',
         step (FetchSettled 0 (Response true (Some
                 (JObj [("status", JStr "failed"); ("error", JStr "boom")]))))
              w' = Some w''
         /\ message (st w'') = VStr "boom"
         /\ jobId (st w'') = VNull.
Proof.
  destruct (C5_query_failure_retries polling 0 (VStr "abc123") NetworkError
              [NetworkError; Response false None])
    as (_ & w' & H1 & H2 & H3 & _ & _ & H4 & _ & H5);
    try reflexivity; try exact reachable_polling.
  - repeat constructor.
  - exists w'. split; [exact H1|]. split; [exact H2|].
    split; [rewrite H3; reflexivity|]. split; [apply H4; discriminate|].
    destruct (H5 (JObj [("status", JStr "failed"); ("error", JStr "boom")])
                 (VStr "boom")) as (w'' & G1 & G2 & G3 & _);
      try reflexivity.
    exists w''. auto.
Defined.

(** ** Preview handles *)

Lemma live_snoc (cs : list UrlCall) (c : UrlCall) :
  live (cs ++ [c]) = live_step (live cs) c.
Proof. unfold live. rewrite fold_left_app. reflexivity. Qed.

Lemma created_app (cs cs' : list UrlCall) :
  created (cs ++ cs') = created cs + created cs'.
Proof.
  induction cs as [|[] cs IH]; simpl; rewrite ?IH; reflexivity.
Qed.

Lemma released_snoc (cs : list UrlCall) (c : UrlCall) :
  released (cs ++ [c])
  = released cs ∪ (match revoked_handle c with Some u => {[u]} | None => ∅ end).
Proof.
  unfold released. rewrite omap_app, list_to_set_app_L. simpl.
  destruct (revoked_handle c); simpl; [|reflexivity].
  rewrite (right_id_L ∅ (∪)). reflexivity.
Qed.

Lemma at_most_one_live_snoc (cs : list UrlCall) (c : UrlCall) :
  at_most_one_live cs -> length (live (cs ++ [c])) <= 1 ->
  at_most_one_live (cs ++ [c]).
Proof.
  intros Hcs Hlast pre suf Heq.
  destruct suf as [|x suf _] using rev_ind.
  - rewrite app_nil_r in Heq. subst pre. exact Hlast.
  - rewrite app_assoc in Heq. apply app_inj_tail in Heq as [Heq _].
    eapply Hcs. exact Heq.
Qed.

Lemma url_inv_nil : url_inv [] None.
Proof.
  split; [|split; [reflexivity|split; [discriminate|]]].
  - intros pre suf Heq. symmetry in Heq. apply app_eq_nil in Heq as [-> _].
    simpl. lia.
  - intros u. unfold released. simpl. split.
    + intros Hu. apply elem_of_empty in Hu. destruct Hu.
    + intros [Hu _]. lia.
Qed.

(** The handle held is revoked. *)
Lemma url_inv_revoke (cs : list UrlCall) (cur : option nat) :
  url_inv cs cur -> url_inv (cs ++ revocation cur) None.
Proof.
  intros (Hone & Hlive & Hlt & Hrel).
  destruct cur as [h|]; simpl.
  - assert (Hl : live (cs ++ [revokeObjectURL h]) = []).
    { rewrite live_snoc, Hlive. simpl.
      rewrite filter_cons, decide_False by tauto. reflexivity. }
    assert (Hc : created (cs ++ [revokeObjectURL h]) = created cs).
    { rewrite created_app. simpl. lia. }
    split; [|split; [exact Hl|split; [discriminate|]]].
    + apply at_most_one_live_snoc; [exact Hone|]. rewrite Hl. simpl. lia.
    + intros u. rewrite Hc, released_snoc. simpl.
      rewrite elem_of_union, elem_of_singleton, Hrel.
      specialize (Hlt h eq_refl). split.
      * intros [[Hu _]| ->]; split; auto; discriminate.
      * intros [Hu _]. destruct (decide (u = h)) as [->|Hne]; [auto|].
        left. split; [exact Hu|congruence].
  - rewrite app_nil_r. split; [exact Hone|split; [exact Hlive|split; [exact Hlt|exact Hrel]]].
Qed.

(** A handle is created while none is held. *)
Lemma url_inv_create (cs : list UrlCall) :
  url_inv cs None ->
  url_inv (cs ++ [createObjectURL (created cs)]) (Some (created cs)).
Proof.
  intros (Hone & Hlive & _ & Hrel).
  assert (Hl : live (cs ++ [createObjectURL (created cs)]) = [created cs]).
  { rewrite live_snoc, Hlive. reflexivity. }
  assert (Hc : created (cs ++ [createObjectURL (created cs)]) = S (created cs)).
  { rewrite created_app. simpl. lia. }
  split; [|split; [exact Hl|split]].
  - apply at_most_one_live_snoc; [exact Hone|]. rewrite Hl. simpl. lia.
  - intros u [= Heq]. rewrite Hc. lia.
  - intros u. rewrite Hc, released_snoc. simpl.
    rewrite elem_of_union, Hrel. split.
    + intros [[Hu _]|Hu]; [|apply elem_of_empty in Hu; destruct Hu].
      split; [lia|]. intros [= Heq]. lia.
    + intros [Hu Hne]. left. split; [|discriminate].
      assert (u <> created cs) by congruence. lia.
Qed.

(** A handle that is not held is revoked once more. *)
Lemma url_inv_revoke_again (cs : list UrlCall) (cur old : option nat) :
  url_inv cs cur ->
  (forall h, old = Some h -> h ∈ released cs) ->
  url_inv (cs ++ revocation old) cur.
Proof.
  intros Hinv Hold.
  destruct old as [h|]; simpl; [|rewrite app_nil_r; exact Hinv].
  destruct Hinv as (Hone & Hlive & Hlt & Hrel).
  specialize (Hold h eq_refl). pose proof (proj1 (Hrel h) Hold) as [Hh Hne].
  assert (Hl : live (cs ++ [revokeObjectURL h]) = option_list cur).
  { rewrite live_snoc, Hlive. destruct cur as [u|]; simpl; [|reflexivity].
    rewrite filter_cons, decide_True by congruence. reflexivity. }
  assert (Hc : created (cs ++ [revokeObjectURL h]) = created cs).
  { rewrite created_app. simpl. lia. }
  assert (Hr : released (cs ++ [revokeObjectURL h]) = released cs).
  { rewrite released_snoc. simpl. rewrite (comm_L (∪)). apply subseteq_union_1_L.
    apply singleton_subseteq_l. exact Hold. }
  split; [|split; [exact Hl|split]].
  - apply at_most_one_live_snoc; [exact Hone|]. rewrite Hl.
    destruct cur; simpl; lia.
  - intros u Hu. rewrite Hc. auto.
  - intros u. rewrite Hc, Hr. apply Hrel.
Qed.

Lemma poll_resume_frame (p doc : nat) (r : FetchResult) (w : World) :
  urlCalls (poll_resume p doc r w) = urlCalls w
  /\ uploads (poll_resume p doc r w) = uploads w
  /\ mounted (poll_resume p doc r w) = mounted w
  /\ previewDep (poll_resume p doc r w) = previewDep w
  /\ previewUrl (st (poll_resume p doc r w)) = previewUrl (st w).
Proof.
  unfold poll_resume, poll_catch, setTimeout.
  destruct r as [|[] [data|]];
    try (open_world w; destruct m; cbn; auto 10; fail).
  destruct (prop doc data "progress"), (prop doc data "status"),
    (prop doc data "resultUrl"), (prop doc data "error");
    try (open_world w; destruct m; cbn; auto 10; fail).
  destruct (is_status "done" _); [open_world w; destruct m; cbn; auto 10|].
  destruct (is_status "failed" _); open_world w; destruct m; cbn; auto 10.
Qed.

(** What a callback does to the object URLs and to the preview: nothing,
    or what an accepted intake, a reset or a teardown does. *)
Lemma handle_urls (e : Event) (w h : World) :
  handle e w = Some h ->
  (urlCalls h = urlCalls w /\ previewUrl (st h) = previewUrl (st w)
   /\ mounted h = mounted w /\ previewDep h = previewDep w)
  \/ (mounted w = true /\ mounted h = true /\ previewDep h = previewDep w
      /\ urlCalls h = urlCalls w ++ revocation (previewUrl (st w))
                        ++ [createObjectURL (created (urlCalls w))]
      /\ previewUrl (st h) = Some (created (urlCalls w))
      /\ renders (st h) = true)
  \/ (mounted w = true /\ mounted h = true /\ previewDep h = previewDep w
      /\ urlCalls h = urlCalls w ++ revocation (previewUrl (st w))
      /\ previewUrl (st h) = None
      /\ renders (st h) = true)
  \/ (mounted w = true /\ mounted h = false
      /\ urlCalls h = urlCalls w ++ revocation (previewDep w)).
Proof.
  intros Hh. destruct e; unfold handle in Hh.
  - destruct (mounted w) eqn:Hm; simplify_eq.
    unfold onFiles. destruct files as [[|f fs]|]; [left; auto| |left; auto].
    destruct (_ >? _)%Z.
    + left. open_world w. subst m. cbn. repeat split.
    + right. left. open_world w. subst m. cbn.
      rewrite <- app_assoc. repeat split.
  - left. destruct (_ && _); simplify_eq.
    unfold startUpscale. destruct (file (st w)); open_world w; destruct m; cbn; repeat split.
  - destruct (mounted w) eqn:Hm; simplify_eq. cbn [andb] in Hh.
    destruct (bool_decide _); simplify_eq.
    right. right. left. open_world w. subst m. cbn. repeat split.
  - left. destruct (is_pending k w); simplify_eq.
    destruct (xhr_upload_onprogress _ _ _); simplify_eq; [|repeat split].
    open_world w. destruct m; cbn; repeat split.
  - left. destruct (is_pending k w); simplify_eq.
    destruct (startUpscale_resume_frame (docs w) (xhr_onload status responseText)
                (parsed (settle k w))) as (_ & _ & -> & _ & -> & -> & ->). repeat split.
  - left. destruct (is_pending k w); simplify_eq.
    destruct (startUpscale_resume_frame (docs w) xhr_onerror (settle k w))
      as (_ & _ & -> & _ & -> & -> & ->). repeat split.
  - left. destruct (phase_of p w) as [[]|]; simplify_eq.
    destruct (poll_resume_frame p (docs w) r (parsed w))
      as (-> & _ & -> & -> & ->). repeat split.
  - left. destruct (phase_of p w) as [[]|]; simplify_eq. cbn. repeat split.
  - destruct (mounted w) eqn:Hm; simplify_eq.
    right. right. right. cbn. repeat split.
Qed.

Lemma held_commit (w : World) : held (commit w) = held w.
Proof. unfold held. rewrite mounted_commit, st_commit. reflexivity. Qed.

(** A callback and the commit of the render after it keep the log of [URL]
    calls that of a component holding its preview handle. *)
Lemma url_inv_commit (e : Event) (w h : World) :
  (mounted w = true -> hooks_in_place w) ->
  url_inv (urlCalls w) (held w) ->
  handle e w = Some h ->
  url_inv (urlCalls (commit h)) (held (commit h)).
Proof.
  intros Hin Hinv Hh.
  rewrite urlCalls_commit, held_commit.
  destruct (handle_urls e w h Hh)
    as [(Hc & Hu & Hm & Hd)
       |[(Hm & Hmh & Hd & Hc & Hu & _)
        |[(Hm & Hmh & Hd & Hc & Hu & _)|(Hm & Hmh & Hc)]]].
  - (* nothing *)
    assert (Hheld : held h = held w) by (unfold held; rewrite Hm, Hu; reflexivity).
    rewrite Hheld, Hc. destruct (mounted h) eqn:Hmh; simpl;
      [|rewrite app_nil_r; exact Hinv].
    rewrite bool_decide_eq_true_2; [simpl; rewrite app_nil_r; exact Hinv|].
    rewrite Hd, Hu. apply Hin. congruence.
  - (* accepted intake *)
    destruct (Hin Hm) as (Hdep & _).
    unfold held in *. rewrite Hm in Hinv. rewrite Hmh, Hc, Hu, Hd, Hdep. simpl.
    pose proof Hinv as (_ & _ & Hlt & _).
    rewrite bool_decide_eq_false_2; simpl.
    + apply url_inv_revoke in Hinv. pose proof (url_inv_create _ Hinv) as Hnew.
      rewrite created_app in Hnew.
      replace (created (revocation (previewUrl (st w)))) with 0 in Hnew
        by (destruct (previewUrl (st w)); reflexivity).
      rewrite Nat.add_0_r in Hnew. rewrite app_assoc.
      apply url_inv_revoke_again; [exact Hnew|].
      intros o Ho. apply Hnew. rewrite !created_app. simpl.
      replace (created (revocation (previewUrl (st w)))) with 0
        by (destruct (previewUrl (st w)); reflexivity).
      specialize (Hlt o Ho). split; [lia|]. intros [= Heq]. lia.
    + intros Heq. specialize (Hlt _ Heq). lia.
  - (* reset *)
    destruct (Hin Hm) as (Hdep & _).
    unfold held in *. rewrite Hm in Hinv. rewrite Hmh, Hc, Hu, Hd, Hdep. simpl.
    pose proof Hinv as (_ & _ & Hlt & _).
    apply url_inv_revoke in Hinv.
    destruct (previewUrl (st w)) as [o|] eqn:Ho; simpl.
    + rewrite ?bool_decide_eq_false_2 by discriminate. simpl.
      apply (url_inv_revoke_again _ None (Some o)); [exact Hinv|].
      intros ? [= <-]. apply Hinv. rewrite created_app. simpl.
      specialize (Hlt o eq_refl). split; [lia|discriminate].
    + rewrite ?bool_decide_eq_true_2 by reflexivity. simpl.
      rewrite !app_nil_r in *. exact Hinv.
  - (* teardown *)
    destruct (Hin Hm) as (Hdep & _).
    unfold held in *. rewrite Hm in Hinv. rewrite Hmh, Hc, Hdep. simpl.
    rewrite app_nil_r. apply url_inv_revoke, Hinv.
Qed.

(** So does a render that throws: it can only follow a callback that left
    the preview alone, and the cleanup releases the handle held. *)
Lemma url_inv_step (e : Event) (w w' : World) :
  (mounted w = true -> hooks_in_place w) ->
  url_inv (urlCalls w) (held w) ->
  step e w = Some w' ->
  url_inv (urlCalls w') (held w').
Proof.
  intros Hin Hinv Hstep. unfold step in Hstep.
  destruct (handle e w) as [h|] eqn:Hh; [|discriminate]. injection Hstep as <-.
  destruct (render_cases h) as [->|(Hmh & Hno & ->)].
  { eapply url_inv_commit; eauto. }
  destruct (handle_urls e w h Hh)
    as [(Hc & Hu & Hm & Hd)
       |[(_ & _ & _ & _ & _ & Hok)
        |[(_ & _ & _ & _ & _ & Hok)|(_ & Hmh' & _)]]]; try congruence.
  rewrite Hmh in Hm. symmetry in Hm. destruct (Hin Hm) as (Hdep & _).
  change (url_inv (urlCalls h ++ revocation (previewDep h)) None).
  rewrite Hc, Hd, Hdep. unfold held in Hinv. rewrite Hm in Hinv.
  apply url_inv_revoke, Hinv.
Qed.

Lemma reachable_url_inv (w : World) :
  reachable w -> url_inv (urlCalls w) (held w).
Proof.
  intros Hw. induction Hw as [|e w w' Hw IH Hstep] using reachable_ind.
  - apply url_inv_nil.
  - eapply url_inv_step; eauto. apply reachable_in_place, Hw.
Qed.

Lemma size_list_to_set_le (l : list nat) :
  size (list_to_set l : gset nat) <= length l.
Proof.
  induction l as [|x l IH].
  - rewrite list_to_set_nil, size_empty. simpl. lia.
  - rewrite list_to_set_cons, size_union_alt, size_singleton. simpl.
    pose proof (subseteq_size (list_to_set l ∖ {[x]}) (list_to_set l : gset nat)
                  (subseteq_difference_l _ _ _ (reflexivity _))).
    lia.
Qed.

(** The handles released are all the handles created but the one held. *)
Lemma url_inv_released (cs : list UrlCall) (cur : option nat) :
  url_inv cs cur ->
  size (released cs) = created cs - length (live cs).
Proof.
  intros (_ & Hlive & Hlt & Hrel).
  assert (Heq : released cs
                = set_seq 0 (created cs) ∖ list_to_set (option_list cur)).
  { apply set_eq. intros u.
    rewrite Hrel, elem_of_difference, elem_of_set_seq, elem_of_list_to_set.
    destruct cur as [h|]; simpl.
    - rewrite list_elem_of_singleton. split.
      + intros [Hu Hne]. split; [lia|congruence].
      + intros [Hu Hne]. split; [lia|congruence].
    - split.
      + intros [Hu _]. split; [lia|]. intros Hin. inversion Hin.
      + intros [Hu _]. split; [lia|discriminate]. }
  rewrite Heq, Hlive, size_difference, size_set_seq.
  - destruct cur as [h|];
      [change (option_list (Some h)) with [h]
      |change (option_list (@None nat)) with (@nil nat)];
      rewrite ?list_to_set_cons, ?list_to_set_nil, ?(right_id_L ∅ (∪)),
        ?size_singleton, ?size_empty; reflexivity.
  - intros u. rewrite elem_of_list_to_set, elem_of_set_seq.
    destruct cur as [h|]; simpl; [|intros Hin; inversion Hin].
    rewrite list_elem_of_singleton. intros ->. specialize (Hlt h eq_refl). lia.
Qed.

(** C8, as stated, fails: after three intakes three handles have been
    created, one is live, and [URL.revokeObjectURL] has been called four
    times, twice for each of the two replaced handles (once by [onFiles],
    once by the cleanup of the preview effect). *)
Lemma C8_release_calls_counterexample :
  exists w,
    run three_intakes initial_world = Some w
    /\ urlCalls w = [createObjectURL 0;
                     revokeObjectURL 0; createObjectURL 1; revokeObjectURL 0;
                     revokeObjectURL 1; createObjectURL 2; revokeObjectURL 1]
    /\ created (urlCalls w) = 3
    /\ revoked (urlCalls w) = 4
    /\ live (urlCalls w) = [2]
    /\ ~ releases_match_creations w.
Proof.
  eexists. split; [vm_compute; reflexivity|].
  split; [reflexivity|]. split; [reflexivity|]. split; [reflexivity|].
  split; [reflexivity|]. unfold releases_match_creations. cbn. lia.
Qed.

(** C8, amended. In every reachable world: at every moment of the log of
    [URL] calls at most one handle was live, so a handle is revoked before
    the next one is created; the live handle is the preview handle the
    component holds, and none is live once the component is unmounted; the
    number of distinct handles released is the number of creations minus the
    live one; the number of release calls is at least that, not equal to it,
    since a replaced handle is revoked again by the effect cleanup. *)
Theorem C8_one_live_preview_handle (w : World) :
  reachable w ->
  at_most_one_live (urlCalls w)
  /\ live (urlCalls w) = option_list (held w)
  /\ length (live (urlCalls w)) <= 1
  /\ size (released (urlCalls w))
     = created (urlCalls w) - length (live (urlCalls w))
  /\ revoked (urlCalls w)
     >= created (urlCalls w) - length (live (urlCalls w)).
Proof.
  intros Hw. pose proof (reachable_url_inv w Hw) as Hinv.
  pose proof (url_inv_released _ _ Hinv) as Hsize.
  destruct Hinv as (Hone & Hlive & _ & _).
  split; [exact Hone|]. split; [exact Hlive|].
  split; [rewrite Hlive; destruct (held w); simpl; lia|].
  split; [exact Hsize|].
  rewrite <- Hsize. apply size_list_to_set_le.
Qed.

Lemma reachable_three_intakes :
  reachable (default initial_world (run three_intakes initial_world)).
Proof. exists three_intakes. vm_compute. reflexivity. Qed.

Lemma C8_one_live_preview_handle_witness :
  live (urlCalls (default initial_world (run three_intakes initial_world)))
  = option_list (held (default initial_world (run three_intakes initial_world)))
  /\ size (released (urlCalls
             (default initial_world (run three_intakes initial_world))))
     = created (urlCalls (default initial_world (run three_intakes initial_world)))
       - length (live (urlCalls
                   (default initial_world (run three_intakes initial_world)))).
Proof.
  destruct (C8_one_live_preview_handle _ reachable_three_intakes)
    as (_ & H1 & _ & H2 & _).
  split; assumption.
Defined.

(** ** Reset *)

(** [clearAll] puts every state cell back to its initial value. *)
Lemma clearAll_initial_state (w : World) :
  mounted w = true -> st (clearAll w) = initial_state.
Proof. intros Hm. open_world w. subst m. reflexivity. Qed.

(** The poll closure in place was made for a job being processed. *)
Lemma reachable_pollTimer (w : World) :
  reachable w -> is_Some (pollTimer w) -> snd (pollDeps w) = true.
Proof.
  intros Hw. induction Hw as [|e w w' _ IH Hstep] using reachable_ind.
  - intros [? [=]].
  - unfold step in Hstep.
    destruct (handle e w) as [h|] eqn:Hh; [|discriminate]. injection Hstep as <-.
    assert (Hkeep : pollTimer h = pollTimer w /\ pollDeps h = pollDeps w).
    { clear IH. destruct e; unfold handle in Hh.
      - destruct (mounted w); simplify_eq.
        unfold onFiles. destruct files as [[|f fs]|]; auto.
        destruct (_ >? _)%Z; cbn; auto.
      - destruct (_ && _); simplify_eq.
        unfold startUpscale. destruct (file (st w)); cbn; auto.
      - destruct (_ && _); simplify_eq. cbn. auto.
      - destruct (is_pending k w); simplify_eq.
        destruct (xhr_upload_onprogress _ _ _); simplify_eq; cbn; auto.
      - destruct (is_pending k w); simplify_eq.
        unfold startUpscale_resume, startUpscale_catch.
        destruct (xhr_onload status responseText) as [resp|msg]; [|cbn; auto].
        destruct (prop (docs w) resp "jobId") as [j|],
          (prop (docs w) resp "resultUrl") as [u|]; try (cbn; auto; fail).
        destruct (truthy j); [cbn; auto|]. destruct (truthy u); cbn; auto.
      - destruct (is_pending k w); simplify_eq. cbn. auto.
      - destruct (phase_of p w) as [[]|]; simplify_eq.
        unfold poll_resume, poll_catch, setTimeout.
        destruct r as [|[] [data|]]; try (cbn; auto; fail).
        destruct (prop (docs w) data "progress"), (prop (docs w) data "status"),
          (prop (docs w) data "resultUrl"), (prop (docs w) data "error");
          try (cbn; auto; fail).
        destruct (is_status "done" _); [cbn; auto|].
        destruct (is_status "failed" _); cbn; auto.
      - destruct (phase_of p w) as [[]|]; simplify_eq. cbn. auto.
      - destruct (mounted w); simplify_eq. cbn. auto. }
    destruct Hkeep as [Ht Hd].
    destruct (render_cases h) as [->|(_ & _ & ->)];
      [|change (is_Some (pollTimer h) -> snd (pollDeps h) = true);
        rewrite Ht, Hd; exact IH].
    unfold commit.
    destruct (mounted h); [|rewrite Ht, Hd; exact IH].
    destruct (preview_effect_frame h) as (Hst & _ & _ & _ & Hd' & Ht' & _).
    rewrite <- Ht', <- Hd' in *. revert IH. rewrite <- Ht, <- Hd.
    generalize (preview_effect h). clear. intros w IH.
    unfold poll_effect.
    destruct (same_value _ _ && Bool.eqb _ _); [exact IH|].
    destruct (truthy _ && isProcessing _) eqn:Hboth; cbn.
    + intros _. apply andb_prop in Hboth as [_ Hb]. exact Hb.
    + intros [? [=]].
Qed.

(** A click on Clear while the poll closure in place waits for its timeout
    resets the state and cancels that timeout. *)
Lemma reset_cancels_timer_in_place (w : World) (p : nat) (d : Z) :
  reachable w -> mounted w = true -> file (st w) <> None ->
  pollTimer w = Some p -> phase_of p w = Some (Sleeping d) ->
  exists w',
    step ClickClear w = Some w'
    /\ st w' = initial_state
    /\ phase_of p w' = Some Stopped.
Proof.
  intros Hw Hm Hfile Ht Hp.
  pose proof (reachable_in_place w Hw Hm) as (Hdep & _ & Hproc).
  pose proof (reachable_pollTimer w Hw) as Hsnd.
  rewrite Ht in Hsnd. specialize (Hsnd (ex_intro _ p eq_refl)).
  eexists. split.
  - unfold step, handle. rewrite Hm.
    rewrite bool_decide_eq_true_2 by exact Hfile. reflexivity.
  - rewrite st_render. split; [apply clearAll_initial_state, Hm|].
    rewrite render_ok
      by (rewrite clearAll_initial_state by exact Hm; reflexivity).
    unfold phase_of in *.
    destruct (polls w !! p) as [pl|] eqn:Hpl; [|discriminate].
    simpl in Hp. injection Hp as Hp.
    open_world w. destruct pj as [dj dp]. cbn in *. subst m pt dp.
    rewrite Hsnd. unfold commit, poll_effect, preview_effect, clearAll. cbn.
    case_decide; cbn; rewrite andb_false_r; cbn;
      rewrite list_lookup_alter_eq, Hpl; cbn; unfold cancel; rewrite Hp;
      reflexivity.
Qed.

(** C7, at the failing input. After [stale_poll] a status query for the job
    that was reset is scheduled, by a poll closure whose effect was cleaned
    up while its query was in flight. A click on Clear resets the state but
    leaves that scheduled query pending; it fires and the job is queried
    again. *)
Theorem C7_reset_leaves_stale_query :
  exists w w' w'',
    run stale_poll initial_world = Some w
    /\ phase_of 0 w = Some (Sleeping 3000)
    /\ step ClickClear w = Some w'
    /\ st w' = initial_state
    /\ phase_of 0 w' = Some (Sleeping 3000)
    /\ step (TimerFired 0) w' = Some w''
    /\ fetches w'' = fetches w' ++ [VStr "abc123"].
Proof.
  do 3 eexists.
  split; [vm_compute; reflexivity|]. split; [reflexivity|].
  split; [vm_compute; reflexivity|]. split; [reflexivity|].
  split; [reflexivity|]. split; [vm_compute; reflexivity|]. reflexivity.
Qed.

(** ** Outcomes *)

(** C1, as stated, fails: once the upload has been answered with a job, the
    job is set and so is the message ["File uploaded. Processing
    started..."], which [startUpscale] sets in that very branch. *)
Lemma C1_outcomes_counterexample :
  reachable polling
  /\ jobId (st polling) = VStr "abc123"
  /\ message (st polling) = VStr "File uploaded. Processing started..."
  /\ ~ outcomes (st polling) <= 1.
Proof.
  split; [exact reachable_polling|]. split; [reflexivity|].
  split; [reflexivity|].
  replace (outcomes (st polling)) with 2 by (vm_compute; reflexivity). lia.
Qed.

(** When Clear is clicked during an upload, the answers of two uploads
    overlap, and a job, a result and a message are current together. *)
Lemma overlapping_outcomes :
  exists w,
    run overlapping initial_world = Some w
    /\ jobId (st w) = VStr "abc123"
    /\ resultUrl (st w) = VStr "https://x/out.mp4"
    /\ outcomes (st w) = 3
    /\ ~ orderly overlapping initial_world.
Proof.
  eexists. split; [vm_compute; reflexivity|].
  split; [reflexivity|]. split; [reflexivity|]. split; [reflexivity|].
  unfold overlapping.
  do 2 (cbn [orderly]; intros [_ H]; revert H; orderly_step).
  cbn [orderly]. intros [H _].
  destruct (H eq_refl) as [Hup _]. specialize (Hup 0). discriminate Hup.
Qed.

Lemma number_same_to_boolean (x y : number) :
  Number.same x y = true -> Number.to_boolean x = Number.to_boolean y.
Proof. destruct x, y; simpl; intros H; try discriminate; reflexivity. Qed.

(** Values that [Object.is] identifies are truthy together. *)
Lemma same_value_truthy (v v' : jsval) :
  same_value v v' = true -> truthy v = truthy v'.
Proof.
  destruct v as [| |b|x|s|[n k] j], v' as [| |b'|x'|s'|[n' k'] j']; simpl;
    intros H; try discriminate; try reflexivity.
  - apply eqb_prop in H. exact H.
  - apply number_same_to_boolean, H.
  - apply String.eqb_eq in H. subst. reflexivity.
Qed.

Lemma is_pending_settle (k k' : nat) (w : World) :
  is_pending k (settle k' w)
  = if decide (k' = k) then false else is_pending k w.
Proof.
  unfold is_pending, settle. cbn. case_decide as Hk.
  - subst k'. rewrite list_lookup_alter_eq. destruct (uploads w !! k); reflexivity.
  - rewrite list_lookup_alter_ne by exact Hk. reflexivity.
Qed.

Lemma phase_of_cancel (t : option nat) (q : nat) (w : World) :
  phase_of q (clearTimeout t w)
  = if decide (t = Some q)
    then match phase_of q w with
         | Some (Sleeping _) => Some Stopped
         | other => other
         end
    else phase_of q w.
Proof.
  unfold phase_of, clearTimeout. cbn. destruct t as [p|].
  - case_decide as Hp.
    + injection Hp as ->. rewrite list_lookup_alter_eq.
      destruct (polls w !! q) as [pl|]; [|reflexivity].
      unfold cancel. simpl. destruct (phase pl) eqn:E; simpl; congruence.
    + rewrite list_lookup_alter_ne by congruence. reflexivity.
  - rewrite decide_False by discriminate. reflexivity.
Qed.

(** The commit after a callback, on a mounted component. *)
Lemma commit_mounted (h : World) :
  mounted h = true ->
  st (commit h) = st h /\ uploads (commit h) = uploads h
  /\ mounted (commit h) = true /\ hooks_in_place (commit h)
  /\ ((same_value (fst (pollDeps h)) (jobId (st h))
       && Bool.eqb (snd (pollDeps h)) (isProcessing (st h)) = true
       /\ polls (commit h) = polls h /\ pollTimer (commit h) = pollTimer h)
      \/ (same_value (fst (pollDeps h)) (jobId (st h))
          && Bool.eqb (snd (pollDeps h)) (isProcessing (st h)) = false
          /\ truthy (jobId (st h)) && isProcessing (st h) = true
          /\ polls (commit h)
             = polls (clearTimeout (pollTimer h) h)
                 ++ [{| job := jobId (st h); phase := Fetching |}]
          /\ pollTimer (commit h) = Some (length (polls h)))
      \/ (same_value (fst (pollDeps h)) (jobId (st h))
          && Bool.eqb (snd (pollDeps h)) (isProcessing (st h)) = false
          /\ truthy (jobId (st h)) && isProcessing (st h) = false
          /\ polls (commit h) = polls (clearTimeout (pollTimer h) h)
          /\ pollTimer (commit h) = None)).
Proof.
  intros Hm. split; [apply st_commit|].
  split. { unfold commit. rewrite Hm. 
           destruct (poll_effect_frame (preview_effect h)) as (_ & _ & _ & _ & ->).
           apply preview_effect_frame. }
  split; [rewrite mounted_commit; exact Hm|].
  split; [apply commit_in_place, Hm|].
  unfold commit. rewrite Hm.
  destruct (preview_effect_frame h) as (Hst & _ & Hps & _ & Hd & Ht & _).
  revert Hst Hps Hd Ht. generalize (preview_effect h). intros w Hst Hps Hd Ht.
  rewrite <- Hst, <- Hd, <- Ht, <- Hps.
  replace (polls (clearTimeout (pollTimer w) h))
    with (polls (clearTimeout (pollTimer w) w))
    by (unfold clearTimeout; cbn; rewrite Hps; reflexivity).
  unfold poll_effect.
  destruct (same_value _ _ && Bool.eqb _ _); [left; auto|right].
  destruct (truthy _ && isProcessing _); cbn.
  - left. destruct (pollTimer w); cbn; rewrite ?length_alter; auto.
  - right. auto.
Qed.

Lemma all_stopped_polls (w w' : World) :
  polls w' = polls w -> all_stopped w -> all_stopped w'.
Proof. unfold all_stopped, phase_of. intros ->. auto. Qed.

Lemma all_stopped_clearTimeout (t : option nat) (w : World) :
  all_stopped w -> all_stopped (clearTimeout t w).
Proof.
  intros Hall q ph. rewrite phase_of_cancel. case_decide.
  - destruct (phase_of q w) as [[]|] eqn:E; intros [= <-];
      try reflexivity; eapply Hall; eauto.
  - apply Hall.
Qed.

Lemma no_pending_uploads (w w' : World) :
  uploads w' = uploads w -> no_pending w -> no_pending w'.
Proof. unfold no_pending, is_pending. intros ->. auto. Qed.

(** Four ways for a mounted world to be settled. *)
Lemma settled_inv_quiet (w : World) :
  hooks_in_place w -> no_pending w -> all_stopped w ->
  truthy (jobId (st w)) = false -> settled_inv w.
Proof.
  intros Hin Hno Hall Hjob. split.
  - exact Hin.
  - intros k k' Hk. rewrite Hno in Hk. discriminate.
  - intros k Hk. rewrite Hno in Hk. discriminate.
  - congruence.
  - auto.
  - intros p ph Hp Hne. apply Hall in Hp. contradiction.
Qed.

Lemma settled_inv_uploading (w : World) (k0 : nat) :
  hooks_in_place w ->
  (forall k, is_pending k w = true -> k = k0) ->
  isProcessing (st w) = true -> truthy (jobId (st w)) = false ->
  resultUrl (st w) = VNull -> all_stopped w -> settled_inv w.
Proof.
  intros Hin Hone Hproc Hjob Hres Hall. split.
  - exact Hin.
  - intros k k' Hk Hk'. apply Hone in Hk, Hk'. congruence.
  - auto.
  - congruence.
  - congruence.
  - intros p ph Hp Hne. apply Hall in Hp. contradiction.
Qed.

Lemma settled_inv_tracking (w : World) :
  hooks_in_place w -> no_pending w ->
  isProcessing (st w) = true -> resultUrl (st w) = VNull ->
  (forall p ph, phase_of p w = Some ph -> ph <> Stopped ->
                pollTimer w = Some p) ->
  settled_inv w.
Proof.
  intros Hin Hno Hproc Hres Hpoll. split.
  - exact Hin.
  - intros k k' Hk. rewrite Hno in Hk. discriminate.
  - intros k Hk. rewrite Hno in Hk. discriminate.
  - auto.
  - congruence.
  - exact Hpoll.
Qed.

(** A step that leaves the job, [isProcessing], the uploads, the polls and
    the poll hook alone, and the result alone or cleared. *)
Lemma settled_inv_neutral (w w' : World) :
  settled_inv w -> hooks_in_place w' ->
  jobId (st w') = jobId (st w) ->
  isProcessing (st w') = isProcessing (st w) ->
  resultUrl (st w') = resultUrl (st w) \/ resultUrl (st w') = VNull ->
  uploads w' = uploads w -> polls w' = polls w ->
  pollTimer w' = pollTimer w ->
  settled_inv w'.
Proof.
  intros [Hin Hone Hup Hjob Hidle Hpoll] Hin' Ej Ep Er Eu Eps Et.
  assert (Epend : forall k, is_pending k w' = is_pending k w)
    by (intros k; unfold is_pending; rewrite Eu; reflexivity).
  assert (Ephase : forall p, phase_of p w' = phase_of p w)
    by (intros p; unfold phase_of; rewrite Eps; reflexivity).
  split.
  - exact Hin'.
  - intros k k'. rewrite !Epend. apply Hone.
  - intros k. rewrite Epend, Ej, Ep. intros Hk.
    destruct (Hup k Hk) as (H1 & H2 & H3 & H4).
    repeat split; auto.
    + destruct Er as [-> | ->]; auto.
    + eapply all_stopped_polls; eauto.
  - rewrite Ej, Ep. intros Hj. destruct (Hjob Hj) as [H1 H2].
    split; auto. destruct Er as [-> | ->]; auto.
  - rewrite Ep. intros Hp. destruct (Hidle Hp) as [H1 H2]. split.
    + eapply no_pending_uploads; eauto.
    + eapply all_stopped_polls; eauto.
  - intros p ph. rewrite Ephase, Et. apply Hpoll.
Qed.

(** A step that moves one running poll closure to another running phase. *)
Lemma settled_inv_phase (w w' : World) (p : nat) (ph0 ph : Phase) :
  settled_inv w -> hooks_in_place w' ->
  phase_of p w = Some ph0 -> ph0 <> Stopped ->
  polls w' = alter (in_phase ph) p (polls w) ->
  jobId (st w') = jobId (st w) ->
  isProcessing (st w') = isProcessing (st w) ->
  resultUrl (st w') = resultUrl (st w) ->
  uploads w' = uploads w -> pollTimer w' = pollTimer w ->
  settled_inv w'.
Proof.
  intros [Hin Hone Hup Hjob Hidle Hpoll] Hin' Hp Hne Eps Ej Ep Er Eu Et.
  assert (Epend : forall k, is_pending k w' = is_pending k w)
    by (intros k; unfold is_pending; rewrite Eu; reflexivity).
  assert (Hrun : ~ all_stopped w).
  { intros Hall. apply Hall in Hp. contradiction. }
  split.
  - exact Hin'.
  - intros k k'. rewrite !Epend. apply Hone.
  - intros k. rewrite Epend. intros Hk. destruct (Hup k Hk) as (_ & _ & _ & H).
    contradiction.
  - rewrite Ej, Ep, Er. exact Hjob.
  - rewrite Ep. intros Hf. destruct (Hidle Hf) as [_ H]. contradiction.
  - intros q phq Hq Hneq. rewrite Et.
    destruct (decide (p = q)) as [<-|Hpq]; [eapply Hpoll; eauto|].
    unfold phase_of in Hq. rewrite Eps, list_lookup_alter_ne in Hq by exact Hpq.
    eapply Hpoll; eauto.
Qed.

Lemma onFiles_summary (files : option (list File.t)) (w : World) :
  mounted w = true ->
  jobId (st (onFiles files w)) = jobId (st w)
  /\ isProcessing (st (onFiles files w)) = isProcessing (st w)
  /\ (resultUrl (st (onFiles files w)) = resultUrl (st w)
      \/ resultUrl (st (onFiles files w)) = VNull)
  /\ uploads (onFiles files w) = uploads w
  /\ polls (onFiles files w) = polls w
  /\ same_hooks w (onFiles files w).
Proof.
  intros Hm. unfold onFiles, same_hooks.
  destruct files as [[|f fs]|]; [auto 10| |auto 10].
  destruct (_ >? _)%Z; open_world w; subst m; cbn; auto 10.
Qed.

Lemma startUpscale_summary (w : World) :
  mounted w = true -> file (st w) <> None ->
  jobId (st (startUpscale w)) = jobId (st w)
  /\ isProcessing (st (startUpscale w)) = true
  /\ resultUrl (st (startUpscale w)) = VNull
  /\ (exists u, pending u = true /\ uploads (startUpscale w) = uploads w ++ [u])
  /\ polls (startUpscale w) = polls w
  /\ same_hooks w (startUpscale w).
Proof.
  intros Hm Hfile. unfold startUpscale, same_hooks.
  destruct (file (st w)) as [f|]; [|congruence].
  open_world w. subst m. cbn. repeat split. eexists. split; [|reflexivity].
  reflexivity.
Qed.

Lemma clearAll_summary (w : World) :
  mounted w = true ->
  st (clearAll w) = initial_state
  /\ uploads (clearAll w) = uploads w
  /\ polls (clearAll w) = polls w
  /\ same_hooks w (clearAll w).
Proof.
  intros Hm. unfold same_hooks. open_world w. subst m. cbn. repeat split.
Qed.

(** The continuation of [startUpscale]: a job is recorded, or
    [isProcessing] is cleared. *)
Lemma startUpscale_resume_summary (doc : nat) (r : Settlement) (w : World) :
  mounted w = true ->
  let h := startUpscale_resume doc r w in
  ((truthy (jobId (st h)) = true
    /\ isProcessing (st h) = isProcessing (st w)
    /\ resultUrl (st h) = resultUrl (st w))
   \/ (jobId (st h) = jobId (st w) /\ isProcessing (st h) = false))
  /\ uploads h = uploads w /\ polls h = polls w /\ same_hooks w h.
Proof.
  intros Hm. unfold startUpscale_resume, startUpscale_catch, same_hooks.
  destruct r as [resp|msg]; [|open_world w; subst m; cbn; auto 10].
  destruct (prop doc resp "jobId") as [j|], (prop doc resp "resultUrl") as [u|];
    try (open_world w; subst m; cbn; auto 10; fail).
  destruct (truthy j) eqn:Hj; [open_world w; subst m; cbn; auto 10|].
  destruct (truthy u); open_world w; subst m; cbn; auto 10.
Qed.

(** [poll] after its query has settled: the closure sleeps and the job
    stays, or the closure stops and the job is over. *)
Lemma poll_resume_summary (p doc : nat) (r : FetchResult) (w : World) :
  mounted w = true ->
  let h := poll_resume p doc r w in
  ((polls h = alter (in_phase (Sleeping POLL_INTERVAL)) p (polls w)
    /\ jobId (st h) = jobId (st w)
    /\ isProcessing (st h) = isProcessing (st w)
    /\ resultUrl (st h) = resultUrl (st w))
   \/ (polls h = alter (in_phase Stopped) p (polls w)
       /\ jobId (st h) = VNull /\ isProcessing (st h) = false))
  /\ uploads h = uploads w /\ same_hooks w h.
Proof.
  intros Hm. unfold poll_resume, poll_catch, setTimeout, same_hooks.
  destruct r as [|[] [data|]];
    try (open_world w; subst m; cbn; auto 10; fail).
  destruct (prop doc data "progress"), (prop doc data "status"),
    (prop doc data "resultUrl"), (prop doc data "error");
    try (open_world w; subst m; cbn; auto 10; fail).
  destruct (is_status "done" _); [open_world w; subst m; cbn; auto 10|].
  destruct (is_status "failed" _); open_world w; subst m; cbn; auto 10.
Qed.

(** A commit that finds the dependencies of the polling effect unchanged
    leaves the polls alone. *)
Lemma commit_stable (w h : World) :
  mounted w = true -> hooks_in_place w -> same_hooks w h ->
  jobId (st h) = jobId (st w) -> isProcessing (st h) = isProcessing (st w) ->
  hooks_in_place (commit h) /\ st (commit h) = st h
  /\ uploads (commit h) = uploads h /\ polls (commit h) = polls h
  /\ pollTimer (commit h) = pollTimer w.
Proof.
  intros Hm (_ & Hj & Hp) (Hd & Ht & Hmh) Ej Ep.
  rewrite Hm in Hmh.
  destruct (commit_mounted h Hmh) as (Hst & Hup & _ & Hin & Hcases).
  rewrite Hd, Ej, Ep, Hj, Hp, eqb_reflx in Hcases. simpl in Hcases.
  destruct Hcases as [(_ & Hps & Ht')|[(? & _)|(? & _)]]; try discriminate.
  rewrite Ht' , Ht. auto.
Qed.

(** A commit that finds them changed runs the cleanup, and starts a poll
    closure when there is a job being processed. *)
Lemma commit_changed (w h : World) :
  mounted w = true -> hooks_in_place w -> same_hooks w h ->
  isProcessing (st h) <> isProcessing (st w)
  \/ truthy (jobId (st h)) <> truthy (jobId (st w)) ->
  hooks_in_place (commit h) /\ st (commit h) = st h
  /\ uploads (commit h) = uploads h
  /\ ((truthy (jobId (st h)) && isProcessing (st h) = true
       /\ polls (commit h)
          = polls (clearTimeout (pollTimer w) h)
              ++ [{| job := jobId (st h); phase := Fetching |}]
       /\ pollTimer (commit h) = Some (length (polls h)))
      \/ (truthy (jobId (st h)) && isProcessing (st h) = false
          /\ polls (commit h) = polls (clearTimeout (pollTimer w) h)
          /\ pollTimer (commit h) = None)).
Proof.
  intros Hm (_ & Hj & Hp) (Hd & Ht & Hmh) Hdiff.
  rewrite Hm in Hmh.
  destruct (commit_mounted h Hmh) as (Hst & Hup & _ & Hin & Hcases).
  rewrite Hd, Ht in Hcases.
  split; [exact Hin|]. split; [exact Hst|]. split; [exact Hup|].
  destruct Hcases as [(Hsame & _)|[(_ & H)|(_ & H)]]; auto.
  apply andb_prop in Hsame as [H1 H2]. apply eqb_prop in H2.
  apply same_value_truthy in H1. apply same_value_truthy in Hj.
  destruct Hdiff; congruence.
Qed.

Lemma is_pending_snoc (k : nat) (u : Upload) (w h : World) :
  no_pending w -> uploads h = uploads w ++ [u] ->
  is_pending k h = true -> k = length (uploads w).
Proof.
  unfold no_pending, is_pending. intros Hno -> Hk.
  destruct (decide (k < length (uploads w))) as [Hlt|Hge].
  - rewrite lookup_app_l in Hk by exact Hlt. rewrite Hno in Hk. discriminate.
  - destruct (decide (k = length (uploads w))) as [->|Hne]; [reflexivity|].
    rewrite lookup_ge_None_2 in Hk; [discriminate|].
    rewrite length_app. simpl. lia.
Qed.

Lemma no_pending_settle (k : nat) (w h : World) :
  (forall k1 k2, is_pending k1 w = true -> is_pending k2 w = true -> k1 = k2) ->
  is_pending k w = true -> uploads h = uploads (settle k w) -> no_pending h.
Proof.
  intros Hone Hk Hup k'. unfold is_pending. rewrite Hup.
  change (is_pending k' (settle k w) = false).
  rewrite is_pending_settle. case_decide as Hkk; [reflexivity|].
  destruct (is_pending k' w) eqn:Hk'; [|reflexivity].
  specialize (Hone _ _ Hk Hk'). contradiction.
Qed.

(** The cleanup of the polling effect leaves every poll closure stopped
    when only the closure in place was running, and was sleeping. *)
Lemma all_stopped_cleanup (w h : World) :
  (forall p ph, phase_of p w = Some ph -> ph <> Stopped ->
                pollTimer w = Some p) ->
  (forall p, phase_of p w <> Some Fetching) ->
  polls h = polls w ->
  all_stopped (clearTimeout (pollTimer w) h).
Proof.
  intros Hpoll Hnof Hps q ph. rewrite phase_of_cancel.
  replace (phase_of q h) with (phase_of q w)
    by (unfold phase_of; rewrite Hps; reflexivity).
  destruct (phase_of q w) as [[]|] eqn:E.
  - destruct (Hnof q E).
  - rewrite decide_True; [congruence|]. eapply Hpoll; eauto.
  - case_decide; congruence.
  - case_decide; congruence.
Qed.

(** The upload in flight settles: a job starts being tracked, or the
    component is idle again. *)
Lemma settled_inv_upload_settled
  (w w0 : World) (k doc : nat) (r : Settlement) :
  mounted w = true -> settled_inv w -> is_pending k w = true ->
  st w0 = st w -> polls w0 = polls w -> uploads w0 = uploads (settle k w) ->
  same_hooks w w0 ->
  settled_inv (commit (startUpscale_resume doc r w0)).
Proof.
  intros Hm [Hin Hone Hup Hjob Hidle Hpoll] Hk Est0 Eps0 Eu0 Hsame0.
  destruct (Hup k Hk) as (Hproc & Hjf & Hres & Hall).
  assert (Hm0 : mounted w0 = true) by (destruct Hsame0 as (_ & _ & ->); exact Hm).
  destruct (startUpscale_resume_summary doc r w0 Hm0)
    as (Hbranch & Eu & Eps & Hsame).
  set (h := startUpscale_resume doc r w0) in *.
  assert (Hsame' : same_hooks w h).
  { destruct Hsame0 as (H1 & H2 & H3), Hsame as (H4 & H5 & H6).
    unfold same_hooks. rewrite H4, H5, H6. auto. }
  assert (Hno : no_pending h).
  { apply (no_pending_settle k w); auto. congruence. }
  assert (Hall' : all_stopped (clearTimeout (pollTimer w) h)).
  { apply all_stopped_clearTimeout.
    apply (all_stopped_polls w); [congruence|exact Hall]. }
  destruct (commit_changed w h Hm Hin Hsame') as (Hin' & Est & Eu' & Hcases).
  { destruct Hbranch as [(Hj & Hp & _)|(Hj & Hp)].
    - right. rewrite Hj, Hjf. discriminate.
    - left. rewrite Hp, Hproc. discriminate. }
  destruct Hbranch as [(Hj & Hp & Hr)|(Hj & Hp)].
  - rewrite Hj, Hp, Est0, Hproc in Hcases. cbn [andb] in Hcases.
    destruct Hcases as [(_ & Eps' & Et)|(? & _)]; [|discriminate].
    apply settled_inv_tracking.
    + exact Hin'.
    + apply (no_pending_uploads h); assumption.
    + rewrite Est, Hp, Est0. exact Hproc.
    + rewrite Est, Hr, Est0. exact Hres.
    + intros q ph Hq Hne. rewrite Et. f_equal.
      unfold phase_of in Hq. rewrite Eps' in Hq.
      pose proof (length_clearTimeout (pollTimer w) h) as HL.
      revert Hq HL. generalize (jobId (st h)).
      pose proof Hall' as Hall''. revert Hall''. unfold all_stopped, phase_of.
      generalize (polls (clearTimeout (pollTimer w) h)).
      intros L HallL j Hq HL.
      destruct (decide (q < length L)) as [Hlt|Hge].
      * rewrite lookup_app_l in Hq by exact Hlt. apply HallL in Hq.
        contradiction.
      * destruct ((L ++ [{| job := j; phase := Fetching |}]) !! q)
          eqn:E; [|discriminate].
        apply lookup_lt_Some in E. rewrite length_app in E. simpl in E. lia.
  - rewrite Hp, andb_false_r in Hcases.
    destruct Hcases as [(? & _)|(_ & Eps' & Et)]; [discriminate|].
    apply settled_inv_quiet.
    + exact Hin'.
    + apply (no_pending_uploads h); assumption.
    + apply (all_stopped_polls (clearTimeout (pollTimer w) h)); assumption.
    + rewrite Est, Hj, Est0. exact Hjf.
Qed.

(** One step of an orderly run keeps a mounted component settled. *)
Lemma settled_inv_commit (e : Event) (w w' : World) :
  mounted w = true -> settled_inv w ->
  (e = ClickClear -> nothing_in_flight w) ->
  commit <$> handle e w = Some w' -> mounted w' = true ->
  settled_inv w'.
Proof.
  intros Hm Hinv Hord Hstep Hm'.
  destruct (handle e w) as [h|] eqn:Hh; [|discriminate]. injection Hstep as <-.
  pose proof Hinv as [Hin Hone Hup Hjob Hidle Hpoll].
  destruct e; unfold handle in Hh; rewrite ?Hm in Hh; cbn [andb] in Hh.
  - (* SelectFiles *)
    simplify_eq.
    destruct (onFiles_summary files w Hm) as (Ej & Ep & Er & Eu & Eps & Hsame).
    destruct (commit_stable w _ Hm Hin Hsame Ej Ep) as (Hin' & Est & Eu' & Eps' & Et).
    apply (settled_inv_neutral w); auto; rewrite ?Est; try congruence.
  - (* ClickUpscale *)
    destruct (bool_decide _) eqn:Hfile; [|discriminate]. cbn [andb] in Hh.
    destruct (isProcessing (st w)) eqn:Hproc; [discriminate|].
    cbn [negb] in Hh. simplify_eq.
    apply bool_decide_eq_true_1 in Hfile.
    destruct (Hidle eq_refl) as [Hno Hall].
    assert (Hfalsy : truthy (jobId (st w)) = false).
    { destruct (truthy (jobId (st w))); [|reflexivity].
      destruct (Hjob eq_refl); congruence. }
    destruct (startUpscale_summary w Hm Hfile)
      as (Ej & Ep & Er & (u & _ & Eu) & Eps & Hsame).
    destruct (commit_changed w _ Hm Hin Hsame) as (Hin' & Est & Eu' & Hcases).
    { left. rewrite Ep, Hproc. discriminate. }
    rewrite Ej, Hfalsy in Hcases. cbn [andb] in Hcases.
    destruct Hcases as [(? & _)|(_ & Eps' & Et)]; [discriminate|].
    apply (settled_inv_uploading _ (length (uploads w))).
    + exact Hin'.
    + intros k Hk. eapply (is_pending_snoc k u w); eauto.
      unfold is_pending in *. rewrite Eu' in Hk. exact Hk.
    + rewrite Est. exact Ep.
    + rewrite Est, Ej. exact Hfalsy.
    + rewrite Est. exact Er.
    + apply (all_stopped_polls (clearTimeout (pollTimer w) (startUpscale w)));
        [exact Eps'|].
      apply all_stopped_clearTimeout.
      apply (all_stopped_polls w); [exact Eps|exact Hall].
  - (* ClickClear *)
    destruct (bool_decide _); [|discriminate]. simplify_eq.
    destruct (Hord eq_refl) as [Hno Hnof].
    destruct (clearAll_summary w Hm) as (Est0 & Eu & Eps & Hsame).
    assert (Hquiet : hooks_in_place (commit (clearAll w))
                     /\ st (commit (clearAll w)) = initial_state
                     /\ uploads (commit (clearAll w)) = uploads w
                     /\ all_stopped (commit (clearAll w))).
    { destruct (isProcessing (st w)) eqn:Hproc.
      - destruct (commit_changed w _ Hm Hin Hsame) as (Hin' & Est & Eu' & Hcases).
        { left. rewrite Est0, Hproc. discriminate. }
        rewrite Est0 in Hcases. cbn [andb truthy jobId initial_state] in Hcases.
        destruct Hcases as [(? & _)|(_ & Eps' & Et)]; [discriminate|].
        split; [exact Hin'|]. split; [congruence|]. split; [congruence|].
        apply (all_stopped_polls (clearTimeout (pollTimer w) (clearAll w)));
          [exact Eps'|].
        apply all_stopped_cleanup; auto.
      - destruct (Hidle eq_refl) as [_ Hall].
        assert (Hjf : truthy (jobId (st w)) = false).
        { destruct (truthy (jobId (st w))); [|reflexivity].
          destruct (Hjob eq_refl); congruence. }
        destruct (commit_mounted (clearAll w)) as (Est & Eu' & _ & Hin' & Hcases).
        { destruct Hsame as (_ & _ & ->). exact Hm. }
        split; [exact Hin'|]. split; [congruence|]. split; [congruence|].
        destruct Hsame as (Hd & Ht & _).
        destruct Hcases as [(_ & Eps' & _)|[(_ & Hboth & _)|(_ & _ & Eps' & _)]].
        + apply (all_stopped_polls w); [rewrite Eps'; exact Eps|exact Hall].
        + rewrite Est0 in Hboth. discriminate.
        + apply (all_stopped_polls (clearTimeout (pollTimer (clearAll w)) (clearAll w)));
            [exact Eps'|].
          apply all_stopped_clearTimeout.
          apply (all_stopped_polls w); [exact Eps|exact Hall]. }
    destruct Hquiet as (Hin' & Est & Eu' & Hall').
    apply settled_inv_quiet; auto.
    + eapply no_pending_uploads; eauto.
    + rewrite Est. reflexivity.
  - (* XhrProgress *)
    destruct (is_pending k w) eqn:Hk; [|discriminate].
    assert (Hsum : jobId (st h) = jobId (st w)
                   /\ isProcessing (st h) = isProcessing (st w)
                   /\ resultUrl (st h) = resultUrl (st w)
                   /\ uploads h = uploads w /\ polls h = polls w
                   /\ same_hooks w h).
    { unfold same_hooks.
      destruct (xhr_upload_onprogress _ _ _); simplify_eq; [|auto 10].
      open_world w. subst m. cbn. auto 10. }
    destruct Hsum as (Ej & Ep & Er & Eu & Eps & Hsame).
    destruct (commit_stable w _ Hm Hin Hsame Ej Ep)
      as (Hin' & Est & Eu' & Eps' & Et).
    apply (settled_inv_neutral w); auto; rewrite ?Est; try congruence.
    left. congruence.
  - (* XhrLoad *)
    destruct (is_pending k w) eqn:Hk; [|discriminate]. simplify_eq.
    apply (settled_inv_upload_settled w _ k); auto. repeat split.
  - (* XhrError *)
    destruct (is_pending k w) eqn:Hk; [|discriminate]. simplify_eq.
    apply (settled_inv_upload_settled w _ k); auto. repeat split.
  - (* FetchSettled *)
    destruct (phase_of p w) as [[]|] eqn:Hp; try discriminate. simplify_eq.
    pose proof (Hpoll p Fetching Hp ltac:(discriminate)) as Ht.
    assert (Hproc : isProcessing (st w) = true).
    { destruct (isProcessing (st w)); [reflexivity|].
      destruct (Hidle eq_refl) as [_ Hall]. apply Hall in Hp. discriminate. }
    destruct (poll_resume_summary p (docs w) r (parsed w) Hm)
      as (Hbranch & Eu & Hsame).
    set (h := poll_resume p (docs w) r (parsed w)) in *.
    change (st (parsed w)) with (st w) in Hbranch.
    change (polls (parsed w)) with (polls w) in Hbranch.
    change (uploads (parsed w)) with (uploads w) in Eu.
    change (same_hooks w h) in Hsame.
    destruct Hbranch as [(Eps & Ej & Ep & Er)|(Eps & Ej & Ep)].
    + destruct (commit_stable w h Hm Hin Hsame Ej Ep)
        as (Hin' & Est & Eu' & Eps' & Et').
      apply (settled_inv_phase w _ p Fetching (Sleeping POLL_INTERVAL));
        auto; rewrite ?Est; try congruence; try discriminate.
    + destruct (commit_changed w h Hm Hin Hsame) as (Hin' & Est & Eu' & Hcases).
      { left. rewrite Ep, Hproc. discriminate. }
      rewrite Ep, andb_false_r in Hcases.
      destruct Hcases as [(? & _)|(_ & Eps' & Et')]; [discriminate|].
      apply settled_inv_quiet.
      * exact Hin'.
      * apply (no_pending_uploads w); [congruence|].
        intros k. destruct (is_pending k w) eqn:Hk; [|reflexivity].
        destruct (Hup k Hk) as (_ & _ & _ & Hall). apply Hall in Hp. discriminate.
      * intros q ph Hq. unfold phase_of in Hq. rewrite Eps' in Hq.
        change (phase_of q (clearTimeout (pollTimer w) h) = Some ph) in Hq.
        rewrite phase_of_cancel in Hq. unfold phase_of in Hq. rewrite Eps in Hq.
        destruct (decide (p = q)) as [<-|Hpq].
        -- rewrite list_lookup_alter_eq in Hq.
           destruct (polls w !! p); simpl in Hq; case_decide; congruence.
        -- rewrite list_lookup_alter_ne in Hq by exact Hpq.
           rewrite decide_False in Hq by congruence.
           destruct ph; try reflexivity; exfalso; apply Hpq;
             (assert (Some p = Some q) as [= ->]; [|reflexivity]);
             rewrite <- Ht; eapply Hpoll; eauto; discriminate.
      * rewrite Est, Ej. reflexivity.
  - (* TimerFired *)
    destruct (phase_of p w) as [[]|] eqn:Hp; try discriminate. simplify_eq.
    assert (Hsame : same_hooks w (poll_call p w)) by (repeat split).
    destruct (commit_stable w (poll_call p w) Hm Hin Hsame eq_refl eq_refl)
      as (Hin' & Est & Eu' & Eps' & Et').
    apply (settled_inv_phase w _ p (Sleeping delay) Fetching);
      auto; rewrite ?Est, ?Eps', ?Eu'; try reflexivity; try discriminate.
  - (* Unmount *)
    simplify_eq; try (rewrite mounted_commit in Hm'; discriminate).
Qed.

(** A step that leaves the component mounted has committed its render. *)
Lemma settled_inv_step (e : Event) (w w' : World) :
  mounted w = true -> settled_inv w ->
  (e = ClickClear -> nothing_in_flight w) ->
  step e w = Some w' -> mounted w' = true ->
  settled_inv w'.
Proof.
  intros Hm Hinv Hord Hstep Hm'. apply (settled_inv_commit e w); auto.
  unfold step in Hstep. destruct (handle e w) as [h|]; [|discriminate].
  injection Hstep as <-. apply render_succeeded in Hm' as (_ & _ & ->).
  reflexivity.
Qed.

(** Once the component is unmounted its state is frozen. *)
Lemma step_unmounted (e : Event) (w w' : World) :
  mounted w = false -> step e w = Some w' ->
  st w' = st w /\ mounted w' = false.
Proof.
  intros Hm Hstep. unfold step in Hstep.
  destruct (handle e w) as [h|] eqn:Hh; [|discriminate]. injection Hstep as <-.
  rewrite st_render, mounted_render.
  assert (Hgoal : st h = st w /\ mounted h = false);
    [|destruct Hgoal as [-> ->]; auto].
  destruct e; unfold handle in Hh; rewrite ?Hm in Hh; cbn [andb] in Hh;
    try discriminate.
  - destruct (is_pending k w); [|discriminate].
    destruct (xhr_upload_onprogress _ _ _); simplify_eq; [|auto].
    cbn. rewrite Hm. auto.
  - destruct (is_pending k w); [|discriminate]. simplify_eq.
    unfold startUpscale_resume, startUpscale_catch.
    destruct (xhr_onload status responseText) as [resp|msg];
      [|cbn; rewrite Hm; auto].
    destruct (prop (docs w) resp "jobId") as [j|],
      (prop (docs w) resp "resultUrl") as [u|];
      try (cbn; rewrite Hm; auto; fail).
    destruct (truthy j); [cbn; rewrite Hm; auto|].
    destruct (truthy u); cbn; rewrite Hm; auto.
  - destruct (is_pending k w); [|discriminate]. simplify_eq.
    cbn. rewrite Hm. auto.
  - destruct (phase_of p w) as [[]|]; try discriminate. simplify_eq.
    unfold poll_resume, poll_catch, setTimeout.
    destruct r as [|[] [data|]]; try (cbn; rewrite Hm; auto; fail).
    destruct (prop (docs w) data "progress"), (prop (docs w) data "status"),
      (prop (docs w) data "resultUrl"), (prop (docs w) data "error");
      try (cbn; rewrite Hm; auto; fail).
    destruct (is_status "done" _); [cbn; rewrite Hm; auto|].
    destruct (is_status "failed" _); cbn; rewrite Hm; auto.
  - destruct (phase_of p w) as [[]|]; try discriminate. simplify_eq.
    cbn. auto.
Qed.

Lemma settled_inv_exclusive (w : World) : settled_inv w -> exclusive (st w).
Proof.
  intros Hinv [Hj Hr]. destruct (si_job w Hinv Hj) as [_ Hres].
  rewrite Hres in Hr. discriminate.
Qed.

Lemma settled_inv_initial : settled_inv initial_world.
Proof.
  apply settled_inv_quiet.
  - repeat split.
  - intros k. unfold is_pending. cbn. rewrite lookup_nil. reflexivity.
  - intros q ph. unfold phase_of. cbn. rewrite lookup_nil. discriminate.
  - reflexivity.
Qed.

(** Only the teardown unmounts the component, and it leaves the state
    alone. *)
Lemma handle_unmounts (e : Event) (w h : World) :
  handle e w = Some h -> mounted w = true -> mounted h = false ->
  e = Unmount /\ st h = st w.
Proof.
  intros Hh Hm Hmh. destruct e; unfold handle in Hh; rewrite ?Hm in Hh;
    cbn [andb] in Hh.
  - simplify_eq.
    destruct (onFiles_summary files w Hm) as (_ & _ & _ & _ & _ & _ & _ & E).
    congruence.
  - destruct (bool_decide _) eqn:Hfile; [|discriminate]. cbn [andb] in Hh.
    destruct (negb _); [|discriminate]. simplify_eq.
    apply bool_decide_eq_true_1 in Hfile.
    destruct (startUpscale_summary w Hm Hfile)
      as (_ & _ & _ & _ & _ & _ & _ & E).
    congruence.
  - destruct (bool_decide _); [|discriminate]. simplify_eq.
    destruct (clearAll_summary w Hm) as (_ & _ & _ & _ & _ & E). congruence.
  - destruct (is_pending k w); [|discriminate].
    destruct (xhr_upload_onprogress _ _ _); simplify_eq; cbn in Hmh; congruence.
  - destruct (is_pending k w); [|discriminate]. simplify_eq.
    destruct (startUpscale_resume_frame (docs w) (xhr_onload status responseText)
                (parsed (settle k w))) as (_ & _ & _ & _ & E & _).
    change (mounted (parsed (settle k w))) with (mounted w) in E. congruence.
  - destruct (is_pending k w); [|discriminate]. simplify_eq.
    destruct (startUpscale_resume_frame (docs w) xhr_onerror (settle k w))
      as (_ & _ & _ & _ & E & _).
    change (mounted (settle k w)) with (mounted w) in E. congruence.
  - destruct (phase_of p w) as [[]|]; try discriminate. simplify_eq.
    destruct (poll_resume_frame p (docs w) r (parsed w)) as (_ & _ & E & _).
    change (mounted (parsed w)) with (mounted w) in E. congruence.
  - destruct (phase_of p w) as [[]|]; try discriminate. simplify_eq.
    cbn in Hmh. congruence.
  - simplify_eq. split; reflexivity.
Qed.

(** Along an orderly run a mounted component stays settled, and a job and a
    result are never current together. *)
Lemma orderly_run_inv (es : list Event) (w0 w : World) :
  exclusive (st w0) -> (mounted w0 = true -> settled_inv w0) ->
  run es w0 = Some w -> orderly es w0 ->
  exclusive (st w) /\ (mounted w = true -> settled_inv w).
Proof.
  revert w0. induction es as [|e es IH]; intros w0 Hex Hinv Hrun Hord;
    simpl in Hrun, Hord.
  - injection Hrun as <-. auto.
  - destruct Hord as [Hclear Hord].
    destruct (step e w0) as [w1|] eqn:Hstep; [|discriminate].
    destruct (mounted w0) eqn:Hm0.
    + assert (Hinv1 : mounted w1 = true -> settled_inv w1).
      { intros Hm1. apply (settled_inv_step e w0 w1); auto. }
      apply (IH w1); auto.
      destruct (mounted w1) eqn:Hm1; [apply settled_inv_exclusive; auto|].
      unfold step in Hstep.
      destruct (handle e w0) as [h|] eqn:Hh; [|discriminate].
      injection Hstep as <-. rewrite st_render.
      destruct (mounted h) eqn:Hmh.
      * (* the render threw: had it been committed, the component would be
           settled in the same state *)
        rewrite <- (st_commit h). apply settled_inv_exclusive.
        apply (settled_inv_commit e w0 (commit h)); auto.
        -- rewrite Hh. reflexivity.
        -- rewrite mounted_commit. exact Hmh.
      * destruct (handle_unmounts e w0 h Hh Hm0 Hmh) as [_ ->]. exact Hex.
    + destruct (step_unmounted e w0 w1 Hm0 Hstep) as [Est Hm1].
      apply (IH w1); auto.
      * rewrite Est. exact Hex.
      * congruence.
Qed.

(** C1, amended. In every run in which Clear is clicked only while no upload
    and no status query is in flight:
    - a job and a result are never current together;
    - a click on the upscale button leaves no current outcome before the
      transfer: no job, no result, an empty message.
    The message is not exclusive with the other two: the job branch of
    [startUpscale] sets the job and a message together. *)
Theorem C1_job_result_exclusive (es : list Event) (w : World) :
  run es initial_world = Some w -> orderly es initial_world ->
  ~ (truthy (jobId (st w)) = true /\ truthy (resultUrl (st w)) = true)
  /\ forall w1,
       step ClickUpscale w = Some w1 ->
       outcomes (st w1) = 0
       /\ message (st w1) = VStr ""
       /\ resultUrl (st w1) = VNull
       /\ truthy (jobId (st w1)) = false
       /\ isProcessing (st w1) = true.
Proof.
  intros Hrun Hord.
  destruct (orderly_run_inv es initial_world w) as [Hex Hinv]; auto.
  { intros [_ H]. discriminate H. }
  { intros _. exact settled_inv_initial. }
  split; [exact Hex|].
  intros w1 Hstep. unfold step, handle in Hstep.
  destruct (mounted w) eqn:Hm; [|discriminate]. cbn [andb] in Hstep.
  destruct (bool_decide _) eqn:Hfile; [|discriminate]. cbn [andb] in Hstep.
  destruct (isProcessing (st w)) eqn:Hproc; [discriminate|].
  cbn [negb] in Hstep. injection Hstep as <-.
  apply bool_decide_eq_true_1 in Hfile.
  assert (Hfalsy : truthy (jobId (st w)) = false).
  { destruct (truthy (jobId (st w))) eqn:Hj; [|reflexivity].
    destruct (si_job w (Hinv eq_refl) Hj); congruence. }
  rewrite st_render. unfold startUpscale, outcomes.
  destruct (file (st w)) as [f|]; [|congruence].
  open_world w. subst m. cbn. rewrite Hfalsy. repeat split.
Qed.

Lemma orderly_upload_then_clear : orderly upload_then_clear initial_world.
Proof.
  unfold upload_then_clear.
  do 4 (cbn [orderly]; split; [discriminate|]; orderly_step).
  cbn [orderly]. split.
  { intros _. split.
    - intros [|[|k]]; reflexivity.
    - intros [|p]; discriminate. }
  orderly_step. cbn [orderly]. split; [discriminate|]. orderly_step. exact I.
Qed.

Lemma C1_job_result_exclusive_witness :
  exists w w1,
    run upload_then_clear initial_world = Some w
    /\ step ClickUpscale w = Some w1
    /\ outcomes (st w1) = 0.
Proof.
  eexists. eexists.
  split; [vm_compute; reflexivity|].
  split; [vm_compute; reflexivity|].
  eapply (C1_job_result_exclusive upload_then_clear).
  - vm_compute. reflexivity.
  - exact orderly_upload_then_clear.
  - vm_compute. reflexivity.
Defined.

(** ** Further properties of the handlers *)

(** X1. A file selection that carries no file, a missing list or an empty
    one, changes nothing: the state, the requests and the [URL] calls stay as
    they are. *)
Theorem onFiles_nothing_selected (w : World) :
  reachable w -> mounted w = true ->
  step (SelectFiles None) w = Some w
  /\ step (SelectFiles (Some [])) w = Some w.
Proof.
  intros Hw Hm.
  pose proof (render_idle w (reachable_renders w Hw Hm)
                (reachable_in_place w Hw Hm)) as Hidle.
  unfold step, handle. rewrite Hm. cbn. rewrite Hidle. split; reflexivity.
Qed.

Lemma onFiles_nothing_selected_witness :
  step (SelectFiles None) polling = Some polling
  /\ step (SelectFiles (Some [])) polling = Some polling.
Proof.
  apply (onFiles_nothing_selected polling); [exact reachable_polling|reflexivity].
Defined.

Lemma onFiles_accepted (w : World) (f : File.t) (rest : list File.t) :
  mounted w = true -> (File.size f <= MAX_FILE_SIZE_BYTES)%Z ->
  st (onFiles (Some (f :: rest)) w)
  = {| file := Some f; fileType := media_kind f;
       previewUrl := Some (created (urlCalls w)); message := VStr "";
       uploadProgress := Number.zero; processingProgress := VNull;
       jobId := jobId (st w); resultUrl := VNull;
       isProcessing := isProcessing (st w) |}
  /\ fetches (onFiles (Some (f :: rest)) w) = fetches w.
Proof.
  intros Hm Hsize. unfold onFiles, media_kind.
  replace (File.size f >? MAX_FILE_SIZE_BYTES)%Z with false by lia.
  open_world w. subst m. cbn. split; reflexivity.
Qed.

(** A commit that finds the job and the processing flag as the polling effect
    last saw them issues no query. *)
Lemma commit_no_query (w h : World) :
  hooks_in_place w -> same_hooks w h ->
  jobId (st h) = jobId (st w) -> isProcessing (st h) = isProcessing (st w) ->
  fetches (commit h) = fetches h.
Proof.
  intros (_ & Hj & Hp) (Hd & _ & _) Ej Ep.
  unfold commit. destruct (mounted h); [|reflexivity].
  destruct (preview_effect_frame h) as (Hst & _ & _ & Hf & Hdeps & _).
  rewrite <- Hf. unfold poll_effect.
  rewrite Hdeps, Hst, Hd, Ej, Ep, Hj, Hp, eqb_reflx. reflexivity.
Qed.

(** The render after an accepted file. *)
Lemma intake_render (w : World) (f : File.t) (rest : list File.t) :
  reachable w -> mounted w = true ->
  (File.size f <= MAX_FILE_SIZE_BYTES)%Z ->
  let w' := render (onFiles (Some (f :: rest)) w) in
  st w'
  = {| file := Some f; fileType := media_kind f;
       previewUrl := Some (created (urlCalls w)); message := VStr "";
       uploadProgress := Number.zero; processingProgress := VNull;
       jobId := jobId (st w); resultUrl := VNull;
       isProcessing := isProcessing (st w) |}
  /\ polls w' = polls w /\ pollTimer w' = pollTimer w
  /\ fetches w' = fetches w /\ uploads w' = uploads w
  /\ mounted w' = true.
Proof.
  intros Hw Hm Hsize w'. subst w'.
  rewrite render_ok by (apply renders_onFiles; assumption).
  pose proof (reachable_in_place w Hw Hm) as Hin.
  destruct (onFiles_summary (Some (f :: rest)) w Hm)
    as (Hj & Hp & _ & Hup & Hpolls & Hsame).
  destruct (onFiles_accepted w f rest Hm Hsize) as [Hst Hf].
  destruct (commit_stable w _ Hm Hin Hsame Hj Hp) as (_ & R1 & R2 & R3 & R4).
  rewrite R1, R2, R3, R4, Hst, Hup, Hpolls, mounted_commit.
  rewrite (commit_no_query w _ Hin Hsame Hj Hp), Hf.
  destruct Hsame as (_ & _ & ->). repeat split. exact Hm.
Qed.

(** X2. Selecting an acceptable file replaces the file, its kind and its
    preview and clears the message, the result and both progress values; it
    leaves the job and the processing flag as they are, and neither stops nor
    starts a status query or an upload. *)
Theorem intake_keeps_job (w : World) (f : File.t) (rest : list File.t) :
  reachable w -> mounted w = true ->
  (File.size f <= MAX_FILE_SIZE_BYTES)%Z ->
  exists w',
    step (SelectFiles (Some (f :: rest))) w = Some w'
    /\ st w'
       = {| file := Some f; fileType := media_kind f;
            previewUrl := Some (created (urlCalls w)); message := VStr "";
            uploadProgress := Number.zero; processingProgress := VNull;
            jobId := jobId (st w); resultUrl := VNull;
            isProcessing := isProcessing (st w) |}
    /\ polls w' = polls w /\ pollTimer w' = pollTimer w
    /\ fetches w' = fetches w /\ uploads w' = uploads w.
Proof.
  intros Hw Hm Hsize.
  destruct (intake_render w f rest Hw Hm Hsize) as (H1 & H2 & H3 & H4 & H5 & _).
  eexists. split.
  { unfold step, handle. rewrite Hm. reflexivity. }
  auto.
Qed.

Lemma intake_keeps_job_witness :
  exists w',
    step (SelectFiles (Some [png])) polling = Some w'
    /\ jobId (st w') = VStr "abc123" /\ isProcessing (st w') = true
    /\ polls w' = polls polling /\ fetches w' = fetches polling.
Proof.
  destruct (intake_keeps_job polling png [])
    as (w' & H1 & H2 & H3 & _ & H5 & _).
  - exact reachable_polling.
  - reflexivity.
  - vm_compute. discriminate.
  - exists w'. rewrite H2. repeat split; assumption.
Defined.

(** X3. An accepted file is uploaded by the next click on the upscale button
    with the four form fields, to [/api/upscale-image] when its MIME type
    starts with [image/] and to [/api/upscale-video] otherwise, also when the
    type is neither an image nor a video type and [fileType] is [null]. *)
Theorem upload_routing (w : World) (f : File.t) (rest : list File.t) :
  reachable w -> mounted w = true ->
  (File.size f <= MAX_FILE_SIZE_BYTES)%Z ->
  isProcessing (st w) = false ->
  exists w1 w2,
    step (SelectFiles (Some (f :: rest))) w = Some w1
    /\ fileType (st w1) = media_kind f
    /\ step ClickUpscale w1 = Some w2
    /\ uploads w2 = uploads w ++ [upscale_request f]
    /\ isProcessing (st w2) = true.
Proof.
  intros Hw Hm Hsize Hidle.
  destruct (intake_render w f rest Hw Hm Hsize) as (H1 & _ & _ & _ & H5 & H6).
  set (w1 := render (onFiles (Some (f :: rest)) w)) in *.
  exists w1, (render (startUpscale w1)). split.
  { unfold step, handle. rewrite Hm. reflexivity. }
  split; [rewrite H1; reflexivity|]. split.
  { unfold step, handle. rewrite H6, H1. cbn [file isProcessing].
    rewrite Hidle, bool_decide_eq_true_2 by discriminate. reflexivity. }
  rewrite st_render, uploads_render. unfold startUpscale. rewrite H1. cbn.
  rewrite H6, H5. cbn. unfold upscale_request, media_kind. split; [|reflexivity].
  destruct (String.prefix "image/" (File.type f)); [reflexivity|].
  destruct (String.prefix "video/" (File.type f)); reflexivity.
Qed.

Lemma upload_routing_witness :
  exists w1 w2,
    step (SelectFiles (Some [pdf])) initial_world = Some w1
    /\ fileType (st w1) = None
    /\ step ClickUpscale w1 = Some w2
    /\ (endpoint <$> uploads w2) = ["/api/upscale-video"].
Proof.
  destruct (upload_routing initial_world pdf [])
    as (w1 & w2 & H1 & H2 & H3 & H4 & _).
  - exact reachable_initial.
  - reflexivity.
  - vm_compute. discriminate.
  - reflexivity.
  - exists w1, w2. rewrite H4. repeat split; assumption.
Defined.

(** The state the [catch] block of [startUpscale] leaves. *)
Lemma startUpscale_catch_state (msg : string) (w : World) :
  mounted w = true ->
  st (startUpscale_catch msg w)
  = setIsProcessing false
      (setMessage (VStr (String.append "Upload failed: " msg)) (st w)).
Proof. intros Hm. open_world w. subst m. reflexivity. Qed.

(** X4. An upload answered with a status outside 200..299 is reported as
    ["Upload failed: Upload failed: <status>"], whatever the body: the prefix
    is added by [uploadFile] and again by the [catch] block of
    [startUpscale]. The processing flag is cleared; job and result are left
    alone. *)
Theorem upload_status_rejected
  (w : World) (k : nat) (status : Z) (body : option json) :
  mounted w = true -> is_pending k w = true ->
  (status < 200 \/ 300 <= status)%Z ->
  exists w',
    step (XhrLoad k status body) w = Some w'
    /\ message (st w')
       = VStr (String.append "Upload failed: Upload failed: " (decimal status))
    /\ isProcessing (st w') = false
    /\ jobId (st w') = jobId (st w)
    /\ resultUrl (st w') = resultUrl (st w)
    /\ is_pending k w' = false.
Proof.
  intros Hm Hk Hstatus. eexists. split.
  { unfold step, handle. rewrite Hk. reflexivity. }
  assert (Hload : xhr_onload status body
                  = Rejected (String.append "Upload failed: " (decimal status))).
  { unfold xhr_onload.
    replace ((200 <=? status)%Z && (status <? 300)%Z) with false by lia.
    reflexivity. }
  rewrite Hload. cbn [startUpscale_resume].
  unfold is_pending.
  rewrite st_render, uploads_render, startUpscale_catch_state
    by (open_world w; exact Hm).
  open_world w. subst m. cbn. repeat split.
  rewrite list_lookup_alter_eq. destruct (us !! k); reflexivity.
Qed.

Lemma upload_status_rejected_witness :
  exists w',
    step (XhrLoad 0 500 None) uploading = Some w'
    /\ message (st w') = VStr "Upload failed: Upload failed: 500"
    /\ isProcessing (st w') = false.
Proof.
  destruct (upload_status_rejected uploading 0 500 None)
    as (w' & H1 & H2 & H3 & _).
  - reflexivity.
  - reflexivity.
  - right. lia.
  - exists w'. repeat split; assumption.
Defined.

(** X5. An upload that ends in a network error is reported as
    ["Upload failed: Network error during upload"]; the processing flag is
    cleared, job and result are left alone. *)
Theorem upload_network_error (w : World) (k : nat) :
  mounted w = true -> is_pending k w = true ->
  exists w',
    step (XhrError k) w = Some w'
    /\ message (st w') = VStr "Upload failed: Network error during upload"
    /\ isProcessing (st w') = false
    /\ jobId (st w') = jobId (st w)
    /\ resultUrl (st w') = resultUrl (st w)
    /\ is_pending k w' = false.
Proof.
  intros Hm Hk. eexists. split.
  { unfold step, handle. rewrite Hk. reflexivity. }
  unfold xhr_onerror. cbn [startUpscale_resume].
  unfold is_pending.
  rewrite st_render, uploads_render, startUpscale_catch_state
    by (open_world w; exact Hm).
  open_world w. subst m. cbn. repeat split.
  rewrite list_lookup_alter_eq. destruct (us !! k); reflexivity.
Qed.

Lemma upload_network_error_witness :
  exists w',
    step (XhrError 0) uploading = Some w'
    /\ message (st w') = VStr "Upload failed: Network error during upload"
    /\ isProcessing (st w') = false.
Proof.
  destruct (upload_network_error uploading 0) as (w' & H1 & H2 & H3 & _).
  - reflexivity.
  - reflexivity.
  - exists w'. repeat split; assumption.
Defined.





Lemma is_status_false (s : string) (v : jsval) :
  v <> VStr s -> is_status s v = false.
Proof.
  intros Hne. destruct v as [| | | |t|]; try reflexivity. simpl.
  apply String.eqb_neq. congruence.
Qed.

(** X7. A status answer whose status is neither ["done"] nor ["failed"]
    (also a missing one) and whose progress React can render records
    [data.progress ?? null] and nothing else, and schedules the next query
    after 3000 ms; when the timer fires the same job is queried again. *)
Theorem in_progress_keeps_polling
  (w : World) (p : nat) (j : jsval) (data : json) (status progress : jsval) :
  reachable w -> mounted w = true ->
  phase_of p w = Some Fetching -> job <$> polls w !! p = Some j ->
  prop (docs w) data "status" = Some status ->
  prop (docs w) data "progress" = Some progress ->
  status <> VStr "done" -> status <> VStr "failed" ->
  child_ok progress = true ->
  exists w1 w2,
    step (FetchSettled p (Response true (Some data))) w = Some w1
    /\ mounted w1 = true
    /\ st w1 = setProcessingProgress (nullish_or_null progress) (st w)
    /\ phase_of p w1 = Some (Sleeping 3000)
    /\ fetches w1 = fetches w
    /\ step (TimerFired p) w1 = Some w2
    /\ st w2 = st w1
    /\ phase_of p w2 = Some Fetching
    /\ fetches w2 = fetches w ++ [j].
Proof.
  intros Hw Hm Hph Hjob Hstatus Hprogress Hdone Hfailed Hchild.
  pose proof (reachable_in_place w Hw Hm) as Hin.
  destruct (prop_not_null _ _ _ _ Hstatus "resultUrl") as [u Hu].
  destruct (prop_not_null _ _ _ _ Hstatus "error") as [e He].
  set (h := poll_resume p (docs w) (Response true (Some data)) (parsed w)).
  assert (Hh : h = setTimeout p POLL_INTERVAL
                     (set_state (setProcessingProgress (nullish_or_null progress))
                                (parsed w))).
  { subst h. unfold poll_resume. rewrite Hprogress, Hstatus, Hu, He.
    rewrite !is_status_false by assumption. reflexivity. }
  assert (Hsame : same_hooks w h /\ jobId (st h) = jobId (st w)
                  /\ isProcessing (st h) = isProcessing (st w)).
  { rewrite Hh. open_world w. subst m. repeat split. }
  destruct Hsame as (Hsame & Ej & Ep).
  assert (Hsth : st h = setProcessingProgress (nullish_or_null progress) (st w)).
  { rewrite Hh. open_world w. subst m. reflexivity. }
  assert (Hokh : renders (st h) = true).
  { rewrite Hsth. pose proof (reachable_renders w Hw Hm) as [_ Hmsg]%andb_prop.
    unfold renders. cbn. rewrite Hmsg, andb_true_r.
    destruct progress; try reflexivity; exact Hchild. }
  destruct (commit_stable w h Hm Hin Hsame Ej Ep) as (Hin1 & R1 & _ & R3 & _).
  pose proof (commit_no_query w h Hin Hsame Ej Ep) as R5.
  assert (Hm1 : mounted (commit h) = true).
  { rewrite mounted_commit. destruct Hsame as (_ & _ & ->). exact Hm. }
  assert (Hph1 : phase_of p (commit h) = Some (Sleeping 3000)).
  { unfold phase_of. rewrite R3, Hh. unfold phase_of in Hph.
    open_world w. rewrite list_lookup_alter_eq.
    destruct (ps !! p); [reflexivity|discriminate]. }
  assert (Hjob1 : job <$> polls (commit h) !! p = Some j).
  { rewrite R3, Hh. open_world w. rewrite list_lookup_alter_eq.
    destruct (ps !! p); [exact Hjob|discriminate]. }
  exists (commit h), (commit (poll_call p (commit h))).
  split. { unfold step, handle. rewrite Hph.
           cbn [fmap option_fmap option_map]. f_equal.
           apply (render_ok h Hokh). }
  split; [exact Hm1|].
  split. { rewrite R1. exact Hsth. }
  split; [exact Hph1|].
  split. { rewrite R5, Hh. open_world w. reflexivity. }
  set (w1 := commit h) in *.
  assert (Hsame2 : same_hooks w1 (poll_call p w1)
                   /\ st (poll_call p w1) = st w1) by (repeat split).
  destruct Hsame2 as (Hsame2 & Est).
  split. { unfold step, handle. rewrite Hph1.
           cbn [fmap option_fmap option_map]. f_equal.
           apply render_ok. rewrite Est, R1. exact Hokh. }
  destruct (commit_stable w1 _ Hm1 Hin1 Hsame2) as (_ & S1 & _ & S3 & _);
    [rewrite Est; reflexivity..|].
  rewrite S1, (commit_no_query w1 _ Hin1 Hsame2) by (rewrite Est; reflexivity).
  split; [exact Est|]. split.
  - unfold phase_of. rewrite S3. unfold poll_call. cbn.
    rewrite list_lookup_alter_eq. unfold phase_of in Hph1.
    destruct (polls w1 !! p); [reflexivity|discriminate].
  - unfold poll_call. cbn. rewrite Hjob1. cbn. subst w1.
    rewrite R5, Hh. open_world w. reflexivity.
Qed.

Lemma in_progress_keeps_polling_witness :
  exists w1 w2,
    step (FetchSettled 0 (Response true (Some
            (JObj [("status", JStr "processing");
                   ("progress", JNum (Number.of_Z 42))])))) polling = Some w1
    /\ processingProgress (st w1) = VNum (Number.of_Z 42)
    /\ step (TimerFired 0) w1 = Some w2
    /\ fetches w2 = [VStr "abc123"; VStr "abc123"].
Proof.
  destruct (in_progress_keeps_polling polling 0 (VStr "abc123")
              (JObj [("status", JStr "processing");
                     ("progress", JNum (Number.of_Z 42))])
              (VStr "processing") (VNum (Number.of_Z 42)))
    as (w1 & w2 & H1 & _ & H2 & _ & _ & H5 & _ & _ & H8).
  - exact reachable_polling.
  - reflexivity.
  - vm_compute. reflexivity.
  - vm_compute. reflexivity.
  - vm_compute. reflexivity.
  - vm_compute. reflexivity.
  - discriminate.
  - discriminate.
  - reflexivity.
  - exists w1, w2. rewrite H2, H8. repeat split; assumption.
Defined.

(** X8. A ["done"] answer without a [resultUrl] ends tracking with nothing to
    show: the result is [undefined], the message is left as it was, the job
    and the processing flag are cleared and the closure never queries
    again. *)
Theorem done_without_result
  (w : World) (p : nat) (ms : list (string * json)) :
  mounted w = true -> phase_of p w = Some Fetching ->
  member "status" ms = Some (JStr "done") -> member "resultUrl" ms = None ->
  exists w',
    step (FetchSettled p (Response true (Some (JObj ms)))) w = Some w'
    /\ resultUrl (st w') = VUndef
    /\ truthy (resultUrl (st w')) = false
    /\ message (st w') = message (st w)
    /\ jobId (st w') = VNull
    /\ isProcessing (st w') = false
    /\ forall es w'', run es w' = Some w'' -> phase_of p w'' = Some Stopped.
Proof.
  intros Hm Hph Hstatus Hurl.
  destruct (poll_terminal w p (JObj ms) (VStr "done") VUndef
              (match member "error" ms with
               | Some j => to_val (docs w, "error") j
               | None => VUndef
               end))
    as (w' & H1 & H2 & _ & H4 & H5 & _ & H7 & _); auto.
  - simpl. rewrite Hstatus. reflexivity.
  - simpl. rewrite Hurl. reflexivity.
  - simpl. destruct (member "error" ms); reflexivity.
  - destruct (H2 eq_refl) as [E1 E2].
    exists w'. rewrite E1. repeat split; assumption.
Qed.

Lemma done_without_result_witness :
  exists w',
    step (FetchSettled 0 (Response true (Some (JObj [("status", JStr "done")]))))
         polling = Some w'
    /\ truthy (resultUrl (st w')) = false
    /\ jobId (st w') = VNull
    /\ isProcessing (st w') = false.
Proof.
  destruct (done_without_result polling 0 [("status", JStr "done")])
    as (w' & H1 & _ & H3 & _ & H5 & H6 & _).
  - reflexivity.
  - vm_compute. reflexivity.
  - reflexivity.
  - reflexivity.
  - exists w'. repeat split; assumption.
Defined.

(** X9. A successful answer whose body is the JSON [null] is resolved by
    [uploadFile] but makes [response.jobId] throw, so it is reported by the
    [catch] block as an upload failure, unlike a body that is not JSON. *)
Theorem null_body_reported_as_failure (w : World) (k : nat) (status : Z) :
  mounted w = true -> is_pending k w = true -> (200 <= status < 300)%Z ->
  xhr_onload status (Some JNull) = Resolved JNull
  /\ exists w' reason,
       step (XhrLoad k status (Some JNull)) w = Some w'
       /\ message (st w') = VStr (String.append "Upload failed: " reason)
       /\ isProcessing (st w') = false
       /\ jobId (st w') = jobId (st w)
       /\ resultUrl (st w') = resultUrl (st w).
Proof.
  intros Hm Hk Hstatus.
  assert (Hload : xhr_onload status (Some JNull) = Resolved JNull).
  { unfold xhr_onload.
    replace ((200 <=? status)%Z && (status <? 300)%Z) with true by lia.
    reflexivity. }
  split; [exact Hload|]. eexists. exists null_jobId_message. split.
  { unfold step, handle. rewrite Hk. reflexivity. }
  rewrite Hload. cbn [startUpscale_resume prop].
  rewrite st_render, startUpscale_catch_state by (open_world w; exact Hm).
  open_world w. repeat split.
Qed.

Lemma null_body_reported_as_failure_witness :
  exists w' reason,
    step (XhrLoad 0 200 (Some JNull)) uploading = Some w'
    /\ message (st w') = VStr (String.append "Upload failed: " reason)
    /\ isProcessing (st w') = false.
Proof.
  destruct (null_body_reported_as_failure uploading 0 200)
    as (_ & w' & reason & H1 & H2 & H3 & _).
  - reflexivity.
  - vm_compute. reflexivity.
  - lia.
  - exists w', reason. repeat split; assumption.
Defined.

(** X10. Unmounting the component releases the preview handle, so that no
    handle is live, cancels the query scheduled by the poll closure in place,
    and issues no query. *)
Theorem teardown_cleans_up (w : World) :
  reachable w -> mounted w = true ->
  exists w',
    step Unmount w = Some w'
    /\ mounted w' = false
    /\ st w' = st w
    /\ live (urlCalls w') = []
    /\ (forall p d, pollTimer w = Some p -> phase_of p w = Some (Sleeping d) ->
                    phase_of p w' = Some Stopped)
    /\ fetches w' = fetches w.
Proof.
  intros Hw Hm.
  assert (Hstep : step Unmount w = Some (teardown w)).
  { unfold step, handle. rewrite Hm. reflexivity. }
  exists (teardown w). split; [exact Hstep|].
  split; [reflexivity|]. split; [reflexivity|]. split.
  { destruct (reachable_url_inv (teardown w) (reachable_step _ _ _ Hw Hstep))
      as (_ & Hlive & _).
    rewrite Hlive. reflexivity. }
  split; [|reflexivity].
  intros p d Ht Hp. unfold teardown.
  change (phase_of p (clearTimeout (pollTimer w) (revoke_if (previewDep w) w))
          = Some Stopped).
  rewrite phase_of_cancel. change (pollTimer (revoke_if (previewDep w) w))
    with (pollTimer w).
  rewrite decide_True by exact Ht.
  change (phase_of p (revoke_if (previewDep w) w)) with (phase_of p w).
  rewrite Hp. reflexivity.
Qed.

Lemma reachable_waiting : reachable waiting.
Proof.
  exists [SelectFiles (Some [png]); ClickUpscale;
          XhrLoad 0 200 (Some (JObj [("jobId", JStr "abc123")]));
          FetchSettled 0 (Response true (Some
            (JObj [("status", JStr "processing")])))].
  vm_compute. reflexivity.
Qed.

Lemma teardown_cleans_up_witness :
  exists w',
    step Unmount waiting = Some w'
    /\ live (urlCalls w') = []
    /\ phase_of 0 waiting = Some (Sleeping 3000)
    /\ phase_of 0 w' = Some Stopped.
Proof.
  destruct (teardown_cleans_up waiting) as (w' & H1 & _ & _ & H4 & H5 & _).
  - exact reachable_waiting.
  - reflexivity.
  - exists w'. split; [exact H1|]. split; [exact H4|].
    split; [vm_compute; reflexivity|].
    apply (H5 0 3000%Z); vm_compute; reflexivity.
Defined.

(** X11. In every run in which Clear is clicked only while nothing is in
    flight, the component does one thing at a time: at most one upload is in
    flight; at most one poll closure is active, and it is the one whose timer
    the cleanup in place clears; while an upload is in flight no poll closure
    is active and the upscale button is disabled; a poll closure is active
    only while the processing flag is set. *)
Theorem one_activity_at_a_time (es : list Event) (w : World) :
  run es initial_world = Some w -> orderly es initial_world ->
  mounted w = true ->
  (forall k k', is_pending k w = true -> is_pending k' w = true -> k = k')
  /\ (forall p q ph ph',
        phase_of p w = Some ph -> ph <> Stopped ->
        phase_of q w = Some ph' -> ph' <> Stopped -> p = q)
  /\ (forall k, is_pending k w = true ->
        (forall p ph, phase_of p w = Some ph -> ph = Stopped)
        /\ step ClickUpscale w = None)
  /\ (forall p ph, phase_of p w = Some ph -> ph <> Stopped ->
        isProcessing (st w) = true /\ pollTimer w = Some p).
Proof.
  intros Hrun Hord Hm.
  destruct (orderly_run_inv es initial_world w) as [_ Hinv]; auto.
  { intros [_ H]. discriminate H. }
  { intros _. exact settled_inv_initial. }
  specialize (Hinv Hm). destruct Hinv as [Hhooks Hone Hup Hjob Hidle Hpoll].
  split; [exact Hone|]. split.
  { intros p q ph ph' Hp Hne Hq Hne'.
    pose proof (Hpoll p ph Hp Hne). pose proof (Hpoll q ph' Hq Hne'). congruence. }
  split.
  { intros k Hk. destruct (Hup k Hk) as (Hproc & _ & _ & Hall).
    split; [exact Hall|].
    unfold step, handle. rewrite Hproc, andb_false_r. reflexivity. }
  intros p ph Hp Hne. split; [|exact (Hpoll p ph Hp Hne)].
  destruct (isProcessing (st w)) eqn:Hproc; [reflexivity|exfalso].
  destruct (Hidle eq_refl) as [_ Hall]. exact (Hne (Hall p ph Hp)).
Qed.

Lemma orderly_polling :
  orderly [SelectFiles (Some [png]); ClickUpscale;
           XhrLoad 0 200 (Some (JObj [("jobId", JStr "abc123")]))]
          initial_world.
Proof.
  do 3 (cbn [orderly]; split; [discriminate|]; orderly_step). exact I.
Qed.

Lemma one_activity_at_a_time_witness :
  phase_of 0 polling = Some Fetching
  /\ isProcessing (st polling) = true
  /\ pollTimer polling = Some 0.
Proof.
  destruct (one_activity_at_a_time
              [SelectFiles (Some [png]); ClickUpscale;
               XhrLoad 0 200 (Some (JObj [("jobId", JStr "abc123")]))] polling)
    as (_ & _ & _ & H4).
  - vm_compute. reflexivity.
  - exact orderly_polling.
  - reflexivity.
  - split; [vm_compute; reflexivity|].
    apply (H4 0 Fetching); [vm_compute; reflexivity|discriminate].
Defined.

(** A render parses nothing. *)
Lemma docs_render (w : World) : docs (render w) = docs w.
Proof.
  destruct (render_cases w) as [->|(_ & _ & ->)]; [|reflexivity].
  unfold commit. destruct (mounted w); [|reflexivity].
  transitivity (docs (preview_effect w)).
  - unfold poll_effect.
    destruct (same_value _ _ && Bool.eqb _ _); [reflexivity|].
    destruct (truthy _ && isProcessing _); reflexivity.
  - unfold preview_effect. case_decide; reflexivity.
Qed.

(** X12. Clear does not abort an upload in flight: the request stays
    pending, and when its answer brings a result, the result is recorded in
    the state that was reset, with no file selected. *)
Theorem reset_keeps_upload
  (w : World) (k : nat) (status : Z) (resp : json) (j u : jsval) :
  mounted w = true -> file (st w) <> None -> is_pending k w = true ->
  (200 <= status < 300)%Z ->
  prop (docs w) resp "jobId" = Some j -> truthy j = false ->
  prop (docs w) resp "resultUrl" = Some u -> truthy u = true ->
  exists w1 w2,
    step ClickClear w = Some w1
    /\ st w1 = initial_state
    /\ is_pending k w1 = true
    /\ step (XhrLoad k status (Some resp)) w1 = Some w2
    /\ st w2 = setResultUrl u initial_state.
Proof.
  intros Hm Hfile Hk Hstatus Hj Hjf Hu Hut.
  destruct (clearAll_summary w Hm) as (Hst & Hup & _ & (_ & _ & Hmc)).
  assert (Hmc' : mounted (clearAll w) = true) by congruence.
  pose proof (st_render (clearAll w)) as R1.
  pose proof (uploads_render (clearAll w)) as R2.
  assert (R3 : mounted (render (clearAll w)) = true).
  { rewrite mounted_render, Hmc', Hst. reflexivity. }
  set (w1 := render (clearAll w)) in *.
  assert (Hk1 : is_pending k w1 = true).
  { unfold is_pending in *. rewrite R2, Hup. exact Hk. }
  assert (Hdocs : docs w1 = docs w).
  { unfold w1. rewrite docs_render. open_world w. reflexivity. }
  exists w1. eexists. split.
  { unfold step, handle. rewrite Hm. cbn [andb].
    rewrite bool_decide_eq_true_2 by exact Hfile. reflexivity. }
  split; [congruence|]. split; [exact Hk1|]. split.
  { unfold step, handle. rewrite Hk1. reflexivity. }
  unfold xhr_onload.
  replace ((200 <=? status)%Z && (status <? 300)%Z) with true by lia.
  rewrite st_render. unfold startUpscale_resume.
  rewrite Hdocs, Hj, Hu, Hjf, Hut. cbn. rewrite R3, R1, Hst. reflexivity.
Qed.

Lemma reset_keeps_upload_witness :
  exists w1 w2,
    step ClickClear uploading = Some w1
    /\ step (XhrLoad 0 200 (Some (JObj [("resultUrl", JStr "https://x/out.mp4")])))
            w1 = Some w2
    /\ file (st w2) = None
    /\ resultUrl (st w2) = VStr "https://x/out.mp4".
Proof.
  destruct (reset_keeps_upload uploading 0 200
              (JObj [("resultUrl", JStr "https://x/out.mp4")])
              VUndef (VStr "https://x/out.mp4"))
    as (w1 & w2 & H1 & _ & _ & H4 & H5).
  - reflexivity.
  - vm_compute. discriminate.
  - vm_compute. reflexivity.
  - lia.
  - reflexivity.
  - reflexivity.
  - reflexivity.
  - reflexivity.
  - exists w1, w2. rewrite H5. repeat split; assumption.
Defined.

Lemma jobs_alter (f : Poll -> Poll) (p : nat) (ps : list Poll) :
  (forall pl, job (f pl) = job pl) ->
  Forall (fun pl => truthy (job pl) = true) ps ->
  Forall (fun pl => truthy (job pl) = true) (alter f p ps).
Proof.
  intros Hf Hps. apply Forall_alter; [exact Hps|].
  intros pl _ H. rewrite Hf. exact H.
Qed.

Lemma job_cancel (pl : Poll) : job (cancel pl) = job pl.
Proof. unfold cancel. destruct (phase pl); reflexivity. Qed.

Lemma jobs_clearTimeout (t : option nat) (w : World) :
  Forall (fun pl => truthy (job pl) = true) (polls w) ->
  Forall (fun pl => truthy (job pl) = true) (polls (clearTimeout t w)).
Proof.
  intros H. unfold clearTimeout. cbn.
  destruct t; [apply jobs_alter; [apply job_cancel|exact H]|exact H].
Qed.

Lemma queries_name_jobs_render (h : World) :
  queries_name_jobs h -> queries_name_jobs (render h).
Proof.
  intros [Hps Hfs]. destruct (render_cases h) as [->|(_ & _ & ->)].
  2:{ split; [|exact Hfs].
      apply (jobs_clearTimeout (pollTimer h) (revoke_if (previewDep h) h)).
      exact Hps. }
  unfold commit. destruct (mounted h); [|split; assumption].
  destruct (preview_effect_frame h) as (Hst & _ & Hpolls & Hf & _ & Ht & _).
  assert (Hc : Forall (fun pl => truthy (job pl) = true)
                 (polls (clearTimeout (pollTimer (preview_effect h))
                                      (preview_effect h)))).
  { apply jobs_clearTimeout. rewrite Hpolls. exact Hps. }
  unfold queries_name_jobs.
  destruct (poll_effect_polls (preview_effect h))
    as [[E1 E2]|[[E1 E2]|(Hj & E1 & E2)]]; rewrite E1, E2.
  - rewrite Hpolls, Hf. split; assumption.
  - rewrite Hf. split; assumption.
  - apply andb_true_iff in Hj as [Hj _]. rewrite Hf, Hst. rewrite Hst in Hj. split.
    + apply Forall_app. split; [exact Hc|]. constructor; [exact Hj|constructor].
    + apply Forall_app. split; [exact Hfs|]. constructor; [exact Hj|constructor].
Qed.

(** X13. Every poll closure tracks a truthy job id, and the value every
    status query interpolates in its URL is truthy: it is never [null],
    [undefined], [false], [0], [NaN] or the empty string. (A truthy value
    is interpolated as it is, whatever its string form: an empty array
    gives the URL [/api/status/].) *)
Theorem status_queries_name_jobs (w : World) :
  reachable w ->
  (forall p pl, polls w !! p = Some pl -> truthy (job pl) = true)
  /\ (forall j, In j (fetches w) -> truthy j = true).
Proof.
  intros Hw.
  assert (Hinv : queries_name_jobs w).
  { induction Hw as [|e w w' _ [Hps Hfs] Hstep] using reachable_ind.
    - split; constructor.
    - unfold step in Hstep. destruct (handle e w) as [h|] eqn:Hh; [|discriminate].
      injection Hstep as <-. apply queries_name_jobs_render.
      unfold queries_name_jobs.
      destruct (handle_polls e w h Hh)
        as [[E1 E2]|[(p & r & ph & _ & _ & _ & E1 & E2)
           |[(p & d & _ & _ & E1 & E2)|(_ & E1 & E2)]]]; rewrite E1, E2.
      + split; assumption.
      + split; [apply jobs_alter; [reflexivity|exact Hps]|exact Hfs].
      + split; [apply jobs_alter; [reflexivity|exact Hps]|].
        apply Forall_app. split; [exact Hfs|].
        destruct (polls w !! p) as [pl|] eqn:Hpl; [|constructor].
        constructor; [|constructor].
        exact (proj1 (Forall_lookup _ _) Hps p pl Hpl).
      + split; [apply jobs_clearTimeout; exact Hps|exact Hfs]. }
  destruct Hinv as [Hps Hfs]. split.
  - intros p pl Hpl. exact (proj1 (Forall_lookup _ _) Hps p pl Hpl).
  - intros j Hj. rewrite Forall_forall in Hfs. apply Hfs.
    apply list_elem_of_In. exact Hj.
Qed.

Lemma status_queries_name_jobs_witness :
  In (VStr "abc123") (fetches polling) /\ truthy (VStr "abc123") = true.
Proof.
  assert (Hin : In (VStr "abc123") (fetches polling))
    by (vm_compute; left; reflexivity).
  split; [exact Hin|].
  exact (proj2 (status_queries_name_jobs polling reachable_polling) _ Hin).
Defined.

(** X14. A successful answer that is valid JSON but carries neither a truthy
    [jobId] nor a truthy [resultUrl] (an empty id, an array, a number, ...)
    takes the unexpected-response branch: the message is set and the
    processing flag cleared, job and result are left alone. *)
Theorem unusable_answer_unexpected
  (w : World) (k : nat) (status : Z) (resp : json) (j u : jsval) :
  mounted w = true -> is_pending k w = true -> (200 <= status < 300)%Z ->
  prop (docs w) resp "jobId" = Some j -> truthy j = false ->
  prop (docs w) resp "resultUrl" = Some u -> truthy u = false ->
  exists w',
    step (XhrLoad k status (Some resp)) w = Some w'
    /\ message (st w') = VStr "Unexpected server response. Check backend logs."
    /\ isProcessing (st w') = false
    /\ jobId (st w') = jobId (st w)
    /\ resultUrl (st w') = resultUrl (st w).
Proof.
  intros Hm Hk Hstatus Hj Hjf Hu Huf. eexists. split.
  { unfold step, handle. rewrite Hk. reflexivity. }
  unfold xhr_onload.
  replace ((200 <=? status)%Z && (status <? 300)%Z) with true by lia.
  rewrite st_render. unfold startUpscale_resume.
  rewrite Hj, Hu, Hjf, Huf. open_world w. subst m. repeat split.
Qed.

Lemma unusable_answer_unexpected_witness :
  exists w',
    step (XhrLoad 0 200 (Some (JObj [("jobId", JStr ""); ("ok", JBool true)])))
         uploading = Some w'
    /\ message (st w') = VStr "Unexpected server response. Check backend logs."
    /\ isProcessing (st w') = false.
Proof.
  destruct (unusable_answer_unexpected uploading 0 200
              (JObj [("jobId", JStr ""); ("ok", JBool true)])
              (VStr "") VUndef)
    as (w' & H1 & H2 & H3 & _).
  - reflexivity.
  - vm_compute. reflexivity.
  - lia.
  - reflexivity.
  - reflexivity.
  - reflexivity.
  - reflexivity.
  - exists w'. repeat split; assumption.
Defined.






(** ** Upload progress: double-precision arithmetic *)

Local Open Scope Z_scope.

(** The number of binary digits of a positive integer. *)
Lemma digits2_pos_bounds (p : positive) :
  2 ^ (Z.pos (digits2_pos p) - 1) <= Z.pos p < 2 ^ Z.pos (digits2_pos p).
Proof.
  induction p as [p IH|p IH|]; simpl digits2_pos.
  - rewrite Pos2Z.inj_succ.
    replace (Z.succ (Z.pos (digits2_pos p)) - 1) with (Z.succ (Z.pos (digits2_pos p) - 1)) by lia.
    rewrite !Z.pow_succ_r by lia. lia.
  - rewrite Pos2Z.inj_succ.
    replace (Z.succ (Z.pos (digits2_pos p)) - 1) with (Z.succ (Z.pos (digits2_pos p) - 1)) by lia.
    rewrite !Z.pow_succ_r by lia. lia.
  - simpl. lia.
Qed.

Lemma Zdigits2_bounds (m : Z) :
  0 < m -> 2 ^ (Zdigits2 m - 1) <= m < 2 ^ Zdigits2 m.
Proof.
  destruct m as [|p|p]; try lia. intros _. apply digits2_pos_bounds.
Qed.

Lemma Zdigits2_unique (m c : Z) :
  2 ^ (c - 1) <= m < 2 ^ c -> 0 < m -> Zdigits2 m = c.
Proof.
  intros [Hlo Hhi] Hm. pose proof (Zdigits2_bounds m Hm) as [Dlo Dhi].
  assert (Hd : 0 < Zdigits2 m) by (destruct m; simpl; lia).
  assert (Hc : 0 < c).
  { destruct (Z.le_gt_cases c 0) as [Hle|]; [|assumption].
    assert (2 ^ c <= 2 ^ 0) by (destruct (Z.eq_dec c 0) as [->|];
      [lia|rewrite Z.pow_neg_r by lia; simpl; lia]).
    simpl in *. lia. }
  destruct (Z.lt_trichotomy (Zdigits2 m) c) as [Hlt|[Heq|Hgt]]; [|exact Heq|].
  - assert (2 ^ Zdigits2 m <= 2 ^ (c - 1)) by (apply Z.pow_le_mono_r; lia). lia.
  - assert (2 ^ c <= 2 ^ (Zdigits2 m - 1)) by (apply Z.pow_le_mono_r; lia). lia.
Qed.

(** Shifting a mantissa right drops its low bits. *)
Lemma shr_m_shr_1 (mrs : shr_record) :
  0 <= shr_m mrs -> shr_m (shr_1 mrs) = shr_m mrs / 2.
Proof.
  destruct mrs as [m r s]. cbn [shr_m]. intros Hm.
  destruct m as [|[p|p|]|p]; cbn [shr_1 shr_m]; try lia; try reflexivity.
  - apply Z.div_unique with 1; lia.
  - apply Z.div_unique with 0; lia.
Qed.

Lemma pow2_xO (p : positive) : 2 ^ Z.pos p~0 = 2 ^ Z.pos p * 2 ^ Z.pos p.
Proof.
  change (Z.pos p~0) with (2 * Z.pos p). rewrite <- Z.add_diag.
  apply Z.pow_add_r; lia.
Qed.

Lemma pow2_xI (p : positive) : 2 ^ Z.pos p~1 = 2 * (2 ^ Z.pos p * 2 ^ Z.pos p).
Proof.
  change (Z.pos p~1) with (Z.succ (Z.pos p~0)).
  rewrite Z.pow_succ_r by lia. rewrite pow2_xO. reflexivity.
Qed.

Lemma shr_m_iter (p : positive) (mrs : shr_record) :
  0 <= shr_m mrs ->
  shr_m (SpecFloat.iter_pos shr_1 p mrs) = shr_m mrs / 2 ^ Z.pos p.
Proof.
  revert mrs. induction p as [p IH|p IH|]; intros mrs Hm;
    cbn [SpecFloat.iter_pos].
  - assert (H1 : 0 <= shr_m (shr_1 mrs))
      by (rewrite shr_m_shr_1 by exact Hm; apply Z.div_pos; lia).
    assert (H2 : 0 <= shr_m (SpecFloat.iter_pos shr_1 p (shr_1 mrs)))
      by (rewrite IH by exact H1; apply Z.div_pos; lia).
    rewrite IH, IH, shr_m_shr_1 by assumption.
    rewrite !Z.div_div by lia. rewrite pow2_xI. reflexivity.
  - assert (H2 : 0 <= shr_m (SpecFloat.iter_pos shr_1 p mrs))
      by (rewrite IH by exact Hm; apply Z.div_pos; lia).
    rewrite IH, IH by assumption.
    rewrite !Z.div_div by lia. rewrite pow2_xO. reflexivity.
  - rewrite shr_m_shr_1 by exact Hm. rewrite Z.pow_1_r. reflexivity.
Qed.

Lemma shr_m_of_loc (m : Z) (l : location) : shr_m (shr_record_of_loc m l) = m.
Proof. destruct l as [|[]]; reflexivity. Qed.

Lemma round_nearest_even_bounds (m : Z) (l : location) :
  m <= round_nearest_even m l <= m + 1.
Proof.
  destruct l as [|[]]; simpl; try lia. destruct (Z.even m); lia.
Qed.

(** Rounding to 53 bits, away from the subnormal range: the mantissa loses
    its low bits. *)
Lemma shr_fexp_normal (m e : Z) (l : location) :
  0 < m -> 53 <= Zdigits2 m -> -1074 <= e + Zdigits2 m - 53 ->
  exists mrs,
    shr_fexp 53 1024 m e l = (mrs, e + (Zdigits2 m - 53))
    /\ shr_m mrs = m / 2 ^ (Zdigits2 m - 53).
Proof.
  intros Hm Hd He. unfold shr_fexp, fexp, emin.
  replace (Z.max (Zdigits2 m + e - 53) (3 - 1024 - 53) - e)
    with (Zdigits2 m - 53) by lia.
  destruct (Zdigits2 m - 53) as [|p|p] eqn:Hk; try lia.
  - exists (shr_record_of_loc m l). cbn [shr]. rewrite Z.add_0_r.
    split; [reflexivity|]. rewrite shr_m_of_loc, Z.pow_0_r, Z.div_1_r.
    reflexivity.
  - exists (SpecFloat.iter_pos shr_1 p (shr_record_of_loc m l)). cbn [shr].
    split; [reflexivity|].
    rewrite shr_m_iter; rewrite shr_m_of_loc; [reflexivity|lia].
Qed.

Lemma binary_round_aux_bounds (mx ex : Z) (lx : location) :
  2 ^ 52 <= mx ->
  -1074 <= ex + (Zdigits2 mx - 53) -> ex + (Zdigits2 mx - 53) < 971 ->
  exists m' e',
    binary_round_aux 53 1024 false mx ex lx = S754_finite false m' e'
    /\ 2 ^ 52 <= Z.pos m' < 2 ^ 53
    /\ ((e' = ex + (Zdigits2 mx - 53)
         /\ (Z.pos m' = mx / 2 ^ (Zdigits2 mx - 53)
             \/ Z.pos m' = mx / 2 ^ (Zdigits2 mx - 53) + 1))
        \/ (e' = ex + (Zdigits2 mx - 53) + 1
            /\ Z.pos m' = 2 ^ 52
            /\ mx / 2 ^ (Zdigits2 mx - 53) + 1 = 2 ^ 53)).
Proof.
  intros Hmx Hlo Hhi.
  assert (Hpos : 0 < mx) by (assert (0 < 2 ^ 52) by reflexivity; lia).
  pose proof (Zdigits2_bounds mx Hpos) as [Dlo Dhi].
  assert (Hd : 53 <= Zdigits2 mx).
  { destruct (Z.le_gt_cases 53 (Zdigits2 mx)) as [|Hlt]; [assumption|].
    assert (2 ^ Zdigits2 mx <= 2 ^ 52) by (apply Z.pow_le_mono_r; lia). lia. }
  set (k := Zdigits2 mx - 53) in *.
  assert (Hk : 0 <= k) by (unfold k; lia).
  (* the mantissa after the first shift lies in [2^52, 2^53) *)
  assert (Hm1 : 2 ^ 52 <= mx / 2 ^ k < 2 ^ 53).
  { assert (Hp : 0 < 2 ^ k) by (apply Z.pow_pos_nonneg; lia).
    replace (Zdigits2 mx - 1) with (52 + k) in Dlo by (unfold k; lia).
    replace (Zdigits2 mx) with (53 + k) in Dhi by (unfold k; lia).
    rewrite Z.pow_add_r in Dlo, Dhi by lia. split.
    - apply Z.div_le_lower_bound; lia.
    - apply Z.div_lt_upper_bound; lia. }
  unfold binary_round_aux.
  destruct (shr_fexp_normal mx ex lx Hpos Hd) as (mrs1 & -> & Hs1); [fold k; lia|].
  fold k in Hs1. fold k.
  pose proof (round_nearest_even_bounds (shr_m mrs1) (loc_of_shr_record mrs1))
    as Hrne.
  set (m2 := round_nearest_even (shr_m mrs1) (loc_of_shr_record mrs1)) in *.
  rewrite Hs1 in Hrne.
  assert (Hm2 : 0 < m2) by (assert (0 < 2 ^ 52) by reflexivity; lia).
  destruct (Z.eq_dec m2 (2 ^ 53)) as [Htop|Hntop].
  - (* rounding up reached 2^53: one more shift *)
    assert (Hd2 : Zdigits2 m2 = 54).
    { apply Zdigits2_unique; [|exact Hm2]. rewrite Htop. split; [|reflexivity].
      apply Z.pow_le_mono_r; lia. }
    destruct (shr_fexp_normal m2 (ex + k) loc_Exact Hm2) as (mrs2 & -> & Hs2);
      [lia|lia|].
    rewrite Hd2 in *. rewrite Hs2, Htop.
    change (2 ^ 53 / 2 ^ (54 - 53)) with (Z.pos (2 ^ 52)).
    replace (ex + k + (54 - 53) <=? 1024 - 53) with true by lia.
    exists (2 ^ 52)%positive, (ex + k + 1). split; [f_equal; lia|].
    split; [split; [reflexivity|reflexivity]|].
    right. split; [reflexivity|]. split; [reflexivity|]. lia.
  - assert (Hd2 : Zdigits2 m2 = 53).
    { apply Zdigits2_unique; [|exact Hm2]. change (53 - 1) with 52. lia. }
    destruct (shr_fexp_normal m2 (ex + k) loc_Exact Hm2) as (mrs2 & -> & Hs2);
      [lia|lia|].
    rewrite Hd2 in *. rewrite Hs2.
    change (2 ^ (53 - 53)) with 1. rewrite Z.div_1_r.
    destruct m2 as [|p2|p2] eqn:Em2; try lia.
    replace (ex + k + (53 - 53) <=? 1024 - 53) with true by lia.
    exists p2, (ex + k). split; [f_equal; lia|].
    split; [lia|]. left. split; [reflexivity|]. lia.
Qed.

(** A mantissa of 53 bits with an exact location is kept as it is. *)
Lemma binary_round_aux_exact (p : positive) (ex : Z) :
  2 ^ 52 <= Z.pos p < 2 ^ 53 -> -1074 <= ex <= 971 ->
  binary_round_aux 53 1024 false (Z.pos p) ex loc_Exact
  = S754_finite false p ex.
Proof.
  intros Hp He.
  assert (Hd : Zdigits2 (Z.pos p) = 53)
    by (apply Zdigits2_unique; [exact Hp|lia]).
  unfold binary_round_aux, shr_fexp, fexp, emin. rewrite Hd.
  replace (Z.max (53 + ex - 53) (3 - 1024 - 53) - ex) with 0 by lia.
  cbn [shr shr_record_of_loc shr_m loc_of_shr_record round_nearest_even].
  rewrite Hd.
  replace (Z.max (53 + ex - 53) (3 - 1024 - 53) - ex) with 0 by lia.
  cbn [shr shr_record_of_loc shr_m].
  replace (ex <=? 1024 - 53) with true by lia. reflexivity.
Qed.

Lemma Pos_iter_xO (p k : positive) :
  Z.pos (Pos.iter xO p k) = Z.pos p * 2 ^ Z.pos k.
Proof.
  induction k as [|k IH] using Pos.peano_ind.
  - simpl. lia.
  - rewrite Pos.iter_succ, Pos2Z.inj_succ, Z.pow_succ_r by lia.
    rewrite Pos2Z.inj_xO, IH. lia.
Qed.

(** An integer below 2^53 is a double. *)
Lemma of_Z_exact (z : Z) :
  0 < z < 2 ^ 53 ->
  exists m e,
    Number.of_Z z = S754_finite false m e
    /\ 2 ^ 52 <= Z.pos m < 2 ^ 53 /\ -52 <= e <= 0
    /\ Z.pos m = z * 2 ^ (- e).
Proof.
  intros [Hz Hlt]. destruct z as [|p|p]; try lia.
  pose proof (Zdigits2_bounds (Z.pos p) Hz) as [Dlo Dhi].
  set (d := Zdigits2 (Z.pos p)) in *.
  assert (Hd1 : 1 <= d) by (unfold d; simpl; lia).
  assert (Hd : d <= 53).
  { destruct (Z.le_gt_cases d 53) as [|Hgt]; [assumption|].
    assert (2 ^ 53 <= 2 ^ (d - 1)) by (apply Z.pow_le_mono_r; lia). lia. }
  unfold Number.of_Z, binary_normalize, binary_round, fexp, emin.
  change (Z.pos (digits2_pos p) + 0) with (d + 0).
  replace (Z.max (d + 0 - Number.prec) (3 - Number.emax - Number.prec))
    with (d - 53) by (unfold Number.prec, Number.emax; lia).
  unfold shl_align. rewrite Z.sub_0_r.
  destruct (d - 53) as [|k|k] eqn:Hk; try lia.
  - exists p, 0. rewrite binary_round_aux_exact.
    + replace (d - 1) with 52 in Dlo by lia. repeat split; try lia.
    + replace (d - 1) with 52 in Dlo by lia. lia.
    + lia.
  - exists (Pos.iter xO p k), (Z.neg k).
    assert (Hm : 2 ^ 52 <= Z.pos (Pos.iter xO p k) < 2 ^ 53).
    { rewrite Pos_iter_xO.
      replace 52 with ((d - 1) + Z.pos k) by lia.
      replace 53 with (d + Z.pos k) by lia.
      rewrite !Z.pow_add_r by lia.
      assert (0 < 2 ^ Z.pos k) by (apply Z.pow_pos_nonneg; lia). nia. }
    rewrite binary_round_aux_exact by (try exact Hm; lia).
    split; [reflexivity|]. split; [exact Hm|]. split; [lia|].
    rewrite Pos_iter_xO. reflexivity.
Qed.

Lemma p2_pos (e : Z) : (0 < p2 e)%R.
Proof. apply powerRZ_lt. lra. Qed.

Lemma p2_add (a b : Z) : p2 (a + b) = (p2 a * p2 b)%R.
Proof. apply powerRZ_add. lra. Qed.

Lemma p2_IZR (k : Z) : 0 <= k -> p2 k = IZR (2 ^ k).
Proof.
  intros Hk. pattern k. apply natlike_ind; [reflexivity| |exact Hk].
  intros n Hn IH. unfold Z.succ. rewrite p2_add, IH, Z.pow_add_r by lia.
  rewrite mult_IZR. f_equal. unfold p2. simpl. lra.
Qed.

Lemma p2_0 : p2 0 = 1%R.
Proof. reflexivity. Qed.

Lemma p2_1 : p2 1 = 2%R.
Proof. unfold p2. simpl. lra. Qed.

Lemma p2_le (a b : Z) : a <= b -> (p2 a <= p2 b)%R.
Proof.
  intros Hab. replace b with (a + (b - a)) by lia. rewrite p2_add.
  rewrite (p2_IZR (b - a)) by lia.
  assert (1 <= 2 ^ (b - a)).
  { assert (0 < 2 ^ (b - a)) by (apply Z.pow_pos_nonneg; lia). lia. }
  apply IZR_le in H. pose proof (p2_pos a). nra.
Qed.

(** Rounding to 53 bits is accurate to one part in 2^52. [x] is the exact
    real, known to lie between the mantissas [mx] and [mx + 1] at exponent
    [ex]. *)
Lemma binary_round_aux_error (mx ex : Z) (lx : location) (x : R) :
  2 ^ 52 <= mx ->
  -1074 <= ex + (Zdigits2 mx - 53) -> ex + (Zdigits2 mx - 53) < 971 ->
  (IZR mx * p2 ex <= x <= IZR (mx + 1) * p2 ex)%R ->
  exists m e,
    binary_round_aux 53 1024 false mx ex lx = S754_finite false m e
    /\ 2 ^ 52 <= Z.pos m < 2 ^ 53
    /\ ex + (Zdigits2 mx - 53) <= e <= ex + (Zdigits2 mx - 53) + 1
    /\ (Rabs (value m e - x) <= x * p2 (-52))%R.
Proof.
  intros Hmx Hlo Hhi Hx.
  destruct (binary_round_aux_bounds mx ex lx Hmx Hlo Hhi)
    as (m & e & Heq & Hm & Hcases).
  exists m, e. split; [exact Heq|]. split; [exact Hm|].
  split; [destruct Hcases as [[-> _]|(-> & _)]; lia|].
  assert (Hpos : 0 < mx) by (assert (0 < 2 ^ 52) by reflexivity; lia).
  pose proof (Zdigits2_bounds mx Hpos) as [Dlo Dhi].
  set (k := Zdigits2 mx - 53) in *.
  assert (Hk : 0 <= k).
  { unfold k. destruct (Z.le_gt_cases 53 (Zdigits2 mx)) as [|Hlt]; [lia|].
    assert (2 ^ Zdigits2 mx <= 2 ^ 52) by (apply Z.pow_le_mono_r; lia). lia. }
  set (lo := mx / 2 ^ k) in *.
  assert (Hp : 0 < 2 ^ k) by (apply Z.pow_pos_nonneg; lia).
  assert (Hdiv : lo * 2 ^ k <= mx < (lo + 1) * 2 ^ k).
  { unfold lo. pose proof (Z.mul_div_le mx (2 ^ k) Hp).
    pose proof (Z.mul_succ_div_gt mx (2 ^ k) Hp). lia. }
  assert (Hlo52 : 2 ^ 52 <= lo).
  { unfold lo. apply Z.div_le_lower_bound; [lia|].
    replace (Zdigits2 mx - 1) with (k + 52) in Dlo by (unfold k; lia).
    rewrite Z.pow_add_r in Dlo by lia. lia. }
  (* the value is [lo] or [lo + 1] at exponent [ex + k] *)
  assert (Hval : value m e = (IZR lo * p2 (ex + k))%R
                 \/ value m e = (IZR (lo + 1) * p2 (ex + k))%R).
  { unfold value. destruct Hcases as [[-> [-> | ->]]|(-> & -> & Htop)].
    - left. reflexivity.
    - right. reflexivity.
    - right. rewrite Htop. rewrite (p2_add (ex + k) 1), p2_1.
      change (2 ^ 53) with (2 ^ 52 * 2).
      rewrite mult_IZR. lra. }
  (* the exact real lies between the same two *)
  assert (Hx' : (IZR lo * p2 (ex + k) <= x <= IZR (lo + 1) * p2 (ex + k))%R).
  { rewrite (Z.add_comm ex k), p2_add, (p2_IZR k) by lia.
    pose proof (p2_pos ex) as Hpe.
    destruct Hdiv as [H1 H2]. apply IZR_le in H1.
    assert (H2' : mx + 1 <= (lo + 1) * 2 ^ k) by lia. apply IZR_le in H2'.
    rewrite mult_IZR in H1, H2'. destruct Hx as [Hx1 Hx2]. split.
    - apply Rle_trans with (IZR mx * p2 ex)%R; [|exact Hx1]. nra.
    - apply Rle_trans with (IZR (mx + 1) * p2 ex)%R; [exact Hx2|]. nra. }
  assert (Hunit : (p2 (ex + k) <= x * p2 (-52))%R).
  { apply IZR_le in Hlo52. rewrite <- (p2_IZR 52) in Hlo52 by lia.
    pose proof (p2_pos (ex + k)) as Hpe. pose proof (p2_pos (-52)) as Hp52.
    assert (H1 : (p2 52 * p2 (-52) = 1)%R)
      by (rewrite <- p2_add; reflexivity).
    assert (H2 : (p2 52 * p2 (ex + k) <= x)%R) by (destruct Hx'; nra).
    assert (H3 : (p2 52 * p2 (ex + k) * p2 (-52) <= x * p2 (-52))%R) by nra.
    replace (p2 52 * p2 (ex + k) * p2 (-52))%R
      with (p2 (ex + k) * (p2 52 * p2 (-52)))%R in H3 by ring.
    rewrite H1 in H3. lra. }
  rewrite plus_IZR in Hval, Hx'.
  apply Rabs_le. destruct Hval as [-> | ->]; destruct Hx'; split; lra.
Qed.

(** The product of two doubles. *)
Lemma mul_error (mx my : positive) (ex ey : Z) :
  2 ^ 52 <= Z.pos mx < 2 ^ 53 -> 2 ^ 52 <= Z.pos my < 2 ^ 53 ->
  -1000 <= ex + ey <= 900 ->
  exists m e,
    Number.mul (S754_finite false mx ex) (S754_finite false my ey)
    = S754_finite false m e
    /\ 2 ^ 52 <= Z.pos m < 2 ^ 53
    /\ ex + ey + 52 <= e <= ex + ey + 54
    /\ (Rabs (value m e - value mx ex * value my ey)
        <= value mx ex * value my ey * p2 (-52))%R.
Proof.
  intros Hx Hy He. unfold Number.mul, SFmul, Number.prec, Number.emax.
  cbn [xorb].
  assert (HP : 2 ^ 104 <= Z.pos (mx * my) < 2 ^ 106).
  { rewrite Pos2Z.inj_mul. change (2 ^ 104) with (2 ^ 52 * 2 ^ 52).
    change (2 ^ 106) with (2 ^ 53 * 2 ^ 53). nia. }
  assert (Hd : 105 <= Zdigits2 (Z.pos (mx * my)) <= 106).
  { pose proof (Zdigits2_bounds (Z.pos (mx * my)) ltac:(lia)) as [Dlo Dhi].
    split.
    - destruct (Z.le_gt_cases 105 (Zdigits2 (Z.pos (mx * my)))) as [|Hlt];
        [assumption|].
      assert (2 ^ Zdigits2 (Z.pos (mx * my)) <= 2 ^ 104)
        by (apply Z.pow_le_mono_r; lia). lia.
    - destruct (Z.le_gt_cases (Zdigits2 (Z.pos (mx * my))) 106) as [|Hgt];
        [assumption|].
      assert (2 ^ 106 <= 2 ^ (Zdigits2 (Z.pos (mx * my)) - 1))
        by (apply Z.pow_le_mono_r; lia). lia. }
  destruct (binary_round_aux_error (Z.pos (mx * my)) (ex + ey) loc_Exact
              (value mx ex * value my ey))
    as (m & e & Heq & Hm & Hexp & Herr).
  - assert (2 ^ 52 <= 2 ^ 104) by (apply Z.pow_le_mono_r; lia). lia.
  - lia.
  - lia.
  - unfold value. rewrite p2_add, Pos2Z.inj_mul, plus_IZR, mult_IZR.
    pose proof (p2_pos ex). pose proof (p2_pos ey).
    assert (0 < p2 ex * p2 ey)%R by (apply Rmult_lt_0_compat; assumption).
    split; [right; ring|]. 
    replace (IZR (Z.pos mx) * p2 ex * (IZR (Z.pos my) * p2 ey))%R
      with (IZR (Z.pos mx) * IZR (Z.pos my) * (p2 ex * p2 ey))%R by ring.
    nra.
  - exists m, e. split; [exact Heq|]. split; [exact Hm|].
    split; [lia|exact Herr].
Qed.

(** The quotient of two doubles. *)
Lemma div_error (m1 m2 : positive) (e1 e2 : Z) :
  2 ^ 52 <= Z.pos m1 < 2 ^ 53 -> 2 ^ 52 <= Z.pos m2 < 2 ^ 53 ->
  -900 <= e1 - e2 <= 900 ->
  exists m e,
    Number.div (S754_finite false m1 e1) (S754_finite false m2 e2)
    = S754_finite false m e
    /\ 2 ^ 52 <= Z.pos m < 2 ^ 53
    /\ e1 - e2 - 53 <= e <= e1 - e2 - 51
    /\ (Rabs (value m e - value m1 e1 / value m2 e2)
        <= value m1 e1 / value m2 e2 * p2 (-52))%R.
Proof.
  intros H1 H2 He. unfold Number.div, SFdiv. cbn [xorb].
  assert (Hd1 : Zdigits2 (Z.pos m1) = 53)
    by (apply Zdigits2_unique; [exact H1|lia]).
  assert (Hd2 : Zdigits2 (Z.pos m2) = 53)
    by (apply Zdigits2_unique; [exact H2|lia]).
  unfold SFdiv_core_binary, fexp, emin, Number.prec, Number.emax.
  rewrite Hd1, Hd2.
  replace (Z.min (Z.max (53 + e1 - (53 + e2) - 53) (3 - 1024 - 53)) (e1 - e2))
    with (e1 - e2 - 53) by lia.
  replace (e1 - e2 - (e1 - e2 - 53)) with 53 by lia.
  cbv iota. rewrite Z.shiftl_mul_pow2 by lia.
  pose proof (Z_div_mod (Z.pos m1 * 2 ^ 53) (Z.pos m2) ltac:(lia)) as Hdm.
  destruct (Z.div_eucl (Z.pos m1 * 2 ^ 53) (Z.pos m2)) as [q r].
  destruct Hdm as [Hq Hr].
  assert (Hq52 : 2 ^ 52 <= q < 2 ^ 54).
  { change (2 ^ 54) with (2 * 2 ^ 53). change (2 ^ 53) with (2 * 2 ^ 52) in *.
    nia. }
  assert (Hd : 53 <= Zdigits2 q <= 54).
  { pose proof (Zdigits2_bounds q ltac:(lia)) as [Dlo Dhi]. split.
    - destruct (Z.le_gt_cases 53 (Zdigits2 q)) as [|Hlt]; [assumption|].
      assert (2 ^ Zdigits2 q <= 2 ^ 52) by (apply Z.pow_le_mono_r; lia). lia.
    - destruct (Z.le_gt_cases (Zdigits2 q) 54) as [|Hgt]; [assumption|].
      assert (2 ^ 54 <= 2 ^ (Zdigits2 q - 1)) by (apply Z.pow_le_mono_r; lia).
      lia. }
  destruct (binary_round_aux_error q (e1 - e2 - 53)
              (new_location (Z.pos m2) r) (value m1 e1 / value m2 e2))
    as (m & e & Heq & Hm & Hexp & Herr); try lia;
    [|exists m, e; split; [exact Heq|]; split; [exact Hm|];
      split; [lia|exact Herr]].
  (* the exact quotient lies between [q] and [q + 1] at this exponent *)
  unfold value.
  pose proof (p2_pos e1) as P1. pose proof (p2_pos e2) as P2.
  pose proof (p2_pos (e1 - e2 - 53)) as P3.
  assert (Hm2 : (0 < IZR (Z.pos m2))%R) by (apply IZR_lt; lia).
  assert (Hpe : (p2 e1 = p2 (e1 - e2 - 53) * IZR (2 ^ 53) * p2 e2)%R).
  { rewrite <- (p2_IZR 53), <- !p2_add by lia. f_equal. lia. }
  assert (Hquot : (IZR (Z.pos m1) * p2 e1 / (IZR (Z.pos m2) * p2 e2)
                   = IZR (Z.pos m1 * 2 ^ 53) / IZR (Z.pos m2)
                     * p2 (e1 - e2 - 53))%R).
  { rewrite Hpe, mult_IZR. field. split; lra. }
  rewrite Hquot. rewrite Hq, plus_IZR, mult_IZR, plus_IZR.
  assert (Hr0 : (0 <= IZR r)%R) by (apply IZR_le; lia).
  assert (Hr1 : (IZR r < IZR (Z.pos m2))%R) by (apply IZR_lt; lia).
  replace ((IZR (Z.pos m2) * IZR q + IZR r) / IZR (Z.pos m2))%R
    with (IZR q + IZR r / IZR (Z.pos m2))%R by (field; lra).
  assert (Hfrac : (0 <= IZR r / IZR (Z.pos m2) < 1)%R).
  { split.
    - apply Rmult_le_pos; [exact Hr0|]. left. apply Rinv_0_lt_compat, Hm2.
    - apply Rmult_lt_reg_r with (IZR (Z.pos m2)); [exact Hm2|].
      replace (IZR r / IZR (Z.pos m2) * IZR (Z.pos m2))%R with (IZR r)
        by (field; lra). lra. }
  split; nra.
Qed.

(** [Math.round] of a positive double below 2^52 is the integer [n] with
    [n <= x + 1/2 < n + 1]. *)
Lemma Math_round_spec (m : positive) (e : Z) :
  e < 0 ->
  exists n,
    Number.Math_round (S754_finite false m e) = Number.of_Z n
    /\ (IZR n <= value m e + / 2 < IZR n + 1)%R.
Proof.
  intros He. exists ((2 * Z.pos m + 2 ^ (- e)) / 2 ^ (1 - e)). split.
  - unfold Number.Math_round. replace (0 <=? e) with false by lia.
    cbn [cond_Zopp].
    destruct (_ =? 0) eqn:Hz; [|reflexivity].
    apply Z.eqb_eq in Hz. rewrite Hz. reflexivity.
  - set (N := 2 * Z.pos m + 2 ^ (- e)). set (D := 2 ^ (1 - e)).
    assert (HD : 0 < D) by (apply Z.pow_pos_nonneg; lia).
    pose proof (Z.mul_div_le N D HD) as Hle.
    pose proof (Z.mul_succ_div_gt N D HD) as Hgt.
    apply IZR_le in Hle. apply IZR_lt in Hgt.
    unfold Z.succ in Hgt. rewrite mult_IZR in Hle, Hgt. rewrite plus_IZR in Hgt.
    assert (HN : (IZR N = IZR D * (value m e + / 2))%R).
    { unfold N, D, value. rewrite plus_IZR, mult_IZR.
      rewrite <- !p2_IZR by lia.
      replace (1 - e) with (1 + - e) by lia. rewrite p2_add, p2_1.
      assert (H1 : (p2 (- e) * p2 e = 1)%R).
      { rewrite <- p2_add. replace (- e + e) with 0 by lia. reflexivity. }
      transitivity (2 * IZR (Z.pos m) * (p2 (- e) * p2 e) + p2 (- e))%R;
        [rewrite H1; ring|field]. }
    assert (HDr : (0 < IZR D)%R) by (apply IZR_lt; exact HD).
    rewrite HN in Hle, Hgt. split; nra.
Qed.

Lemma value_100 : value 7036874417766400 (-46) = 100%R.
Proof.
  unfold value. change (Z.pos 7036874417766400) with (100 * 2 ^ 46).
  rewrite mult_IZR, <- (p2_IZR 46) by lia.
  assert (H1 : (p2 46 * p2 (-46) = 1)%R) by (rewrite <- p2_add; reflexivity).
  transitivity (100 * (p2 46 * p2 (-46)))%R; [ring|rewrite H1; ring].
Qed.

(** C2, as stated, fails: for 2 bytes sent out of 3 the callback receives
    67, the nearest integer to 66.67, where the floor is 66. *)
Lemma C2_floor_counterexample :
  xhr_upload_onprogress true 2 3 = Some (Number.of_Z 67)
  /\ floor_percentage 2 3 = 66
  /\ xhr_upload_onprogress true 2 3 <> Some (Number.of_Z (floor_percentage 2 3)).
Proof.
  split; [vm_compute; reflexivity|]. split; [reflexivity|].
  vm_compute. intros H. discriminate H.
Qed.

Lemma Rabs_bounds (a b : R) : (Rabs a <= b -> - b <= a <= b)%R.
Proof. unfold Rabs. destruct (Rcase_abs a); lra. Qed.

(** The exponent of a smaller integer is not the larger. *)
Lemma of_Z_exponent_mono (s t : Z) (ms mt : positive) (es et : Z) :
  0 < s <= t ->
  2 ^ 52 <= Z.pos ms < 2 ^ 53 -> 2 ^ 52 <= Z.pos mt < 2 ^ 53 ->
  es <= 0 -> et <= 0 ->
  Z.pos ms = s * 2 ^ (- es) -> Z.pos mt = t * 2 ^ (- et) ->
  es <= et.
Proof.
  intros Hst Hms Hmt Hes Het Es Et.
  destruct (Z.le_gt_cases es et) as [|Hgt]; [assumption|exfalso].
  assert (Hpow : 2 * 2 ^ (- es) <= 2 ^ (- et)).
  { rewrite <- Z.pow_succ_r by lia. apply Z.pow_le_mono_r; lia. }
  assert (0 < 2 ^ (- es)) by (apply Z.pow_pos_nonneg; lia).
  nia.
Qed.

(** C2, amended. For every measurable progress event with [0 <= loaded <=
    total] and [0 < total] (below 2^53, where integers are doubles), the
    percentage handed to the callback is [Math.round] of the double
    [(loaded / total) * 100]: an integer within one half, up to 2^-40, of
    the exact [100 * loaded / total]; it is the floor of the claim or the
    floor plus one. *)
Theorem C2_progress_percentage (loaded total : Z) :
  0 <= loaded <= total -> 0 < total < 2 ^ 53 ->
  exists pct,
    xhr_upload_onprogress true loaded total = Some (Number.of_Z pct)
    /\ floor_percentage loaded total <= pct <= floor_percentage loaded total + 1
    /\ (Rabs (IZR pct - 100 * IZR loaded / IZR total) <= / 2 + / 2 ^ 40)%R.
Proof.
  intros Hl Ht. unfold xhr_upload_onprogress, floor_percentage.
  assert (Htr : (0 < IZR total)%R) by (apply IZR_lt; lia).
  destruct (of_Z_exact total ltac:(lia)) as (mt & et & -> & Hmt & Het & Et).
  change (Number.of_Z 100) with (S754_finite false 7036874417766400 (-46)).
  destruct (Z.eq_dec loaded 0) as [->|Hne].
  - exists 0. split; [reflexivity|]. split; [rewrite Z.div_0_l; lia|].
    unfold Rdiv. rewrite Rmult_0_r, Rmult_0_l, Rminus_0_r, Rabs_R0.
    assert (0 < / 2 ^ 40)%R by (apply Rinv_0_lt_compat; lra). lra.
  - destruct (of_Z_exact loaded ltac:(lia)) as (ms & es & -> & Hms & Hes & Es).
    pose proof (of_Z_exponent_mono loaded total ms mt es et
                  ltac:(lia) Hms Hmt ltac:(lia) ltac:(lia) Es Et) as Hmono.
    destruct (div_error ms mt es et Hms Hmt ltac:(lia))
      as (mq & eq & -> & Hmq & Heq & Herrq).
    destruct (mul_error mq 7036874417766400 eq (-46) Hmq ltac:(lia) ltac:(lia))
      as (my & ey & -> & Hmy & Hey & Herry).
    destruct (Math_round_spec my ey ltac:(lia)) as (n & -> & Hn).
    exists n. split; [reflexivity|].
    (* the exact quotient *)
    set (x := (IZR loaded / IZR total)%R).
    assert (Hx : (value ms es / value mt et = x)%R).
    { unfold value, x. rewrite Es, Et, !mult_IZR, <- !p2_IZR by lia.
      assert (H1 : (p2 (- es) * p2 es = 1)%R)
        by (rewrite <- p2_add; replace (- es + es) with 0 by lia; reflexivity).
      assert (H2 : (p2 (- et) * p2 et = 1)%R)
        by (rewrite <- p2_add; replace (- et + et) with 0 by lia; reflexivity).
      replace (IZR loaded * p2 (- es) * p2 es)%R
        with (IZR loaded * (p2 (- es) * p2 es))%R by ring.
      replace (IZR total * p2 (- et) * p2 et)%R
        with (IZR total * (p2 (- et) * p2 et))%R by ring.
      rewrite H1, H2, !Rmult_1_r. reflexivity. }
    rewrite Hx, value_100 in *.
    assert (Hx01 : (0 < x <= 1)%R).
    { unfold x. assert (0 < IZR loaded)%R by (apply IZR_lt; lia).
      assert (IZR loaded <= IZR total)%R by (apply IZR_le; lia). split.
      - apply Rdiv_lt_0_compat; assumption.
      - apply Rmult_le_reg_r with (IZR total); [exact Htr|].
        unfold Rdiv. rewrite Rmult_assoc, Rinv_l by lra. lra. }
    (* one part in 2^52 *)
    assert (Heps : (0 < p2 (-52) /\ p2 (-52) * 4503599627370496 = 1)%R).
    { split; [apply p2_pos|].
      change 4503599627370496%R with (IZR (2 ^ 52)).
      rewrite <- (p2_IZR 52), <- p2_add by lia. reflexivity. }
    set (eps := p2 (-52)) in *. destruct Heps as [Heps0 Heps1].
    apply Rabs_bounds in Herrq, Herry.
    set (vq := value mq eq) in *. set (vy := value my ey) in *.
    assert (Hvq : (0 < vq <= 2)%R) by (split; nra).
    assert (Hclose : (Rabs (vy - 100 * x) <= / 2 ^ 40)%R).
    { assert (H40 : (/ 2 ^ 40 = 4096 * eps)%R).
      { apply Rmult_eq_reg_r with (2 ^ 40)%R; [|lra].
        rewrite Rinv_l by lra.
        replace (4096 * eps * 2 ^ 40)%R with (eps * 4503599627370496)%R
          by (simpl; ring).
        rewrite Heps1. reflexivity. }
      rewrite H40. apply Rabs_le.
      assert (x * eps <= eps)%R by nra.
      assert (vq * eps <= 2 * eps)%R by nra.
      split; lra. }
    apply Rabs_bounds in Hclose.
    assert (H40 : (0 < / 2 ^ 40 < / 4)%R).
    { split; [apply Rinv_0_lt_compat; lra|].
      apply Rinv_lt_contravar; simpl; lra. }
    (* the floor of the exact percentage *)
    set (F := 100 * loaded / total).
    assert (HF : (IZR F <= 100 * x < IZR F + 1)%R).
    { pose proof (Z.mul_div_le (100 * loaded) total ltac:(lia)) as Hle.
      pose proof (Z.mul_succ_div_gt (100 * loaded) total ltac:(lia)) as Hgt.
      fold F in Hle, Hgt. apply IZR_le in Hle. apply IZR_lt in Hgt.
      unfold Z.succ in Hgt. rewrite !mult_IZR in Hle, Hgt.
      rewrite plus_IZR in Hgt.
      assert (Hxt : (100 * x * IZR total = 100 * IZR loaded)%R).
      { unfold x. field. lra. }
      split.
      - apply Rmult_le_reg_r with (IZR total); [exact Htr|]. rewrite Hxt. lra.
      - apply Rmult_lt_reg_r with (IZR total); [exact Htr|]. rewrite Hxt. lra. }
    split; [split|].
    + destruct (Z.le_gt_cases F n) as [|Hlt]; [assumption|exfalso].
      assert (Hz : n + 1 <= F) by lia. apply IZR_le in Hz.
      rewrite plus_IZR in Hz. lra.
    + destruct (Z.le_gt_cases n (F + 1)) as [|Hgt]; [assumption|exfalso].
      assert (Hz : F + 2 <= n) by lia. apply IZR_le in Hz.
      rewrite plus_IZR in Hz. lra.
    + replace (100 * IZR loaded / IZR total)%R with (100 * x)%R
        by (unfold x; field; lra).
      apply Rabs_le. split; lra.
Qed.

Lemma C2_progress_percentage_witness :
  exists pct,
    xhr_upload_onprogress true 2 3 = Some (Number.of_Z pct)
    /\ 66 <= pct <= 67.
Proof.
  destruct (C2_progress_percentage 2 3) as (pct & H1 & H2 & _).
  - lia.
  - split; [lia|reflexivity].
  - exists pct. split; [exact H1|]. exact H2.
Defined.

(** ** Further properties of the upload percentage *)

(** The percentage is an integer within a half, up to 2^-40, of the exact
    one. *)
Lemma progress_rounds (loaded total : Z) :
  0 <= loaded <= total -> 0 < total < 2 ^ 53 ->
  exists pct,
    xhr_upload_onprogress true loaded total = Some (Number.of_Z pct)
    /\ (Rabs (IZR pct - 100 * IZR loaded / IZR total) <= / 2 + / 2 ^ 40)%R.
Proof.
  intros Hl Ht. unfold xhr_upload_onprogress.
  assert (Htr : (0 < IZR total)%R) by (apply IZR_lt; lia).
  destruct (of_Z_exact total ltac:(lia)) as (mt & et & -> & Hmt & Het & Et).
  change (Number.of_Z 100) with (S754_finite false 7036874417766400 (-46)).
  destruct (Z.eq_dec loaded 0) as [->|Hne].
  - exists 0. split; [reflexivity|].
    unfold Rdiv. rewrite Rmult_0_r, Rmult_0_l, Rminus_0_r, Rabs_R0.
    assert (0 < / 2 ^ 40)%R by (apply Rinv_0_lt_compat; lra). lra.
  - destruct (of_Z_exact loaded ltac:(lia)) as (ms & es & -> & Hms & Hes & Es).
    pose proof (of_Z_exponent_mono loaded total ms mt es et
                  ltac:(lia) Hms Hmt ltac:(lia) ltac:(lia) Es Et) as Hmono.
    destruct (div_error ms mt es et Hms Hmt ltac:(lia))
      as (mq & eq & -> & Hmq & Heq & Herrq).
    destruct (mul_error mq 7036874417766400 eq (-46) Hmq ltac:(lia) ltac:(lia))
      as (my & ey & -> & Hmy & Hey & Herry).
    destruct (Math_round_spec my ey ltac:(lia)) as (n & -> & Hn).
    exists n. split; [reflexivity|].
    (* the exact quotient *)
    set (x := (IZR loaded / IZR total)%R).
    assert (Hx : (value ms es / value mt et = x)%R).
    { unfold value, x. rewrite Es, Et, !mult_IZR, <- !p2_IZR by lia.
      assert (H1 : (p2 (- es) * p2 es = 1)%R)
        by (rewrite <- p2_add; replace (- es + es) with 0 by lia; reflexivity).
      assert (H2 : (p2 (- et) * p2 et = 1)%R)
        by (rewrite <- p2_add; replace (- et + et) with 0 by lia; reflexivity).
      replace (IZR loaded * p2 (- es) * p2 es)%R
        with (IZR loaded * (p2 (- es) * p2 es))%R by ring.
      replace (IZR total * p2 (- et) * p2 et)%R
        with (IZR total * (p2 (- et) * p2 et))%R by ring.
      rewrite H1, H2, !Rmult_1_r. reflexivity. }
    rewrite Hx, value_100 in *.
    assert (Hx01 : (0 < x <= 1)%R).
    { unfold x. assert (0 < IZR loaded)%R by (apply IZR_lt; lia).
      assert (IZR loaded <= IZR total)%R by (apply IZR_le; lia). split.
      - apply Rdiv_lt_0_compat; assumption.
      - apply Rmult_le_reg_r with (IZR total); [exact Htr|].
        unfold Rdiv. rewrite Rmult_assoc, Rinv_l by lra. lra. }
    (* one part in 2^52 *)
    assert (Heps : (0 < p2 (-52) /\ p2 (-52) * 4503599627370496 = 1)%R).
    { split; [apply p2_pos|].
      change 4503599627370496%R with (IZR (2 ^ 52)).
      rewrite <- (p2_IZR 52), <- p2_add by lia. reflexivity. }
    set (eps := p2 (-52)) in *. destruct Heps as [Heps0 Heps1].
    apply Rabs_bounds in Herrq, Herry.
    set (vq := value mq eq) in *. set (vy := value my ey) in *.
    assert (Hvq : (0 < vq <= 2)%R) by (split; nra).
    assert (Hclose : (Rabs (vy - 100 * x) <= / 2 ^ 40)%R).
    { assert (H40 : (/ 2 ^ 40 = 4096 * eps)%R).
      { apply Rmult_eq_reg_r with (2 ^ 40)%R; [|lra].
        rewrite Rinv_l by lra.
        replace (4096 * eps * 2 ^ 40)%R with (eps * 4503599627370496)%R
          by (simpl; ring).
        rewrite Heps1. reflexivity. }
      rewrite H40. apply Rabs_le.
      assert (x * eps <= eps)%R by nra.
      assert (vq * eps <= 2 * eps)%R by nra.
      split; lra. }
    apply Rabs_bounds in Hclose.
    assert (H40 : (0 < / 2 ^ 40 < / 4)%R).
    { split; [apply Rinv_0_lt_compat; lra|].
      apply Rinv_lt_contravar; simpl; lra. }
    replace (100 * IZR loaded / IZR total)%R with (100 * x)%R
      by (unfold x; field; lra).
    apply Rabs_le. split; lra.
Qed.

(** X17. For a measurable progress event with [0 <= loaded <= total] the
    percentage handed to the callback is an integer from 0 to 100. *)
Theorem percentage_in_range (loaded total : Z) :
  0 <= loaded <= total -> 0 < total < 2 ^ 53 ->
  exists pct,
    xhr_upload_onprogress true loaded total = Some (Number.of_Z pct)
    /\ 0 <= pct <= 100.
Proof.
  intros Hl Ht.
  destruct (progress_rounds loaded total Hl Ht) as (n & Hn & Hb).
  exists n. split; [exact Hn|].
  apply Rabs_bounds in Hb.
  assert (Htr : (0 < IZR total)%R) by (apply IZR_lt; lia).
  assert (Hx : (0 <= 100 * IZR loaded / IZR total <= 100)%R).
  { assert (0 <= IZR loaded)%R by (apply IZR_le; lia).
    assert (IZR loaded <= IZR total)%R by (apply IZR_le; lia).
    split.
    - apply Rmult_le_reg_r with (IZR total); [exact Htr|].
      unfold Rdiv. rewrite Rmult_assoc, Rinv_l by lra. lra.
    - apply Rmult_le_reg_r with (IZR total); [exact Htr|].
      unfold Rdiv. rewrite Rmult_assoc, Rinv_l by lra. lra. }
  assert (H40 : (0 < / 2 ^ 40 < / 4)%R).
  { split; [apply Rinv_0_lt_compat; lra|].
    apply Rinv_lt_contravar; simpl; lra. }
  split.
  - destruct (Z.le_gt_cases 0 n) as [|Hlt]; [assumption|exfalso].
    assert (Hz : n <= -1) by lia. apply IZR_le in Hz. lra.
  - destruct (Z.le_gt_cases n 100) as [|Hgt]; [assumption|exfalso].
    assert (Hz : 101 <= n) by lia. apply IZR_le in Hz. lra.
Qed.

Lemma percentage_in_range_witness :
  exists pct,
    xhr_upload_onprogress true 1 7 = Some (Number.of_Z pct) /\ 0 <= pct <= 100.
Proof.
  destruct (percentage_in_range 1 7) as (pct & H1 & H2).
  - lia.
  - split; [lia|reflexivity].
  - exists pct. split; assumption.
Defined.

(** X18. With nothing sent the percentage is exactly 0; with everything sent
    it is exactly 100. *)
Theorem percentage_at_the_ends (total : Z) :
  0 < total < 2 ^ 53 ->
  xhr_upload_onprogress true 0 total = Some Number.zero
  /\ xhr_upload_onprogress true total total = Some (Number.of_Z 100).
Proof.
  intros Ht. split.
  - unfold xhr_upload_onprogress.
    destruct (of_Z_exact total Ht) as (m & e & -> & _). reflexivity.
  - destruct (progress_rounds total total ltac:(lia) Ht) as (n & -> & Hb).
    apply Rabs_bounds in Hb.
    assert (Htr : (0 < IZR total)%R) by (apply IZR_lt; lia).
    replace (100 * IZR total / IZR total)%R with 100%R in Hb by (field; lra).
    assert (H40 : (0 < / 2 ^ 40 < / 4)%R).
    { split; [apply Rinv_0_lt_compat; lra|].
      apply Rinv_lt_contravar; simpl; lra. }
    assert (n = 100); [|subst n; reflexivity].
    destruct (Z.lt_trichotomy n 100) as [Hlt|[Heq|Hgt]]; [exfalso|exact Heq|exfalso].
    + assert (Hz : n <= 99) by lia. apply IZR_le in Hz. lra.
    + assert (Hz : 101 <= n) by lia. apply IZR_le in Hz. lra.
Qed.

Lemma percentage_at_the_ends_witness :
  xhr_upload_onprogress true 0 2048 = Some Number.zero
  /\ xhr_upload_onprogress true 2048 2048 = Some (Number.of_Z 100).
Proof. apply (percentage_at_the_ends 2048). split; [lia|reflexivity]. Defined.

(** For totals below 2^39 the percentage is a nearest integer to the exact
    one: the error of the double arithmetic is below the gap between two
    fractions of denominator [2 * total]. *)
Lemma progress_nearest (loaded total : Z) :
  0 <= loaded <= total -> 0 < total < 2 ^ 39 ->
  exists n,
    xhr_upload_onprogress true loaded total = Some (Number.of_Z n)
    /\ 200 * loaded - total <= 2 * total * n <= 200 * loaded + total.
Proof.
  intros Hl Ht.
  destruct (progress_rounds loaded total Hl ltac:(lia)) as (n & Hn & Hb).
  exists n. split; [exact Hn|].
  apply Rabs_bounds in Hb.
  assert (Htr : (0 < IZR total)%R) by (apply IZR_lt; lia).
  assert (Hy : (IZR total * (100 * IZR loaded / IZR total) = 100 * IZR loaded)%R)
    by (field; lra).
  set (y := (100 * IZR loaded / IZR total)%R) in *.
  set (d := (/ 2 ^ 40)%R) in *.
  assert (Hd : (0 < d /\ 2 * IZR total * d < 1)%R).
  { assert (Hd0 : (0 < d)%R) by (apply Rinv_0_lt_compat; lra).
    split; [exact Hd0|].
    assert (Hlt : (2 * IZR total < 2 ^ 40)%R).
    { assert (Hp : (2 ^ 40 = 1099511627776)%R) by (simpl; lra).
      assert (Hz : total + 1 <= 549755813888) by lia.
      apply IZR_le in Hz. rewrite plus_IZR in Hz. lra. }
    replace 1%R with (2 ^ 40 * d)%R by (unfold d; field; lra).
    apply Rmult_lt_compat_r; assumption. }
  destruct Hd as [Hd0 Hd1]. destruct Hb as [Hb1 Hb2].
  apply (Rmult_le_compat_l (IZR total)) in Hb1; [|lra].
  apply (Rmult_le_compat_l (IZR total)) in Hb2; [|lra].
  split.
  - destruct (Z.le_gt_cases (200 * loaded - total) (2 * total * n))
      as [|Hgt]; [assumption|exfalso].
    assert (Hz : 2 * total * n + 1 <= 200 * loaded - total) by lia.
    apply IZR_le in Hz. rewrite plus_IZR, minus_IZR, !mult_IZR in Hz.
    nra.
  - destruct (Z.le_gt_cases (2 * total * n) (200 * loaded + total))
      as [|Hgt]; [assumption|exfalso].
    assert (Hz : 200 * loaded + total + 1 <= 2 * total * n) by lia.
    apply IZR_le in Hz. rewrite !plus_IZR, !mult_IZR in Hz.
    nra.
Qed.

(** X19. For totals below 2^39 bytes the rounding errors of the double
    arithmetic never show: the percentage is an integer nearest to the exact
    [100 * loaded / total], and away from the ties it is the exact quotient
    rounded half up. *)
Theorem percentage_nearest (loaded total : Z) :
  0 <= loaded <= total -> 0 < total < 2 ^ 39 ->
  exists pct,
    xhr_upload_onprogress true loaded total = Some (Number.of_Z pct)
    /\ 200 * loaded - total <= 2 * total * pct <= 200 * loaded + total
    /\ ((200 * loaded + total) mod (2 * total) <> 0 ->
        pct = (200 * loaded + total) / (2 * total)).
Proof.
  intros Hl Ht.
  destruct (progress_nearest loaded total Hl Ht) as (n & Hn & Hb).
  exists n. split; [exact Hn|]. split; [exact Hb|].
  intros Htie.
  pose proof (Z.div_mod (200 * loaded + total) (2 * total) ltac:(lia)) as Hdm.
  pose proof (Z.mod_pos_bound (200 * loaded + total) (2 * total) ltac:(lia)) as Hr.
  set (N := (200 * loaded + total) / (2 * total)) in *.
  set (r := (200 * loaded + total) mod (2 * total)) in *.
  nia.
Qed.

Lemma percentage_nearest_witness :
  exists pct,
    xhr_upload_onprogress true 2 3 = Some (Number.of_Z pct) /\ pct = 67.
Proof.
  destruct (percentage_nearest 2 3) as (pct & H1 & _ & H3).
  - lia.
  - split; [lia|reflexivity].
  - exists pct. split; [exact H1|]. apply H3. vm_compute. discriminate.
Defined.

(** The comparisons of the upload bar on the percentages 0 to 100. *)
Lemma upload_bar_of_Z (n : Z) :
  0 <= n <= 100 ->
  SFltb Number.zero (Number.of_Z n) = (0 <? n)
  /\ SFltb (Number.of_Z n) (Number.of_Z 100) = (n <? 100).
Proof.
  intros Hn.
  assert (Hall : forallb (fun i =>
            let k := Z.of_nat i in
            Bool.eqb (SFltb Number.zero (Number.of_Z k)) (0 <? k)
            && Bool.eqb (SFltb (Number.of_Z k) (Number.of_Z 100)) (k <? 100))
          (seq 0 101) = true) by (vm_compute; reflexivity).
  rewrite forallb_forall in Hall.
  specialize (Hall (Z.to_nat n)). rewrite Z2Nat.id in Hall by lia.
  cbv zeta in Hall.
  destruct (andb_prop _ _ (Hall ltac:(apply in_seq; lia))) as [H1 H2].
  split; apply eqb_prop; assumption.
Qed.

(** X20. The upload bar, rendered while [0 < uploadProgress < 100], is shown
    after a progress event exactly when more than 0.5% and less than 99.5% of
    the bytes have been sent; in particular it is hidden once everything is
    sent, before the server answers. *)
Theorem upload_bar_window (w : World) (k : nat) (loaded total : Z) :
  mounted w = true -> is_pending k w = true ->
  0 <= loaded <= total -> 0 < total < 2 ^ 39 ->
  200 * loaded <> total -> 200 * loaded <> 199 * total ->
  exists w',
    step (XhrProgress k true loaded total) w = Some w'
    /\ shows_upload_bar (st w')
       = (total <? 200 * loaded) && (200 * loaded <? 199 * total).
Proof.
  intros Hm Hk Hl Ht Hlo Hhi.
  destruct (progress_nearest loaded total Hl Ht) as (n & Hn & Hb).
  eexists. split.
  { unfold step, handle. rewrite Hk, Hn. reflexivity. }
  rewrite st_render. unfold shows_upload_bar.
  replace (uploadProgress (st (set_state (setUploadProgress (Number.of_Z n)) w)))
    with (Number.of_Z n) by (open_world w; subst m; reflexivity).
  assert (Hrange : 0 <= n <= 100) by nia.
  destruct (upload_bar_of_Z n Hrange) as [-> ->].
  destruct (Z.ltb_spec 0 n), (Z.ltb_spec n 100),
    (Z.ltb_spec total (200 * loaded)),
    (Z.ltb_spec (200 * loaded) (199 * total)); try reflexivity; exfalso; nia.
Qed.

Lemma upload_bar_window_witness :
  exists w',
    step (XhrProgress 0 true 2048 2048) uploading = Some w'
    /\ shows_upload_bar (st w') = false.
Proof.
  destruct (upload_bar_window uploading 0 2048 2048) as (w' & H1 & H2).
  - reflexivity.
  - vm_compute. reflexivity.
  - lia.
  - split; [lia|reflexivity].
  - lia.
  - lia.
  - exists w'. split; [exact H1|]. rewrite H2. reflexivity.
Defined.
